(** * Audit Query & Detail Resolution Engine: a shallow embedding

    The development follows the TypeScript sources file by file:

    - [Js]            the JavaScript notions the code relies on (truthiness,
                      exceptions, string methods, untyped values);
    - [Model]         model/auditLog.ts, model/metadata.ts;
    - [Pagination]    hooks/useAuditPagination.ts (the page-indexed cursor cache);
    - [Filters]       hooks/useAuditFilters.ts (the filter reducer);
    - [Remote]        [window.dataverseAPI] and the module-level caches;
    - [AccessRights]  utils/accessRightsConstants.ts, services/accessRightsFormatter.ts;
    - [Principal]     services/principalService.ts;
    - [Parsers]       services/auditDetailParsers.ts;
    - [Helpers]       utils/constants.ts, utils/formatters.ts, utils/auditHelpers.ts;
    - [Service]       services/auditLogService.ts;
    - [Hooks]         hooks/useAuditLogs.ts;
    - [QueryText]     services/auditLogService.ts (the query text);
    - [MetadataParser] services/auditDetailParsers.ts (metadata changes),
                      services/metadataService.ts;
    - [Expansion]     hooks/useAuditLogs.ts (expanding a row);
    - [Sorting]       hooks/useAuditSorting.ts.

    JavaScript numbers are modelled as [Z] (page numbers, counts and bit masks
    are integers in every path studied here), optional values as [option],
    a [Map<K,V>] as stdpp's [gmap K V], values of type [unknown] as [JsValue]
    trees, and asynchronous functions as state-and-exception passing
    functions over the module state, one call running to completion before
    the next starts.

    A string is the sequence of its UTF-16 code units, one [ascii] for each:
    the strings of the model are those whose code units are below 256 (the
    Latin-1 range), and white space and letter case are those of that
    range. *)

From Stdlib Require Import ZArith String Ascii List Bool Lia.
From stdpp Require Import base option list gmap strings pretty.
Import ListNotations.
Local Open Scope Z_scope.
#[local] Set Warnings "-register-all".
#[local] Set Warnings "-automation".
#[local] Set Warnings "-notation-overridden".
#[local] Set Warnings "-ambiguous-paths".

(* ===================================================================== *)
(** ** JavaScript notions                                                 *)
(* ===================================================================== *)

Module Js.

(** A thrown value.  The code only ever logs it or reads its message. *)
Inductive JsError : Type := Error (message : string).

(** The completion of an (awaited) call: a value, or an exception. *)
Inductive Outcome (A : Type) : Type :=
| Return (a : A)
| Throw (e : JsError).
Arguments Return {A} a.
Arguments Throw {A} e.

Definition bind {A B} (m : Outcome A) (k : A -> Outcome B) : Outcome B :=
  match m with
  | Return a => k a
  | Throw e => Throw e
  end.

(** [try { m } catch (e) { h e }] *)
Definition try_catch {A} (m : Outcome A) (h : JsError -> Outcome A) : Outcome A :=
  match m with
  | Return a => Return a
  | Throw e => h e
  end.

(** Truthiness of a string: only the empty string is falsy. *)
Definition truthy_string (s : string) : bool :=
  match s with
  | EmptyString => false
  | String _ _ => true
  end.

(** Truthiness of [string | undefined]. *)
Definition truthy (o : option string) : bool :=
  match o with
  | Some s => truthy_string s
  | None => false
  end.

(** Truthiness of a number that is an integer: only [0] is falsy. *)
Definition truthy_num (n : Z) : bool := negb (n =? 0).

(** *** Strings *)

(** The double-quote character. *)
Definition dq : string := String (ascii_of_nat 34) EmptyString.

Fixpoint skip (n : nat) (s : string) : string :=
  match n, s with
  | O, _ => s
  | S n', String _ s' => skip n' s'
  | S _, EmptyString => EmptyString
  end.

(** [s.startsWith(p)] *)
Definition startsWith (s p : string) : bool := String.prefix p s.

(** [s.includes(p)] *)
Fixpoint includes (s p : string) : bool :=
  if String.prefix p s then true
  else match s with
       | EmptyString => false
       | String _ s' => includes s' p
       end.

(** [s.replace(pat, repl)] with a string pattern: the first occurrence only. *)
Fixpoint replace_first (s pat repl : string) : string :=
  if String.prefix pat s then (repl ++ skip (String.length pat) s)%string
  else match s with
       | EmptyString => EmptyString
       | String c s' => String c (replace_first s' pat repl)
       end.

(** [s.replace(/pat/g, repl)] for a literal, non-empty [pat]: every
    occurrence, left to right, without overlap.  [pending] counts the
    characters of the current match still to be dropped. *)
Fixpoint replace_all_go (pat repl : string) (pending : nat) (s : string) : string :=
  match s with
  | EmptyString => EmptyString
  | String c s' =>
      match pending with
      | S k => replace_all_go pat repl k s'
      | O =>
          if String.prefix pat s
          then (repl ++ replace_all_go pat repl (String.length pat - 1) s')%string
          else String c (replace_all_go pat repl 0 s')
      end
  end.

Definition replace_all (s pat repl : string) : string := replace_all_go pat repl 0 s.

(** White space as [\s], [trim] and [parseInt] see it: the code units of
    [WhiteSpace] and [LineTerminator] below 256, which are 9 to 13 (tab,
    line feed, vertical tab, form feed, carriage return), 32 (space) and
    160 (no-break space). *)
Definition is_space (c : ascii) : bool :=
  let n := nat_of_ascii c in
  (n =? 32)%nat || ((9 <=? n)%nat && (n <=? 13)%nat) || (n =? 160)%nat.

Definition is_digit (c : ascii) : bool :=
  let n := nat_of_ascii c in (48 <=? n)%nat && (n <=? 57)%nat.

Fixpoint trim_start (s : string) : string :=
  match s with
  | String c s' => if is_space c then trim_start s' else s
  | EmptyString => EmptyString
  end.

Fixpoint trim_end (s : string) : string :=
  match s with
  | EmptyString => EmptyString
  | String c s' =>
      match trim_end s' with
      | EmptyString => if is_space c then EmptyString else String c EmptyString
      | r => String c r
      end
  end.

Definition trim (s : string) : string := trim_end (trim_start s).

(** [s.toLowerCase()]: the capital letters below 256 are 65 to 90 and 192
    to 222 without 215 (the multiplication sign); each has its small letter
    32 code units further. *)
Definition lower (c : ascii) : ascii :=
  let n := nat_of_ascii c in
  if ((65 <=? n)%nat && (n <=? 90)%nat)
     || ((192 <=? n)%nat && (n <=? 222)%nat && negb (n =? 215)%nat)
  then ascii_of_nat (n + 32) else c.

Fixpoint toLowerCase (s : string) : string :=
  match s with
  | EmptyString => EmptyString
  | String c s' => String (lower c) (toLowerCase s')
  end.

Fixpoint digits_value (acc : Z) (seen : bool) (s : string) : option Z :=
  match s with
  | String c s' =>
      if is_digit c
      then digits_value (10 * acc + Z.of_nat (nat_of_ascii c - 48)) true s'
      else if seen then Some acc else None
  | EmptyString => if seen then Some acc else None
  end.

(** [parseInt(s, 10)]; [None] stands for [NaN].  The result is the integer
    the digits denote; [parseInt] returns the double nearest to it, which
    is that integer whenever it is at most [2^53] in absolute value. *)
Definition parseInt10 (s : string) : option Z :=
  match trim_start s with
  | String c s' =>
      if Ascii.eqb c "-" then Z.opp <$> digits_value 0 false s'
      else if Ascii.eqb c "+" then digits_value 0 false s'
      else digits_value 0 false (String c s')
  | EmptyString => None
  end.

(** *** Values

    A JavaScript value as it comes out of a JSON response, plus [undefined].
    Objects keep their own enumerable properties in [Object.keys] order;
    numbers are the integers. *)
Inductive JsValue : Type :=
| JUndefined
| JNull
| JBool (b : bool)
| JNum (n : Z)
| JStr (s : string)
| JArr (items : list JsValue)
| JObj (props : list (string * JsValue)).

Definition truthy_value (v : JsValue) : bool :=
  match v with
  | JUndefined | JNull => false
  | JBool b => b
  | JNum n => truthy_num n
  | JStr s => truthy_string s
  | JArr _ | JObj _ => true
  end.

(** [a || b] *)
Definition or_else (a b : JsValue) : JsValue := if truthy_value a then a else b.

(** [a ?? b] *)
Definition nullish_else (a b : JsValue) : JsValue :=
  match a with
  | JUndefined | JNull => b
  | _ => a
  end.

Inductive TypeOf : Type :=
  ty_undefined | ty_object | ty_boolean | ty_number | ty_string.

Definition typeof (v : JsValue) : TypeOf :=
  match v with
  | JUndefined => ty_undefined
  | JNull | JArr _ | JObj _ => ty_object
  | JBool _ => ty_boolean
  | JNum _ => ty_number
  | JStr _ => ty_string
  end.

Definition isArray (v : JsValue) : bool :=
  match v with
  | JArr _ => true
  | _ => false
  end.

Fixpoint assoc (k : string) (props : list (string * JsValue)) : JsValue :=
  match props with
  | [] => JUndefined
  | (k', v) :: rest => if String.eqb k k' then v else assoc k rest
  end.

Fixpoint index_props (i : nat) (items : list JsValue) : list (string * JsValue) :=
  match items with
  | [] => []
  | x :: rest => (pretty i, x) :: index_props (S i) rest
  end.

(** The own enumerable properties of an object or an array. *)
Definition own_props (v : JsValue) : list (string * JsValue) :=
  match v with
  | JObj props => props
  | JArr items => index_props 0 items
  | _ => []
  end.

(** [Object.keys(v)] *)
Definition keys (v : JsValue) : list string := map fst (own_props v).

(** The names of the members every object inherits from
    [Object.prototype]. *)
Definition objectPrototypeNames : list string :=
  ["constructor"; "__defineGetter__"; "__defineSetter__"; "hasOwnProperty";
   "__lookupGetter__"; "__lookupSetter__"; "isPrototypeOf";
   "propertyIsEnumerable"; "toString"; "valueOf"; "__proto__";
   "toLocaleString"].

Definition inherited (k : string) : bool := existsb (String.eqb k) objectPrototypeNames.

(** [v[k]] where [v] is neither [undefined] nor [null]: the own property
    [k] of [v].  The members [v] inherits from its prototype are left out, so
    this is [v[k]] for every [k] that names none of them -- as is the case
    of every key the code spells out ([Attributes], [key], [value], [Name],
    [Principal], ...), on objects, arrays and primitives alike.  The names
    looked up on primitives in this code base are never [length] or an
    index, so a primitive has none of them. *)
Definition get_prop (v : JsValue) (k : string) : JsValue :=
  match v with
  | JObj props => assoc k props
  | JArr items =>
      if String.eqb k "length" then JNum (Z.of_nat (length items))
      else assoc k (index_props 0 items)
  | _ => JUndefined
  end.

Definition TypeError (what : string) : JsError := Error ("TypeError: " ++ what).

(** [v.k] for a [v] that may be [undefined] or [null]: that access throws. *)
Definition get (v : JsValue) (k : string) : Outcome JsValue :=
  match v with
  | JUndefined | JNull => Throw (TypeError "Cannot read properties of undefined")
  | _ => Return (get_prop v k)
  end.

(** An array index: the decimal text, without sign or leading zero, of an
    integer from 0 to [2^32 - 2].  [Object.keys] lists the properties named
    by an array index first, in ascending order, and the other ones after
    them in the order they were created. *)
Definition array_index (k : string) : option Z :=
  match digits_value 0 false k with
  | Some n => if String.eqb (pretty n) k && (n <? 2 ^ 32 - 1) then Some n else None
  | None => None
  end.

(** A new property named by the array index [i] takes its place among the
    properties so named. *)
Fixpoint put_index (i : Z) (k : string) (x : JsValue) (props : list (string * JsValue))
  : list (string * JsValue) :=
  match props with
  | [] => [(k, x)]
  | (k', v) :: rest =>
      match array_index k' with
      | Some j => if j <? i then (k', v) :: put_index i k x rest else (k, x) :: props
      | None => (k, x) :: props
      end
  end.

Fixpoint replace_value (k : string) (x : JsValue) (props : list (string * JsValue))
  : list (string * JsValue) :=
  match props with
  | [] => []
  | (k', v) :: rest =>
      if String.eqb k k' then (k', x) :: rest else (k', v) :: replace_value k x rest
  end.

(** [o[k] = x] on an object created by [{}] and only written to in this
    way.  An existing property keeps its place.  Assigning [__proto__]
    creates no property: it calls the setter inherited from
    [Object.prototype], which replaces the prototype of [o] when [x] is an
    object or [null] (the prototype itself is not part of the model). *)
Definition set_prop (k : string) (x : JsValue) (props : list (string * JsValue))
  : list (string * JsValue) :=
  if String.eqb k "__proto__" then props
  else if existsb (String.eqb k) (map fst props) then replace_value k x props
  else
    match array_index k with
    | Some i => put_index i k x props
    | None => props ++ [(k, x)]
    end.

(** [String(v)] *)
Fixpoint to_string (v : JsValue) : string :=
  match v with
  | JUndefined => "undefined"
  | JNull => "null"
  | JBool true => "true"
  | JBool false => "false"
  | JNum n => pretty n
  | JStr s => s
  | JArr items =>
      String.concat ","
        (List.map (fun x => match x with
                            | JUndefined | JNull => EmptyString
                            | _ => to_string x
                            end) items)
  | JObj _ => "[object Object]"
  end.

Definition hex_digit (n : nat) : ascii :=
  if (n <? 10)%nat then ascii_of_nat (48 + n) else ascii_of_nat (87 + n).

(** The escapes of [JSON.stringify] for one character. *)
Definition json_escape (c : ascii) : string :=
  let n := nat_of_ascii c in
  if (n =? 34)%nat then ("\" ++ dq)%string
  else if (n =? 92)%nat then "\\"
  else if (n =? 8)%nat then "\b"
  else if (n =? 12)%nat then "\f"
  else if (n =? 10)%nat then "\n"
  else if (n =? 13)%nat then "\r"
  else if (n =? 9)%nat then "\t"
  else if (n <? 32)%nat
       then ("\u00" ++ String (hex_digit (n / 16)) (String (hex_digit (n mod 16)) EmptyString))%string
  else String c EmptyString.

Fixpoint json_escape_all (s : string) : string :=
  match s with
  | EmptyString => EmptyString
  | String c s' => (json_escape c ++ json_escape_all s')%string
  end.

Definition json_quote (s : string) : string := (dq ++ json_escape_all s ++ dq)%string.

(** [JSON.stringify(v)]; [None] is the [undefined] it returns for
    [undefined]. *)
Fixpoint stringify (v : JsValue) : option string :=
  match v with
  | JUndefined => None
  | JNull => Some "null"
  | JBool true => Some "true"
  | JBool false => Some "false"
  | JNum n => Some (pretty n)
  | JStr s => Some (json_quote s)
  | JArr items =>
      Some ("[" ++ String.concat ","
                     (List.map (fun x => match stringify x with
                                         | Some t => t
                                         | None => "null"
                                         end) items) ++ "]")%string
  | JObj props =>
      Some ("{" ++ String.concat ","
                     (List.flat_map
                        (fun kv => match stringify (snd kv) with
                                   | Some t => [(json_quote (fst kv) ++ ":" ++ t)%string]
                                   | None => []
                                   end) props) ++ "}")%string
  end.

(** [new Set(xs)] iterated: first occurrences, in order. *)
Fixpoint dedup_keys (seen : list string) (xs : list string) : list string :=
  match xs with
  | [] => []
  | x :: rest =>
      if existsb (String.eqb x) seen then dedup_keys seen rest
      else x :: dedup_keys (x :: seen) rest
  end.

(** [x & flag] on integers: [ToInt32] of the left operand, then the
    bitwise and.  The flags used are small positive constants. *)
Definition toInt32 (n : Z) : Z := (n + 2 ^ 31) mod 2 ^ 32 - 2 ^ 31.

Definition bit_and (n flag : Z) : Z := Z.land (toInt32 n) flag.

(** A [Date] is only constructed and passed on. *)
Inductive JsDate : Type :=
| NewDate (arg : JsValue)
| NewDateNow.

End Js.
Export Js.

#[global] Instance outcome_ret : MRet Outcome := @Return.
#[global] Instance outcome_bind : MBind Outcome := fun A B k m => Js.bind m k.

(* ===================================================================== *)
(** ** src/model/auditLog.ts                                              *)
(* ===================================================================== *)

Module Model.

Record PaginationState : Type := mkPagination {
  pageNumber : Z;
  pageSize : Z;
  totalCount : Z;
  pagingCookie : option string;
  nextLink : option string;
  hasMoreRecords : bool
}.

Definition initialPaginationState : PaginationState :=
  {| pageNumber := 1; pageSize := 50; totalCount := 0;
     pagingCookie := None; nextLink := None; hasMoreRecords := false |}.

(** [{ id: string; name: string }] *)
Record NamedRef : Type := mkNamedRef { ref_id : string; ref_name : string }.

(** Dates are opaque to the filter reducer; they are kept as the text they
    were built from. *)
Record AuditFiltersState : Type := mkFilters {
  tableLogicalNames : list string;
  recordId : option string;
  recordName : option string;
  selectedAttributes : list string;
  operations : list Z;
  actions : list Z;
  fromDate : option string;
  toDate : option string;
  selectedUsers : list NamedRef;
  selectedSecurityRoles : list NamedRef
}.

Definition initialFiltersState : AuditFiltersState :=
  {| tableLogicalNames := []; recordId := None; recordName := None;
     selectedAttributes := []; operations := []; actions := [];
     fromDate := None; toDate := None;
     selectedUsers := []; selectedSecurityRoles := [] |}.

(** [AuditRecord]: a raw row, typed as the interface declares it.  A field
    the service left out is [None]. *)
Record AuditRecord : Type := mkAuditRecord {
  auditid : option string;
  createdon : option string;
  operation : option Z;
  action : option Z;
  objecttypecode : option string;
  _objectid_value : option string;
  _userid_value : option string;
  attributemask : option string;
  changedata : option string;
  _objectid_value_FormattedValue : option string;
  _userid_value_FormattedValue : option string;
  operation_FormattedValue : option string;
  action_FormattedValue : option string
}.

Record AuditLogEntry : Type := mkEntry {
  id : string;
  createdOn : JsDate;
  entry_operation : Z;
  operationLabel : string;
  entry_action : Z;
  actionLabel : string;
  objectTypeCode : string;
  objectId : string;
  objectName : string;
  userId : string;
  userName : string;
  attributeMask : option string;
  changeData : option string;
  isExpanded : bool
}.

(** [oldFormattedValue]/[newFormattedValue] are optional and never set by
    the parser studied here. *)
Record AttributeAuditDetail : Type := mkAttributeDetail {
  attributeName : string;
  attributeDisplayName : string;
  oldValue : option string;
  newValue : option string
}.

(** [principalId] and [principalName] are read from an untyped envelope and
    only cast to [string]; they hold whatever value was found there. *)
Record ShareAuditDetail : Type := mkShareDetail {
  principalId : JsValue;
  principalName : JsValue;
  principalType : string;
  oldPrivileges : string;
  newPrivileges : string
}.

Record RolePrivilege : Type := mkRolePrivilege {
  privilegeId : string;
  privilegeName : string;
  depth : Z;
  depthLabel : string
}.

Record RolePrivilegeAuditDetail : Type := mkRoleDetail {
  oldRolePrivileges : list RolePrivilege;
  newRolePrivileges : list RolePrivilege;
  invalidNewPrivileges : list (string * string)
}.

Record UserAccessAuditDetail : Type := mkAccessDetail {
  accessTime : JsDate;
  interval : JsValue
}.

Record RelationshipAuditDetail : Type := mkRelationshipDetail {
  relationshipName : string;
  targetRecords : list (string * string * string)
}.

Record MetadataAuditDetail : Type := mkMetadataDetail {
  metadata_action : Z;
  metadata_actionLabel : string;
  metadata_changeData : option string;
  parsedChangeData : option JsValue;
  metadata_attributeDisplayName : option string;
  attributeLogicalName : option string;
  auditEnabled : option bool
}.

(** The tagged union [AuditDetail]; the constructor is the [type] tag. *)
Inductive AuditDetail : Type :=
| attribute (d : AttributeAuditDetail)
| share (d : ShareAuditDetail)
| rolePrivilege (d : RolePrivilegeAuditDetail)
| userAccess (d : UserAccessAuditDetail)
| relationship (d : RelationshipAuditDetail)
| metadata (d : MetadataAuditDetail).

(** src/model/metadata.ts *)
Record AttributeOption : Type := mkAttributeOption {
  logicalName : string;
  displayName : string;
  attributeType : string;
  isAuditEnabled : bool;
  columnNumber : option Z
}.

End Model.
Export Model.

(* ===================================================================== *)
(** ** hooks/useAuditPagination.ts                                        *)
(* ===================================================================== *)

Module Pagination.

(** The state owned by [useAuditPagination]: the React state [pagination]
    and the two refs.  The refs are shared mutable cells; every operation
    below takes the whole triple and returns the updated one. *)
Record Hook : Type := mkHook {
  pagination : PaginationState;
  pagingCookieRef : option string;
  pagingCookieCacheRef : gmap Z string
}.

Definition initialHook : Hook :=
  {| pagination := initialPaginationState;
     pagingCookieRef := None;
     pagingCookieCacheRef := ∅ |}.

Definition with_page (p : PaginationState) (n : Z) : PaginationState :=
  {| pageNumber := n; pageSize := pageSize p; totalCount := totalCount p;
     pagingCookie := pagingCookie p; nextLink := nextLink p;
     hasMoreRecords := hasMoreRecords p |}.

(** [{ ...p, pageNumber: 1, pagingCookie: undefined }] *)
Definition first_page (p : PaginationState) : PaginationState :=
  {| pageNumber := 1; pageSize := pageSize p; totalCount := totalCount p;
     pagingCookie := None; nextLink := nextLink p;
     hasMoreRecords := hasMoreRecords p |}.

Definition goToNextPage (h : Hook) : Hook :=
  {| pagination := with_page (pagination h) (pageNumber (pagination h) + 1);
     pagingCookieRef := pagingCookieRef h;
     pagingCookieCacheRef := pagingCookieCacheRef h |}.

Definition goToFirstPage (h : Hook) : Hook :=
  {| pagination := first_page (pagination h);
     pagingCookieRef := None;
     pagingCookieCacheRef := pagingCookieCacheRef h |}.

(** [Map.prototype.has] *)
Definition has (cache : gmap Z string) (page : Z) : bool :=
  match cache !! page with
  | Some _ => true
  | None => false
  end.

Definition canNavigateToPage (h : Hook) (page : Z) : bool :=
  if page =? 1 then true
  else if (page =? pageNumber (pagination h) + 1) && truthy (pagingCookieRef h) then true
  else if has (pagingCookieCacheRef h) page then true
  else false.

(** What [setPage] writes to the console. *)
Inductive Warning : Type := NoCachedPagingCookie (page : Z).

(** [setPage]: the updater passed to [setPagination], together with the
    assignments it makes to [pagingCookieRef].  The second component is
    the list of console warnings. *)
Definition setPage (page : Z) (h : Hook) : Hook * list Warning :=
  let p := pagination h in
  if page =? pageNumber p then (h, [])
  else if page =? 1 then
    ({| pagination := first_page p;
        pagingCookieRef := None;
        pagingCookieCacheRef := pagingCookieCacheRef h |}, [])
  else if page =? pageNumber p + 1 then
    ({| pagination := with_page p page;
        pagingCookieRef := pagingCookieRef h;
        pagingCookieCacheRef := pagingCookieCacheRef h |}, [])
  else
    let cachedCookie := pagingCookieCacheRef h !! page in
    if truthy cachedCookie then
      ({| pagination := with_page p page;
          pagingCookieRef := cachedCookie;
          pagingCookieCacheRef := pagingCookieCacheRef h |}, [])
    else (h, [NoCachedPagingCookie page]).

Definition setPageSize (size : Z) (h : Hook) : Hook :=
  {| pagination :=
       {| pageNumber := 1; pageSize := size;
          totalCount := totalCount (pagination h);
          pagingCookie := None; nextLink := nextLink (pagination h);
          hasMoreRecords := hasMoreRecords (pagination h) |};
     pagingCookieRef := None;
     pagingCookieCacheRef := ∅ |}.

Definition resetPagination (h : Hook) : Hook := initialHook.

(** The shape every state of the hook has: pages are numbered from 1, and
    the cache holds set cursors for pages from 2 on. *)
Definition wellFormed (h : Hook) : Prop :=
  1 <= pageNumber (pagination h)
  /\ forall k c, pagingCookieCacheRef h !! k = Some c -> 2 <= k /\ truthy_string c = true.

End Pagination.

(* ===================================================================== *)
(** ** hooks/useAuditFilters.ts                                           *)
(* ===================================================================== *)

Module Filters.

Inductive FilterAction : Type :=
| SET_TABLES (payload : list string)
| SET_RECORD (id name : option string)
| SET_ATTRIBUTES (payload : list string)
| SET_OPERATIONS (payload : list Z)
| SET_ACTIONS (payload : list Z)
| SET_FROM_DATE (payload : option string)
| SET_TO_DATE (payload : option string)
| SET_USERS (payload : list NamedRef)
| SET_SECURITY_ROLES (payload : list NamedRef)
| CLEAR_FILTERS.

Definition filterReducer (state : AuditFiltersState) (action : FilterAction)
  : AuditFiltersState :=
  match action with
  | SET_TABLES payload =>
      {| tableLogicalNames := payload;
         recordId := None; recordName := None;
         selectedAttributes := selectedAttributes state;
         operations := operations state; actions := actions state;
         fromDate := fromDate state; toDate := toDate state;
         selectedUsers := selectedUsers state;
         selectedSecurityRoles := selectedSecurityRoles state |}
  | SET_RECORD id name =>
      {| tableLogicalNames := tableLogicalNames state;
         recordId := id; recordName := name;
         selectedAttributes := selectedAttributes state;
         operations := operations state; actions := actions state;
         fromDate := fromDate state; toDate := toDate state;
         selectedUsers := selectedUsers state;
         selectedSecurityRoles := selectedSecurityRoles state |}
  | SET_ATTRIBUTES payload =>
      {| tableLogicalNames := tableLogicalNames state;
         recordId := recordId state; recordName := recordName state;
         selectedAttributes := payload;
         operations := operations state; actions := actions state;
         fromDate := fromDate state; toDate := toDate state;
         selectedUsers := selectedUsers state;
         selectedSecurityRoles := selectedSecurityRoles state |}
  | SET_OPERATIONS payload =>
      {| tableLogicalNames := tableLogicalNames state;
         recordId := recordId state; recordName := recordName state;
         selectedAttributes := selectedAttributes state;
         operations := payload; actions := actions state;
         fromDate := fromDate state; toDate := toDate state;
         selectedUsers := selectedUsers state;
         selectedSecurityRoles := selectedSecurityRoles state |}
  | SET_ACTIONS payload =>
      {| tableLogicalNames := tableLogicalNames state;
         recordId := recordId state; recordName := recordName state;
         selectedAttributes := selectedAttributes state;
         operations := operations state; actions := payload;
         fromDate := fromDate state; toDate := toDate state;
         selectedUsers := selectedUsers state;
         selectedSecurityRoles := selectedSecurityRoles state |}
  | SET_FROM_DATE payload =>
      {| tableLogicalNames := tableLogicalNames state;
         recordId := recordId state; recordName := recordName state;
         selectedAttributes := selectedAttributes state;
         operations := operations state; actions := actions state;
         fromDate := payload; toDate := toDate state;
         selectedUsers := selectedUsers state;
         selectedSecurityRoles := selectedSecurityRoles state |}
  | SET_TO_DATE payload =>
      {| tableLogicalNames := tableLogicalNames state;
         recordId := recordId state; recordName := recordName state;
         selectedAttributes := selectedAttributes state;
         operations := operations state; actions := actions state;
         fromDate := fromDate state; toDate := payload;
         selectedUsers := selectedUsers state;
         selectedSecurityRoles := selectedSecurityRoles state |}
  | SET_USERS payload =>
      {| tableLogicalNames := tableLogicalNames state;
         recordId := recordId state; recordName := recordName state;
         selectedAttributes := selectedAttributes state;
         operations := operations state; actions := actions state;
         fromDate := fromDate state; toDate := toDate state;
         selectedUsers := payload;
         selectedSecurityRoles := selectedSecurityRoles state |}
  | SET_SECURITY_ROLES payload =>
      {| tableLogicalNames := tableLogicalNames state;
         recordId := recordId state; recordName := recordName state;
         selectedAttributes := selectedAttributes state;
         operations := operations state; actions := actions state;
         fromDate := fromDate state; toDate := toDate state;
         selectedUsers := selectedUsers state;
         selectedSecurityRoles := payload |}
  | CLEAR_FILTERS =>
      {| tableLogicalNames := tableLogicalNames state;
         recordId := recordId initialFiltersState;
         recordName := recordName initialFiltersState;
         selectedAttributes := selectedAttributes initialFiltersState;
         operations := operations initialFiltersState;
         actions := actions initialFiltersState;
         fromDate := fromDate initialFiltersState;
         toDate := toDate initialFiltersState;
         selectedUsers := selectedUsers initialFiltersState;
         selectedSecurityRoles := selectedSecurityRoles initialFiltersState |}
  end.

(** The state held by [useReducer(filterReducer, initialFiltersState)]
    after a sequence of dispatches. *)
Definition dispatchAll (acts : list FilterAction) : AuditFiltersState :=
  fold_left filterReducer acts initialFiltersState.

End Filters.

(* ===================================================================== *)
(** ** The remote service and the module-level state                      *)
(* ===================================================================== *)

Module Remote.

(** A request sent through [window.dataverseAPI]. *)
Inductive RemoteCall : Type :=
| FetchXmlQuery (fetchXml : string)
| Execute (operationName entityName entityId : string)
| QueryData (url : string).

(** What can be observed of a run: the requests sent, and the calls made to
    a caller-supplied [onProgress]. *)
Inductive Event : Type :=
| Request (c : RemoteCall)
| Progress (fetched total : Z).

(** The payload of a FetchXML answer, with the three annotations the code
    reads ([@Microsoft.Dynamics.CRM.fetchxmlpagingcookie], [morerecords],
    [totalrecordcount]).  A row may be [null]. *)
Record FetchXmlResult : Type := mkFetchXmlResult {
  value : option (list (option AuditRecord));
  fetchxmlpagingcookie : option string;
  morerecords : option bool;
  totalrecordcount : option Z
}.

(** [window.dataverseAPI].  The service may answer the same request
    differently over time, so each method also receives the events so far.
    [None] is a [null]/[undefined] answer. *)
Record DataverseAPI : Type := mkAPI {
  fetchXmlQuery : list Event -> string -> Outcome (option FetchXmlResult);
  execute : list Event -> string -> string -> string -> Outcome JsValue;
  queryData : list Event -> string -> Outcome JsValue
}.

(** The mutable module-level state of the services, with the event log. *)
Record World : Type := mkWorld {
  detailsCache : gmap string (list AuditDetail);
  principalNameCache : gmap string JsValue;
  trace : list Event
}.

Definition emptyWorld : World :=
  {| detailsCache := ∅; principalNameCache := ∅; trace := [] |}.

(** Computations that read and write the module state and may throw.  The
    state survives an exception, as it does in JavaScript. *)
Definition M (A : Type) : Type := World -> Outcome A * World.

Definition ret {A} (a : A) : M A := fun w => (Return a, w).

Definition mbindM {A B} (m : M A) (k : A -> M B) : M B :=
  fun w =>
    match m w with
    | (Return a, w') => k a w'
    | (Throw e, w') => (Throw e, w')
    end.

Definition throw {A} (e : JsError) : M A := fun w => (Throw e, w).

Definition lift {A} (o : Outcome A) : M A := fun w => (o, w).

(** [try { m } catch (e) { h e }] *)
Definition catch {A} (m : M A) (h : JsError -> M A) : M A :=
  fun w =>
    match m w with
    | (Return a, w') => (Return a, w')
    | (Throw e, w') => h e w'
    end.

Definition gets {A} (f : World -> A) : M A := fun w => (Return (f w), w).

Definition modify (f : World -> World) : M unit := fun w => (Return tt, f w).

Definition log (e : Event) (w : World) : World :=
  {| detailsCache := detailsCache w;
     principalNameCache := principalNameCache w;
     trace := trace w ++ [e] |}.

(** [await window.dataverseAPI.fetchXmlQuery(fetchXml)] *)
Definition call_fetchXmlQuery (api : DataverseAPI) (fetchXml : string)
  : M (option FetchXmlResult) :=
  fun w => (fetchXmlQuery api (trace w) fetchXml, log (Request (FetchXmlQuery fetchXml)) w).

(** [await window.dataverseAPI.execute({operationName, operationType:
    'function', entityName, entityId})] *)
Definition call_execute (api : DataverseAPI) (operationName entityName entityId : string)
  : M JsValue :=
  fun w => (execute api (trace w) operationName entityName entityId,
            log (Request (Execute operationName entityName entityId)) w).

(** [await window.dataverseAPI.queryData(url)] *)
Definition call_queryData (api : DataverseAPI) (url : string) : M JsValue :=
  fun w => (queryData api (trace w) url, log (Request (QueryData url)) w).

Definition set_detailsCache (auditId : string) (details : list AuditDetail) (w : World)
  : World :=
  {| detailsCache := <[auditId := details]> (detailsCache w);
     principalNameCache := principalNameCache w;
     trace := trace w |}.

Definition set_principalNameCache (key : string) (name : JsValue) (w : World) : World :=
  {| detailsCache := detailsCache w;
     principalNameCache := <[key := name]> (principalNameCache w);
     trace := trace w |}.

(** The requests among the events. *)
Definition requests (evs : list Event) : list RemoteCall :=
  flat_map (fun e => match e with
                     | Request c => [c]
                     | Progress _ _ => []
                     end) evs.

Definition is_fetch (c : RemoteCall) : bool :=
  match c with
  | FetchXmlQuery _ => true
  | _ => false
  end.

(** A computation that only ever adds to the event log. *)
Definition extending {A} (m : M A) : Prop :=
  forall w, exists rest, trace (snd (m w)) = trace w ++ rest.

End Remote.
Export Remote.

#[global] Instance M_ret : MRet M := @ret.
#[global] Instance M_bind : MBind M := fun A B k m => mbindM m k.

(* ===================================================================== *)
(** ** utils/accessRightsConstants.ts, services/accessRightsFormatter.ts  *)
(* ===================================================================== *)

Module AccessRights.

Definition None_ : Z := 0.
Definition Read : Z := 1.
Definition Write : Z := 2.
Definition Append : Z := 4.
Definition AppendTo : Z := 16.
Definition Create : Z := 32.
Definition Delete : Z := 65536.
Definition Share : Z := 262144.
Definition Assign : Z := 524288.

Definition flag (value mask : Z) (label : string) : list string :=
  if truthy_num (bit_and value mask) then [label] else [].

Definition formatAccessRightsFromNumber (value : Z) : string :=
  if value =? 0 then "None"
  else
    let flags :=
      flag value Read "Read" ++ flag value Write "Write" ++
      flag value Append "Append" ++ flag value AppendTo "AppendTo" ++
      flag value Create "Create" ++ flag value Delete "Delete" ++
      flag value Share "Share" ++ flag value Assign "Assign" in
    if (0 <? length flags)%nat then String.concat ", " flags else "None".

(** [s.replace(/,\s*/g, ', ')] *)
Fixpoint normalize_commas (afterComma : bool) (s : string) : string :=
  match s with
  | EmptyString => EmptyString
  | String c s' =>
      if afterComma && is_space c then normalize_commas true s'
      else if Ascii.eqb c ","
           then String "," (String " " (normalize_commas true s'))
           else String c (normalize_commas false s')
  end.

Definition or_None (s : string) : string := if truthy_string s then s else "None".

Definition formatAccessRights (rights : JsValue) : string :=
  match rights with
  | JNull | JUndefined => "None"
  | JStr s =>
      match parseInt10 s with
      | None => or_None (trim (normalize_commas false (replace_all s "Access" "")))
      | Some numValue => formatAccessRightsFromNumber numValue
      end
  | JNum n => formatAccessRightsFromNumber n
  | JArr _ | JObj _ =>
      let val := nullish_else (get_prop rights "Value")
                   (nullish_else (get_prop rights "value") rights) in
      match val with
      | JNum n => formatAccessRightsFromNumber n
      | JStr s => or_None s
      | _ => or_None (to_string rights)
      end
  | JBool _ => or_None (to_string rights)
  end.

End AccessRights.

(* ===================================================================== *)
(** ** services/principalService.ts                                       *)
(* ===================================================================== *)

Module Principal.

(** [response && response.field ? response.field : 'Unknown'] *)
Definition name_of (response : JsValue) (field : string) : JsValue :=
  if truthy_value response && truthy_value (get_prop response field)
  then get_prop response field
  else JStr "Unknown".

(** The body of the [try] block: one request, then the cache write. *)
Definition fetchPrincipalName (api : DataverseAPI) (cacheKey : string)
  (principalId : JsValue) (principalType : string) : M JsValue :=
  name ← (if String.eqb principalType "systemuser" then
            response ← call_queryData api
              ("systemusers(" ++ to_string principalId ++ ")?$select=fullname");
            mret (name_of response "fullname")
          else if String.eqb principalType "team" then
            response ← call_queryData api
              ("teams(" ++ to_string principalId ++ ")?$select=name");
            mret (name_of response "name")
          else mret (JStr "Unknown"));
  modify (set_principalNameCache cacheKey name);;
  mret name.

Definition lookupPrincipalName (api : DataverseAPI) (principalId : JsValue)
  (principalType : string) : M JsValue :=
  let cacheKey := (principalType ++ ":" ++ to_string principalId)%string in
  cached ← gets (fun w => default JUndefined (principalNameCache w !! cacheKey));
  if truthy_value cached then mret cached
  else catch (fetchPrincipalName api cacheKey principalId principalType)
             (fun _ => mret (JStr "Unknown")).

Definition clearPrincipalCache : M unit :=
  modify (fun w => {| detailsCache := detailsCache w;
                      principalNameCache := ∅;
                      trace := trace w |}).

End Principal.

(* ===================================================================== *)
(** ** services/auditDetailParsers.ts                                     *)
(* ===================================================================== *)

Module Parsers.

(** The parts of the repository this development does not open: the query
    text builders, the three parsers that only the dispatcher mentions, the
    metadata service, and the [decodeURIComponent] built-in.  Each is an
    arbitrary function that may throw. *)
Record Collaborators : Type := mkCollaborators {
  buildAuditFetchXml : AuditFiltersState -> Z -> Z -> option string -> Outcome string;
  buildHistoryFetchXml : string -> PaginationState -> Outcome string;
  decodeURIComponent : string -> Outcome string;
  parseMetadataAuditDetail : AuditLogEntry -> Outcome (list AuditDetail);
  parseRolePrivilegeAuditDetail : JsValue -> Outcome (list AuditDetail);
  parseRelationshipAuditDetail : JsValue -> Outcome (list AuditDetail);
  getAttributeMap : string -> Outcome (gmap string AttributeOption)
}.

Definition FormattedValue : string := "@OData.Community.Display.V1.FormattedValue".

(** [formatAuditValue(value, allValues, attrName)]; [None] is [null]. *)
Definition formatAuditValue (value allValues : JsValue) (attrName : string)
  : option string :=
  match value with
  | JNull | JUndefined => None
  | _ =>
      let formattedKey := (attrName ++ FormattedValue)%string in
      if truthy_value (get_prop allValues formattedKey)
      then Some (to_string (get_prop allValues formattedKey))
      else
        match typeof value with
        | ty_object =>
            if truthy_value (get_prop value "Name")
            then Some (to_string (get_prop value "Name"))
            else stringify value
        | _ => Some (to_string value)
        end
  end.

(** [for (const attr of attrs) { if (attr.key) values[attr.key] = attr.value }]
    Reading [attr.key] throws when [attr] is [null] or [undefined]. *)
Fixpoint collectAttributes (attrs : list JsValue) (values : list (string * JsValue))
  : Outcome (list (string * JsValue)) :=
  match attrs with
  | [] => Return values
  | attr :: rest =>
      key ← get attr "key";
      if truthy_value key
      then collectAttributes rest (set_prop (to_string key) (get_prop attr "value") values)
      else collectAttributes rest values
  end.

(** Whether the loop over the [Attributes] array of [container] assigns
    [__proto__], and so may replace the prototype of the map it fills. *)
Definition writesPrototype (container : JsValue) : bool :=
  match get_prop container "Attributes" with
  | JArr attrs =>
      existsb (fun attr => truthy_value (get_prop attr "key")
                           && String.eqb (to_string (get_prop attr "key")) "__proto__")
              attrs
  | _ => false
  end.

(** The merge of one of [OldValue]/[NewValue] into its map. *)
Definition mergeValues (container : JsValue) : Outcome JsValue :=
  if truthy_value container then
    match get_prop container "Attributes" with
    | JArr attrs => props ← collectAttributes attrs []; Return (JObj props)
    | _ =>
        match typeof container with
        | ty_object => Return container
        | _ => Return (JObj [])
        end
    end
  else Return (JObj []).

(** All the keys of the two maps, each once, old ones first. *)
Definition allAttributes (oldValues newValues : JsValue) : list string :=
  dedup_keys [] (keys oldValues ++ keys newValues).

Definition resolveDisplayName (attributeMap : gmap string AttributeOption)
  (attrName : string) : string :=
  match attributeMap !! attrName with
  | Some attrMeta =>
      if truthy_string (displayName attrMeta) then displayName attrMeta else attrName
  | None => attrName
  end.

Definition is_undefined (v : JsValue) : bool :=
  match v with
  | JUndefined => true
  | _ => false
  end.

(** [attrName.startsWith('@') || attrName.startsWith('_')] *)
Definition isMetadataKey (attrName : string) : bool :=
  startsWith attrName "@" || startsWith attrName "_".

(** One turn of the loop over [allAttributes]: the rows it pushes. *)
Definition attributeRow (oldValues newValues : JsValue)
  (attributeMap : gmap string AttributeOption) (attrName : string)
  : list AttributeAuditDetail :=
  if isMetadataKey attrName then []
  else
    let oldVal := get_prop oldValues attrName in
    let newVal := get_prop newValues attrName in
    if is_undefined oldVal && is_undefined newVal then []
    else
      [ {| attributeName := attrName;
           attributeDisplayName := resolveDisplayName attributeMap attrName;
           oldValue := formatAuditValue oldVal oldValues attrName;
           newValue := formatAuditValue newVal newValues attrName |} ].

(** The loop of [parseAttributeAuditDetail] over two merged maps. *)
Definition attributeRows (oldValues newValues : JsValue)
  (attributeMap : gmap string AttributeOption) : list AttributeAuditDetail :=
  flat_map (attributeRow oldValues newValues attributeMap)
           (allAttributes oldValues newValues).

Definition parseAttributeAuditDetail (auditDetail : JsValue)
  (attributeMap : gmap string AttributeOption) : list AttributeAuditDetail :=
  let body :=
    oldValue ← get auditDetail "OldValue";
    newValue ← get auditDetail "NewValue";
    oldValues ← mergeValues oldValue;
    newValues ← mergeValues newValue;
    Return (attributeRows oldValues newValues attributeMap) in
  match body with
  | Return details => details
  | Throw _ => []
  end.

Definition first_truthy (v : JsValue) (names : list string) (fallback : JsValue)
  : JsValue :=
  fold_right (fun name rest => or_else (get_prop v name) rest) fallback names.

Definition parseShareAuditDetail (api : DataverseAPI) (auditDetail : JsValue)
  : M (list AuditDetail) :=
  catch
    (principal ← lift (get auditDetail "Principal");
     oldPrivileges ← lift (get auditDetail "OldPrivileges");
     newPrivileges ← lift (get auditDetail "NewPrivileges");
     '(principalId, principalName, principalType) ←
       (if truthy_value principal then
          principalType ←
            match or_else (get_prop principal "@odata.type") (JStr "") with
            | JStr odataType =>
                let t := replace_first odataType "#Microsoft.Dynamics.CRM." "" in
                mret (if truthy_string t then t else "systemuser")
            | _ => throw (TypeError "odataType.replace is not a function")
            end;
          let principalId :=
            first_truthy principal
              ["ownerid"; "Id"; "id"; "systemuserid"; "teamid"] (JStr "") in
          let principalName :=
            first_truthy principal
              ["Name"; "name"; "fullname"; "FullName";
               FormattedValue; ("name" ++ FormattedValue)%string] (JStr "") in
          principalName ←
            (if negb (truthy_value principalName) && truthy_value principalId
             then Principal.lookupPrincipalName api principalId principalType
             else mret principalName);
          principalName ←
            (if negb (truthy_value principalName)
                || match principalName with
                   | JStr n => String.eqb n "Unknown"
                   | _ => false
                   end
             then
               if truthy_value principalId then
                 match principalId with
                 | JStr pid =>
                     mret (JStr ((if String.eqb principalType "team" then "Team" else "User")
                                 ++ " (" ++ String.substring 0 8 pid ++ "...)"))
                 | _ => throw (TypeError "principalId.substring is not a function")
                 end
               else mret (JStr "Unknown")
             else mret principalName);
          mret (principalId, principalName, principalType)
        else mret (JStr "", JStr "Unknown", "systemuser"%string));
     mret [share {| principalId := principalId;
                    principalName := principalName;
                    principalType := principalType;
                    oldPrivileges := AccessRights.formatAccessRights oldPrivileges;
                    newPrivileges := AccessRights.formatAccessRights newPrivileges |}])
    (fun _ => mret []).

Definition parseUserAccessAuditDetail (auditDetail : JsValue) : list AuditDetail :=
  match (accessTime ← get auditDetail "AccessTime";
         interval ← get auditDetail "Interval";
         Return [userAccess
                   {| accessTime := if truthy_value accessTime
                                    then NewDate accessTime else NewDateNow;
                      interval := or_else interval (JNum 0) |}]) with
  | Return details => details
  | Throw _ => []
  end.

(** [odataType.includes(name)]: strings and arrays have the method, any
    other truthy value does not. *)
Definition odataIncludes (odataType : JsValue) (name : string) : Outcome bool :=
  match odataType with
  | JStr s => Return (includes s name)
  | JArr items =>
      Return (existsb (fun x => match x with
                                | JStr t => String.eqb t name
                                | _ => false
                                end) items)
  | _ => Throw (TypeError "odataType.includes is not a function")
  end.

Definition parseAuditDetail (api : DataverseAPI) (co : Collaborators)
  (auditDetail : JsValue) (_entityLogicalName : string)
  (attributeMap : gmap string AttributeOption) : M (list AuditDetail) :=
  t ← lift (get auditDetail "@odata.type");
  let odataType := or_else t (JStr "") in
  isShare ← lift (odataIncludes odataType "ShareAuditDetail");
  if isShare : bool then parseShareAuditDetail api auditDetail
  else
    isRole ← lift (odataIncludes odataType "RolePrivilegeAuditDetail");
    if isRole : bool then lift (parseRolePrivilegeAuditDetail co auditDetail)
    else
      isAccess ← lift (odataIncludes odataType "UserAccessAuditDetail");
      if isAccess : bool then mret (parseUserAccessAuditDetail auditDetail)
      else
        isRelationship ← lift (odataIncludes odataType "RelationshipAuditDetail");
        if isRelationship : bool then lift (parseRelationshipAuditDetail co auditDetail)
        else if truthy_value (get_prop auditDetail "OldValue")
                || truthy_value (get_prop auditDetail "NewValue")
             then mret (map attribute (parseAttributeAuditDetail auditDetail attributeMap))
             else mret [].

End Parsers.

(* ===================================================================== *)
(** ** utils/constants.ts, utils/formatters.ts, utils/auditHelpers.ts     *)
(* ===================================================================== *)

Module Helpers.

Definition operationLabels : list (Z * string) :=
  [(1, "Create"); (2, "Update"); (3, "Delete"); (4, "Access")].

Definition actionLabels : list (Z * string) :=
  [(0, "Unknown"); (1, "Create"); (2, "Update"); (3, "Delete");
   (4, "Activate"); (5, "Deactivate"); (11, "Cascade"); (12, "Merge");
   (13, "Assign"); (14, "Share"); (15, "Retrieve"); (16, "Close");
   (17, "Cancel"); (18, "Complete"); (19, "Resolve"); (20, "Reopen");
   (21, "Fulfill"); (22, "Paid"); (23, "Qualify"); (24, "Disqualify");
   (25, "Submit"); (26, "Reject"); (27, "Approve"); (28, "Invoice");
   (29, "Hold"); (30, "Add Member"); (31, "Remove Member");
   (33, "Associate"); (34, "Disassociate"); (35, "Add Members");
   (36, "Remove Members"); (37, "Add Item"); (38, "Remove Item");
   (39, "Add Substitute"); (40, "Remove Substitute"); (41, "Set State");
   (42, "Set State"); (43, "Renew"); (44, "Revise"); (45, "Win");
   (46, "Lose"); (47, "Internal Processing"); (48, "Modify Share");
   (49, "Unshare"); (51, "Book"); (52, "Generate Quote");
   (53, "Assign Role to Team"); (54, "Remove Role from Team");
   (55, "Assign Role to User"); (56, "Remove Role from User");
   (57, "Add Privileges to Role"); (58, "Remove Privileges from Role");
   (59, "Replace Privileges in Role"); (64, "User Access via Web");
   (65, "User Access via Web Services"); (68, "Clone");
   (112, "User Access Audit Started"); (113, "User Access Audit Stopped");
   (105, "Entity Audit Started"); (106, "Attribute Audit Started");
   (107, "Audit Enabled"); (108, "Entity Audit Stopped");
   (109, "Attribute Audit Stopped"); (110, "Audit Disabled");
   (111, "Audit Log Deletion")].

Fixpoint label_of (table : list (Z * string)) (code : Z) : option string :=
  match table with
  | [] => None
  | (c, l) :: rest => if c =? code then Some l else label_of rest code
  end.

Definition getOperationLabel (operation : Z) : string :=
  match label_of operationLabels operation with
  | Some l => l
  | None => ("Operation " ++ pretty operation)%string
  end.

Definition getActionLabel (action : Z) : string :=
  match label_of actionLabels action with
  | Some l => l
  | None => ("Action " ++ pretty action)%string
  end.

(** [s.replace(/[{}]/g, '')] *)
Fixpoint strip_braces (s : string) : string :=
  match s with
  | EmptyString => EmptyString
  | String c s' =>
      if Ascii.eqb c "{" || Ascii.eqb c "}" then strip_braces s'
      else String c (strip_braces s')
  end.

Definition formatGuid (guid : option string) : string :=
  match guid with
  | Some g => if truthy_string g then toLowerCase (strip_braces g) else EmptyString
  | None => EmptyString
  end.

(** [a || b] on optional strings and on optional numbers. *)
Definition str_or (a : option string) (b : string) : string :=
  match a with
  | Some s => if truthy_string s then s else b
  | None => b
  end.

Definition num_or (a : option Z) (b : Z) : Z :=
  match a with
  | Some n => if truthy_num n then n else b
  | None => b
  end.

Definition toAuditLogEntry (record : option AuditRecord) : Outcome AuditLogEntry :=
  match record with
  | None => Throw (Error "Invalid audit record: missing auditid")
  | Some r =>
      if negb (truthy (auditid r))
      then Throw (Error "Invalid audit record: missing auditid")
      else
        Return
          {| id := str_or (auditid r) EmptyString;
             createdOn := match createdon r with
                          | Some c => if truthy_string c then NewDate (JStr c) else NewDateNow
                          | None => NewDateNow
                          end;
             entry_operation := num_or (operation r) 2;
             operationLabel :=
               str_or (operation_FormattedValue r)
                      (getOperationLabel (num_or (operation r) 0));
             entry_action := num_or (action r) 0;
             actionLabel :=
               str_or (action_FormattedValue r) (getActionLabel (num_or (action r) 0));
             objectTypeCode := str_or (objecttypecode r) EmptyString;
             objectId := formatGuid (_objectid_value r);
             objectName :=
               str_or (_objectid_value_FormattedValue r)
                      (str_or (_objectid_value r) EmptyString);
             userId := formatGuid (_userid_value r);
             userName :=
               str_or (_userid_value_FormattedValue r)
                      (str_or (_userid_value r) EmptyString);
             attributeMask := attributemask r;
             changeData := changedata r;
             isExpanded := false |}
  end.

(** [METADATA_ACTION_CODES] *)
Definition METADATA_ACTION_CODES : list Z := [100; 101; 102; 103; 104].

End Helpers.

(* ===================================================================== *)
(** ** services/auditLogService.ts                                        *)
(* ===================================================================== *)

Module Service.
Import Parsers Helpers.

(** The object [queryAuditLogs] resolves to. *)
Record QueryResult : Type := mkResult {
  entries : list AuditLogEntry;
  totalCount : Z;
  hasMoreRecords : bool;
  pagingCookie : option string
}.

(** [{ entries: [], totalCount: 0, hasMoreRecords: false }] *)
Definition emptyPage : QueryResult :=
  {| entries := []; totalCount := 0; hasMoreRecords := false; pagingCookie := None |}.

(** The text before the first double quote, if there is one. *)
Fixpoint until_quote (s : string) : option string :=
  match s with
  | EmptyString => None
  | String c s' =>
      if (nat_of_ascii c =? 34)%nat then Some EmptyString
      else String c <$> until_quote s'
  end.

(** The group captured by the regular expression of [decodePagingCookie]:
    the text [pagingcookie=], a double quote, one or more characters other
    than a double quote (the group), and a double quote; leftmost match. *)
Fixpoint matchPagingCookie (s : string) : option string :=
  let here :=
    if String.prefix ("pagingcookie=" ++ dq) s
    then match until_quote (skip 14 s) with
         | Some (String c r) => Some (String c r)
         | _ => None
         end
    else None in
  match here with
  | Some m => Some m
  | None =>
      match s with
      | EmptyString => None
      | String _ s' => matchPagingCookie s'
      end
  end.

Definition decodePagingCookie (co : Collaborators) (rawCookie : string) : string :=
  let decoded :=
    match matchPagingCookie rawCookie with
    | Some m => once ← decodeURIComponent co m; decodeURIComponent co once
    | None => once ← decodeURIComponent co rawCookie; decodeURIComponent co once
    end in
  match decoded with
  | Return s => s
  | Throw _ => rawCookie
  end.

(** The loop that maps rows to entries; a row that fails is skipped. *)
Definition convertRecords (records : list (option AuditRecord)) : list AuditLogEntry :=
  flat_map
    (fun record =>
       match record with
       | Some r =>
           if truthy (auditid r)
           then match toAuditLogEntry record with
                | Return e => [e]
                | Throw _ => []
                end
           else []
       | None => []
       end) records.

Definition len {A} (l : list A) : Z := Z.of_nat (length l).

(** [responseData.value || []] *)
Definition rowsOf (responseData : FetchXmlResult) : list (option AuditRecord) :=
  default [] (value responseData).

Definition decodedCookie (co : Collaborators) (responseData : FetchXmlResult)
  : option string :=
  if truthy (fetchxmlpagingcookie responseData)
  then decodePagingCookie co <$> fetchxmlpagingcookie responseData
  else None.

Definition queryAuditLogs (api : DataverseAPI) (co : Collaborators)
  (filters : AuditFiltersState) (pagination : PaginationState) : M QueryResult :=
  catch
    (fetchXml ← lift (buildAuditFetchXml co filters (Model.pageSize pagination)
                        (Model.pageNumber pagination) (Model.pagingCookie pagination));
     answered ← catch (response ← call_fetchXmlQuery api fetchXml; mret (Some response))
                    (fun _ => mret None);
     match answered with
     | None => mret emptyPage
     | Some None => mret emptyPage
     | Some (Some responseData) =>
         let records := rowsOf responseData in
         let moreRecords := morerecords responseData in
         let totalRecordCount := totalrecordcount responseData in
         let pagingCookie := decodedCookie co responseData in
         if (length records =? 0)%nat then
           mret {| entries := []; totalCount := num_or totalRecordCount 0;
                   hasMoreRecords := false; pagingCookie := None |}
         else
           let entries := convertRecords records in
           let hasMoreRecords :=
             match moreRecords with
             | Some b => b
             | None => Model.pageSize pagination <=? len records
             end in
           let totalCount :=
             num_or totalRecordCount
               (if hasMoreRecords
                then len entries * (Model.pageNumber pagination + 1)
                else len entries
                     + (Model.pageNumber pagination - 1) * Model.pageSize pagination) in
           mret {| entries := entries; totalCount := totalCount;
                   hasMoreRecords := hasMoreRecords; pagingCookie := pagingCookie |}
     end)
    (fun _ => mret emptyPage).

(** [getRecordChangeHistory]: the same query scoped to one record.  Its
    [details] map is always a fresh empty [Map]. *)
Definition getRecordChangeHistory (api : DataverseAPI) (co : Collaborators)
  (_entityLogicalName recordId : string) (pagination : PaginationState)
  : M (QueryResult * gmap string (list AuditDetail)) :=
  fetchXml ← lift (buildHistoryFetchXml co recordId pagination);
  answered ← catch (response ← call_fetchXmlQuery api fetchXml; mret (Some response))
                    (fun _ => mret None);
  match answered with
  | None => mret (emptyPage, ∅)
  | Some None => mret (emptyPage, ∅)
  | Some (Some responseData) =>
      let records := rowsOf responseData in
      let moreRecords := morerecords responseData in
      let totalRecordCount := totalrecordcount responseData in
      let pagingCookie := decodedCookie co responseData in
      if (length records =? 0)%nat then
        mret ({| entries := []; totalCount := num_or totalRecordCount 0;
                 hasMoreRecords := false; pagingCookie := None |}, ∅)
      else
        let entries := convertRecords records in
        let hasMoreRecords :=
          match moreRecords with
          | Some b => b
          | None => Model.pageSize pagination <=? len records
          end in
        mret ({| entries := entries;
                 totalCount := num_or totalRecordCount (len entries);
                 hasMoreRecords := hasMoreRecords;
                 pagingCookie := pagingCookie |}, ∅)
  end.

(** *** The all-pages walker *)

(** The local variables of [queryAllAuditLogs]. *)
Record Walk : Type := mkWalk {
  allEntries : list AuditLogEntry;
  w_pageNumber : Z;
  w_pagingCookie : option string;
  w_hasMoreRecords : bool;
  w_totalCount : Z
}.

Definition walkStart : Walk :=
  {| allEntries := []; w_pageNumber := 1; w_pagingCookie := None;
     w_hasMoreRecords := true; w_totalCount := 0 |}.

(** [xs.slice(0, n)] *)
Definition slice0 {A} (n : Z) (xs : list A) : list A :=
  if n <? 0 then firstn (length xs - Z.to_nat (- n)) xs else firstn (Z.to_nat n) xs.

(** The pagination object built for one page of the walk. *)
Definition walkPagination (st : Walk) : PaginationState :=
  {| Model.pageNumber := w_pageNumber st; Model.pageSize := 250;
     Model.totalCount := 0; Model.hasMoreRecords := false;
     Model.pagingCookie := w_pagingCookie st; Model.nextLink := None |}.

(** [onProgress(fetched, total)] when a callback was passed. *)
Definition report (onProgress : bool) (fetched total : Z) : M unit :=
  if onProgress then modify (log (Progress fetched total)) else mret tt.

(** The [while] loop.  [fuel] bounds the number of turns; [None] means the
    bound was reached before the loop ended. *)
Fixpoint walk (fuel : nat) (api : DataverseAPI) (co : Collaborators)
  (filters : AuditFiltersState) (maxRecords : Z) (onProgress : bool) (st : Walk)
  : M (option Walk) :=
  match fuel with
  | O => mret None
  | S fuel' =>
      if negb (w_hasMoreRecords st) then mret (Some st)
      else if (0 <? maxRecords) && (maxRecords <=? len (allEntries st)) then mret (Some st)
      else
        result ← queryAuditLogs api co filters (walkPagination st);
        if len (entries result) =? 0 then mret (Some st)
        else
          let allEntries' :=
            if 0 <? maxRecords
            then allEntries st ++ slice0 (maxRecords - len (allEntries st)) (entries result)
            else allEntries st ++ entries result in
          let st' :=
            {| allEntries := allEntries';
               w_pageNumber := w_pageNumber st + 1;
               w_pagingCookie := pagingCookie result;
               w_hasMoreRecords := hasMoreRecords result;
               w_totalCount := totalCount result |} in
          report onProgress (len allEntries') (totalCount result);;
          walk fuel' api co filters maxRecords onProgress st'
  end.

Definition queryAllAuditLogs (fuel : nat) (api : DataverseAPI) (co : Collaborators)
  (filters : AuditFiltersState) (maxRecords : Z) (onProgress : bool)
  : M (option (list AuditLogEntry * Z)) :=
  final ← walk fuel api co filters maxRecords onProgress walkStart;
  mret (match final with
        | Some st => Some (allEntries st, w_totalCount st)
        | None => None
        end).

(** *** Observing a walk *)

(** The page [queryAuditLogs] resolves to (it never throws). *)
Definition pageOf (api : DataverseAPI) (co : Collaborators) (filters : AuditFiltersState)
  (pagination : PaginationState) (w : World) : QueryResult :=
  match fst (queryAuditLogs api co filters pagination w) with
  | Return r => r
  | Throw _ => emptyPage
  end.

(** The number of page fetches among the events. *)
Definition fetchCount (evs : list Event) : nat :=
  length (List.filter is_fetch (requests evs)).

(** The arguments [onProgress] was called with, in order. *)
Definition reported (evs : list Event) : list (Z * Z) :=
  flat_map (fun e => match e with
                     | Progress fetched total => [(fetched, total)]
                     | Request _ => []
                     end) evs.

(** The state of the loop after the turn that appended the page [result]. *)
Definition appended (maxRecords : Z) (st : Walk) (result : QueryResult) : Walk :=
  {| allEntries :=
       if 0 <? maxRecords
       then allEntries st ++ slice0 (maxRecords - len (allEntries st)) (entries result)
       else allEntries st ++ entries result;
     w_pageNumber := w_pageNumber st + 1;
     w_pagingCookie := pagingCookie result;
     w_hasMoreRecords := hasMoreRecords result;
     w_totalCount := totalCount result |}.

(** Whether the loop asks for another page in state [st]: more records
    were announced and the cap, if any, is not met. *)
Definition asksForPage (maxRecords : Z) (st : Walk) : bool :=
  w_hasMoreRecords st && negb ((0 <? maxRecords) && (maxRecords <=? len (allEntries st))).

(** The turn of the loop that fetches a page with entries: the state and
    the world it leaves, after the request and the progress report. *)
Definition turn (api : DataverseAPI) (co : Collaborators) (filters : AuditFiltersState)
  (maxRecords : Z) (onProgress : bool) (st : Walk) (w : World) : Walk * World :=
  let page := pageOf api co filters (walkPagination st) w in
  let st' := appended maxRecords st page in
  (st', snd (report onProgress (len (allEntries st')) (totalCount page)
               (snd (queryAuditLogs api co filters (walkPagination st) w)))).

(** The states and worlds in which the loop of a walk started in the world
    [w0] asks for a page: with the page number and the cursor the walk has
    got to, and after the requests and reports it has made. *)
Inductive Asks (api : DataverseAPI) (co : Collaborators) (filters : AuditFiltersState)
  (maxRecords : Z) (onProgress : bool) (w0 : World) : Walk -> World -> Prop :=
| asks_first :
    asksForPage maxRecords walkStart = true ->
    Asks api co filters maxRecords onProgress w0 walkStart w0
| asks_next st w :
    Asks api co filters maxRecords onProgress w0 st w ->
    entries (pageOf api co filters (walkPagination st) w) <> [] ->
    asksForPage maxRecords (fst (turn api co filters maxRecords onProgress st w)) = true ->
    Asks api co filters maxRecords onProgress w0
      (fst (turn api co filters maxRecords onProgress st w))
      (snd (turn api co filters maxRecords onProgress st w)).

(** A source with no end, as a walk started in [w0] sees it: every page
    the walk asks for holds [size] entries and announces more. *)
Definition unlimitedSource (api : DataverseAPI) (co : Collaborators)
  (filters : AuditFiltersState) (maxRecords : Z) (onProgress : bool) (w0 : World)
  (size : nat) : Prop :=
  forall st w,
    Asks api co filters maxRecords onProgress w0 st w ->
    length (entries (pageOf api co filters (walkPagination st) w)) = size
    /\ hasMoreRecords (pageOf api co filters (walkPagination st) w) = true.

(** A source that serves the entries [data] in pages of [size], as a walk
    started in [w0] sees it: when the walk asks for its page [k + 1], it
    gets the entries from position [k * size] on, and more are announced
    whenever entries remain after them. *)
Definition pagedSource (api : DataverseAPI) (co : Collaborators)
  (filters : AuditFiltersState) (maxRecords : Z) (onProgress : bool) (w0 : World)
  (data : list AuditLogEntry) (size : nat) : Prop :=
  forall st w,
    Asks api co filters maxRecords onProgress w0 st w ->
    let k := Z.to_nat (w_pageNumber st - 1) in
    entries (pageOf api co filters (walkPagination st) w)
    = firstn size (skipn (k * size) data)
    /\ (((k + 1) * size < length data)%nat ->
        hasMoreRecords (pageOf api co filters (walkPagination st) w) = true).

(** What the walk is expected to collect from [data] under the cap
    [maxRecords] (0 for no cap). *)
Definition capped (maxRecords : Z) (data : list AuditLogEntry) : list AuditLogEntry :=
  if maxRecords =? 0 then data else firstn (Z.to_nat maxRecords) data.

(** The number of pages of [size] needed for [n] entries. *)
Definition pagesFor (n size : nat) : nat := ((n + size - 1) / size)%nat.

(** *** Audit details and their cache *)

Definition clearAuditDetailsCache : M unit :=
  modify (fun w => {| detailsCache := ∅;
                      principalNameCache := principalNameCache w;
                      trace := trace w |}).

Definition getCachedDetails (auditId : string) : M (option (list AuditDetail)) :=
  gets (fun w => detailsCache w !! auditId).

(** The branch of [getAuditDetails] that calls [RetrieveAuditDetails]. *)
Definition retrieveAuditDetails (api : DataverseAPI) (co : Collaborators)
  (auditId entityLogicalName : string) : M (list AuditDetail) :=
  response ← call_execute api "RetrieveAuditDetails" "audit" auditId;
  if negb (truthy_value response) then mret []
  else
    let auditDetail := or_else (get_prop response "AuditDetail") response in
    if negb (truthy_value auditDetail)
    then modify (set_detailsCache auditId []);; mret []
    else
      attributeMap ← lift (getAttributeMap co entityLogicalName);
      details ← parseAuditDetail api co auditDetail entityLogicalName attributeMap;
      modify (set_detailsCache auditId details);;
      mret details.

Definition isMetadataEntry (entry : option AuditLogEntry) : bool :=
  match entry with
  | Some e => existsb (Z.eqb (entry_action e)) METADATA_ACTION_CODES
  | None => false
  end.

Definition getAuditDetails (api : DataverseAPI) (co : Collaborators)
  (auditId entityLogicalName : string) (entry : option AuditLogEntry)
  : M (list AuditDetail) :=
  catch
    (match entry with
     | Some e =>
         if isMetadataEntry entry then
           details ← lift (parseMetadataAuditDetail co e);
           modify (set_detailsCache auditId details);;
           mret details
         else retrieveAuditDetails api co auditId entityLogicalName
     | None => retrieveAuditDetails api co auditId entityLogicalName
     end)
    (fun _ => modify (set_detailsCache auditId []);; mret []).

End Service.

(* ===================================================================== *)
(** ** hooks/useAuditLogs.ts                                              *)
(* ===================================================================== *)

Module Hooks.
Import Helpers.

(** The state of one [useAuditLogs] instance: its own React state, the
    composed pagination hook and the composed filter reducer. *)
Record LogsHook : Type := mkLogs {
  entries : list AuditLogEntry;
  detailsMap : gmap string (list AuditDetail);
  isLoading : bool;
  isLoadingDetails : bool;
  error : option string;
  paging : Pagination.Hook;
  filters : AuditFiltersState
}.

Definition initialLogs : LogsHook :=
  {| entries := []; detailsMap := ∅; isLoading := false; isLoadingDetails := false;
     error := None; paging := Pagination.initialHook; filters := initialFiltersState |}.

Definition with_paging (h : LogsHook) (p : Pagination.Hook) : LogsHook :=
  {| entries := entries h; detailsMap := detailsMap h; isLoading := isLoading h;
     isLoadingDetails := isLoadingDetails h; error := error h;
     paging := p; filters := filters h |}.

(** [handleFilterChange] *)
Definition handleFilterChange (h : LogsHook) : M LogsHook :=
  Service.clearAuditDetailsCache;;
  mret {| entries := entries h; detailsMap := ∅; isLoading := isLoading h;
          isLoadingDetails := isLoadingDetails h; error := error h;
          paging := Pagination.resetPagination (paging h); filters := filters h |}.

(** The setters returned by [useAuditFilters]: a dispatch, followed by
    [onFilterChange] for every action but [SET_ATTRIBUTES]. *)
Definition dispatch (a : Filters.FilterAction) (h : LogsHook) : M LogsHook :=
  let h' :=
    {| entries := entries h; detailsMap := detailsMap h; isLoading := isLoading h;
       isLoadingDetails := isLoadingDetails h; error := error h;
       paging := paging h; filters := Filters.filterReducer (filters h) a |} in
  match a with
  | Filters.SET_ATTRIBUTES _ => mret h'
  | _ => handleFilterChange h'
  end.

Definition setPage (page : Z) (h : LogsHook) : LogsHook :=
  with_paging h (fst (Pagination.setPage page (paging h))).

Definition setPageSize (size : Z) (h : LogsHook) : LogsHook :=
  with_paging h (Pagination.setPageSize size (paging h)).

(** [{ ...pagination, pagingCookie: pagingCookieRef.current }] *)
Definition paginationWithCookie (p : Pagination.Hook) : PaginationState :=
  {| pageNumber := pageNumber (Pagination.pagination p);
     pageSize := pageSize (Pagination.pagination p);
     totalCount := totalCount (Pagination.pagination p);
     pagingCookie := Pagination.pagingCookieRef p;
     nextLink := nextLink (Pagination.pagination p);
     hasMoreRecords := hasMoreRecords (Pagination.pagination p) |}.

(** The awaited call of [fetchAuditLogs]: the record history when a record
    and exactly one table are selected, the general query otherwise. *)
Definition requestPage (api : DataverseAPI) (co : Parsers.Collaborators)
  (f : AuditFiltersState) (p : PaginationState)
  : M (Service.QueryResult * option (gmap string (list AuditDetail))) :=
  if truthy (recordId f) && (length (tableLogicalNames f) =? 1)%nat then
    historyResult ← Service.getRecordChangeHistory api co
                      (hd EmptyString (tableLogicalNames f))
                      (default EmptyString (recordId f)) p;
    mret (fst historyResult, Some (snd historyResult))
  else
    result ← Service.queryAuditLogs api co f p;
    mret (result, None).

(** What [fetchAuditLogs] does once the awaited call has resolved, for a
    fetch that was started on page [requestedPage].  The writes go to the
    state as it is when the answer arrives. *)
Definition commitFetch (requestedPage : Z) (result : Service.QueryResult)
  (details : option (gmap string (list AuditDetail))) (h : LogsHook) : LogsHook :=
  let p := paging h in
  {| entries := Service.entries result;
     detailsMap := match details with
                   | Some d => d ∪ detailsMap h
                   | None => detailsMap h
                   end;
     isLoading := false;
     isLoadingDetails := isLoadingDetails h;
     error := error h;
     paging :=
       {| Pagination.pagination :=
            {| pageNumber := pageNumber (Pagination.pagination p);
               pageSize := pageSize (Pagination.pagination p);
               totalCount := Service.totalCount result;
               pagingCookie := pagingCookie (Pagination.pagination p);
               nextLink := nextLink (Pagination.pagination p);
               hasMoreRecords := Service.hasMoreRecords result |};
          Pagination.pagingCookieRef := Service.pagingCookie result;
          Pagination.pagingCookieCacheRef :=
            match Service.pagingCookie result with
            | Some cookie =>
                if truthy_string cookie
                then <[requestedPage + 1 := cookie]> (Pagination.pagingCookieCacheRef p)
                else Pagination.pagingCookieCacheRef p
            | None => Pagination.pagingCookieCacheRef p
            end |};
     filters := filters h |}.

(** The [catch] and [finally] blocks of [fetchAuditLogs]. *)
Definition failFetch (e : JsError) (h : LogsHook) : LogsHook :=
  {| entries := [];
     detailsMap := detailsMap h;
     isLoading := false;
     isLoadingDetails := isLoadingDetails h;
     error := Some (match e with Error message => message end);
     paging := paging h;
     filters := filters h |}.

(** [setIsLoading(true); setError(null)] *)
Definition startFetch (h : LogsHook) : LogsHook :=
  {| entries := entries h; detailsMap := detailsMap h; isLoading := true;
     isLoadingDetails := isLoadingDetails h; error := None;
     paging := paging h; filters := filters h |}.

(** One whole fetch cycle with nothing else happening in between. *)
Definition fetchAuditLogs (api : DataverseAPI) (co : Parsers.Collaborators)
  (isConnected : bool) (h : LogsHook) : M LogsHook :=
  if negb isConnected then mret h
  else
    let requestedPage := pageNumber (Pagination.pagination (paging h)) in
    catch
      (answer ← requestPage api co (filters h) (paginationWithCookie (paging h));
       mret (commitFetch requestedPage (fst answer) (snd answer) (startFetch h)))
      (fun e => mret (failFetch e (startFetch h))).

Definition with_details (h : LogsHook) (m : gmap string (list AuditDetail))
  (loading : bool) : LogsHook :=
  {| entries := entries h; detailsMap := m; isLoading := isLoading h;
     isLoadingDetails := loading; error := error h;
     paging := paging h; filters := filters h |}.

(** [(tables.length === 1 ? tables[0] : null) || entry?.objectTypeCode] *)
Definition defaultEntityName (f : AuditFiltersState) (entry : option AuditLogEntry)
  : option string :=
  let single := match tableLogicalNames f with
                | [t] => Some t
                | _ => None
                end in
  if truthy single then single else objectTypeCode <$> entry.

Definition loadDetails (api : DataverseAPI) (co : Parsers.Collaborators)
  (entryId : string) (entityLogicalName : option string) (h : LogsHook) : M LogsHook :=
  match detailsMap h !! entryId with
  | Some _ => mret h
  | None =>
      cached ← Service.getCachedDetails entryId;
      match cached with
      | Some c => mret (with_details h (<[entryId := c]> (detailsMap h)) (isLoadingDetails h))
      | None =>
          let entry := List.find (fun e => String.eqb (id e) entryId) (entries h) in
          let resolvedEntityName :=
            if truthy entityLogicalName then entityLogicalName
            else defaultEntityName (filters h) entry in
          if negb (truthy resolvedEntityName) then mret h
          else
            catch
              (details ← Service.getAuditDetails api co entryId
                           (default EmptyString resolvedEntityName) entry;
               mret (with_details h (<[entryId := details]> (detailsMap h)) false))
              (fun _ => mret (with_details h (detailsMap h) false))
      end
  end.

(** What can happen to a mounted hook, one event at a time. *)
Inductive Step : Type :=
| Fetch
| SetPage (page : Z)
| SetPageSize (size : Z)
| Dispatch (a : Filters.FilterAction)
| LoadDetails (entryId : string) (entityLogicalName : option string).

Definition step (api : DataverseAPI) (co : Parsers.Collaborators) (s : Step)
  (h : LogsHook) : M LogsHook :=
  match s with
  | Fetch => fetchAuditLogs api co true h
  | SetPage page => mret (setPage page h)
  | SetPageSize size => mret (setPageSize size h)
  | Dispatch a => dispatch a h
  | LoadDetails entryId name => loadDetails api co entryId name h
  end.

Fixpoint run (api : DataverseAPI) (co : Parsers.Collaborators) (steps : list Step)
  (h : LogsHook) : M LogsHook :=
  match steps with
  | [] => mret h
  | s :: rest => h' ← step api co s h; run api co rest h'
  end.

End Hooks.

(* ===================================================================== *)
(** ** The guarded use of the filter reducer                              *)
(* ===================================================================== *)

Module FilterInvariant.
Import Filters.

(** A record id is only meaningful within one table. *)
Definition recordNeedsOneTable (s : AuditFiltersState) : Prop :=
  recordId s <> None -> length (tableLogicalNames s) = 1%nat.

(** The explorer offers the record search only while exactly one table is
    selected (the [RecordSearch] element of AuditLogExplorer.tsx is rendered
    under [filters.tableLogicalNames.length === 1]). *)
Definition offered (s : AuditFiltersState) (a : FilterAction) : Prop :=
  match a with
  | SET_RECORD (Some _) _ => length (tableLogicalNames s) = 1%nat
  | _ => True
  end.

Inductive Reachable : AuditFiltersState -> Prop :=
| reach_initial : Reachable initialFiltersState
| reach_dispatch s a : Reachable s -> offered s a -> Reachable (filterReducer s a).

End FilterInvariant.

(* ===================================================================== *)
(** ** Fixtures                                                           *)
(* ===================================================================== *)

Module Fixtures.
Import Parsers.

Definition row (auditId : string) : option AuditRecord :=
  Some {| auditid := Some auditId; createdon := None; operation := Some 2;
          action := Some 2; objecttypecode := Some "contact"%string;
          _objectid_value := None; _userid_value := None;
          attributemask := None; changedata := None;
          _objectid_value_FormattedValue := None;
          _userid_value_FormattedValue := None;
          operation_FormattedValue := None; action_FormattedValue := None |}.

(** Collaborators that do nothing: the query text is empty, decoding is the
    identity, the unopened parsers return no detail. *)
Definition plain : Collaborators :=
  {| buildAuditFetchXml := fun _ _ _ _ => Return EmptyString;
     buildHistoryFetchXml := fun _ _ => Return EmptyString;
     decodeURIComponent := fun s => Return s;
     parseMetadataAuditDetail := fun _ => Return [];
     parseRolePrivilegeAuditDetail := fun _ => Return [];
     parseRelationshipAuditDetail := fun _ => Return [];
     getAttributeMap := fun _ => Return ∅ |}.

Definition unreachable {A} : Outcome A := Throw (Error "network").

(** A service that is down. *)
Definition down : DataverseAPI :=
  {| fetchXmlQuery := fun _ _ => unreachable;
     execute := fun _ _ _ _ => unreachable;
     queryData := fun _ _ => unreachable |}.

Definition answer (rows : list (option AuditRecord)) (cookie : option string)
  (more : option bool) (total : option Z) : Outcome (option FetchXmlResult) :=
  Return (Some {| value := Some rows; fetchxmlpagingcookie := cookie;
                  morerecords := more; totalrecordcount := total |}).

(** A service that answers every query with an empty page and no
    annotation. *)
Definition emptyAnswers : DataverseAPI :=
  {| fetchXmlQuery := fun _ _ => answer [] None None None;
     execute := fun _ _ _ _ => unreachable;
     queryData := fun _ _ => unreachable |}.

(** A service whose answers depend on how many requests it has seen: a
    first page with cursor [C1], a second page with cursor [C2], then a
    failure, then a second page with cursor [C2b]. *)
Definition scripted : DataverseAPI :=
  {| fetchXmlQuery := fun evs _ =>
       match length (requests evs) with
       | 0%nat => answer [row "a1"; row "a2"] (Some "C1"%string) (Some true) (Some 5)
       | 1%nat => answer [row "a3"; row "a4"] (Some "C2"%string) (Some true) (Some 5)
       | 2%nat => unreachable
       | _ => answer [row "a3"; row "a4"] (Some "C2b"%string) (Some true) (Some 5)
       end;
     execute := fun _ _ _ _ => unreachable;
     queryData := fun _ _ => unreachable |}.

(** A service that answers with two rows and no annotation at all. *)
Definition twoRowsNoAnnotation : DataverseAPI :=
  {| fetchXmlQuery := fun _ _ => answer [row "a1"; row "a2"] None None None;
     execute := fun _ _ _ _ => unreachable;
     queryData := fun _ _ => unreachable |}.

(** A service without end: every answer holds two rows and says that more
    records follow. *)
Definition endless : DataverseAPI :=
  {| fetchXmlQuery := fun _ _ => answer [row "a1"; row "a2"] None (Some true) None;
     execute := fun _ _ _ _ => unreachable;
     queryData := fun _ _ => unreachable |}.

(** A query text that carries nothing but the page number: as many
    letters as the page asked for. *)
Fixpoint pageMark (page : nat) : string :=
  match page with
  | O => EmptyString
  | S page' => String "p" (pageMark page')
  end.

Definition pageInQuery : Collaborators :=
  {| buildAuditFetchXml := fun _ _ pageNumber _ => Return (pageMark (Z.to_nat pageNumber));
     buildHistoryFetchXml := fun _ _ => Return EmptyString;
     decodeURIComponent := fun s => Return s;
     parseMetadataAuditDetail := fun _ => Return [];
     parseRolePrivilegeAuditDetail := fun _ => Return [];
     parseRelationshipAuditDetail := fun _ => Return [];
     getAttributeMap := fun _ => Return ∅ |}.

Definition threeRows : list (option AuditRecord) := [row "a1"; row "a2"; row "a3"].

(** A service that holds three rows and serves them two per page. *)
Definition threeRowsByTwo : DataverseAPI :=
  {| fetchXmlQuery := fun _ fetchXml =>
       let k := (String.length fetchXml - 1)%nat in
       answer (firstn 2 (skipn (k * 2) threeRows)) None
              (Some ((k + 1) * 2 <? 3)%nat) None;
     execute := fun _ _ _ _ => unreachable;
     queryData := fun _ _ => unreachable |}.

(** Pages one and two are fetched, then the user goes back to page one and
    the fetch of that page fails. *)
Definition backToFirstPage : list Hooks.Step :=
  [Hooks.Fetch; Hooks.SetPage 2; Hooks.Fetch; Hooks.SetPage 1; Hooks.Fetch].

(** ... and then moves on to page two again. *)
Definition secondVisit : list Hooks.Step :=
  backToFirstPage ++ [Hooks.SetPage 2; Hooks.Fetch].

(** The pagination hook at the end of a run from the initial state. *)
Definition pagingAfter (api : DataverseAPI) (steps : list Hooks.Step)
  : option Pagination.Hook :=
  match fst (Hooks.run api plain steps Hooks.initialLogs emptyWorld) with
  | Return h => Some (Hooks.paging h)
  | Throw _ => None
  end.

(** Scenario B of the specification, with the type prefix spelled out for
    the principal and left open for the envelope. *)
Definition scenarioB (pre : string) : JsValue :=
  JObj [("@odata.type"%string, JStr (pre ++ "ShareAuditDetail"));
        ("Principal"%string,
         JObj [("@odata.type"%string, JStr "#Microsoft.Dynamics.CRM.team");
               ("ownerid"%string, JStr "T1")]);
        ("OldPrivileges"%string, JNum 0);
        ("NewPrivileges"%string, JNum 3)].

(** An attribute envelope whose old and new maps agree on [name]. *)
Definition unchangedName : JsValue :=
  JObj [("OldValue"%string, JObj [("name"%string, JStr "A")]);
        ("NewValue"%string, JObj [("name"%string, JStr "A")])].

End Fixtures.

(* ===================================================================== *)
(** ** services/auditLogService.ts: the query text                        *)
(* ===================================================================== *)

Module QueryText.

(** The line feed of the template literals. *)
Definition nl : string := String (ascii_of_nat 10) EmptyString.

Definition quoted (s : string) : string := (dq ++ s ++ dq)%string.

(** [escapeXml]: five global replacements, one after the other. *)
Definition escapeXml (str : string) : string :=
  replace_all
    (replace_all
       (replace_all
          (replace_all (replace_all str "&" "&amp;") "<" "&lt;")
          ">" "&gt;")
       dq "&quot;")
    "'" "&apos;".

(** The text one character of the input ends up as. *)
Definition xmlEntity (c : ascii) : string :=
  if Ascii.eqb c "&" then "&amp;"
  else if Ascii.eqb c "<" then "&lt;"
  else if Ascii.eqb c ">" then "&gt;"
  else if (nat_of_ascii c =? 34)%nat then "&quot;"
  else if Ascii.eqb c "'" then "&apos;"
  else String c EmptyString.

(** The characters that would end or open markup inside an attribute
    value. *)
Definition isMarkup (c : ascii) : bool :=
  Ascii.eqb c "<" || Ascii.eqb c ">" || (nat_of_ascii c =? 34)%nat || Ascii.eqb c "'".

Fixpoint all_chars (p : ascii -> bool) (s : string) : bool :=
  match s with
  | EmptyString => true
  | String c s' => p c && all_chars p s'
  end.

(** [Date.prototype.toISOString], and the same one day later
    ([setDate(getDate() + 1)]), on a date kept as the text it was built
    from.  Both throw on an invalid date. *)
Record DateRuntime : Type := mkDateRuntime {
  toISOString : string -> Outcome string;
  nextDayISOString : string -> Outcome string
}.

(** [<condition attribute="a" operator="op" value="v" />] *)
Definition condition (attribute operator value : string) : string :=
  ("<condition attribute=" ++ quoted attribute ++ " operator=" ++ quoted operator
   ++ " value=" ++ quoted value ++ " />")%string.

(** [<filter type="or">] around conditions joined by a line feed and twelve
    spaces. *)
Definition orFilter (conditions : list string) : string :=
  ("<filter type=" ++ quoted "or" ++ ">" ++ nl ++ "            "
   ++ String.concat (nl ++ "            ") conditions
   ++ nl ++ "          </filter>")%string.

(** The conditions pushed for one list-valued filter: none for an empty
    list, a plain condition for one value, an [or] filter otherwise. *)
Definition oneOf (attribute : string) (values : list string) : list string :=
  match values with
  | [] => []
  | [v] => [condition attribute "eq" v]
  | _ => [orFilter (map (condition attribute "eq") values)]
  end.

(** The [conditions] array of [buildFetchXmlFilters]. *)
Definition filterConditions (rt : DateRuntime) (filters : AuditFiltersState)
  : Outcome (list string) :=
  let tables := oneOf "objecttypecode" (map escapeXml (tableLogicalNames filters)) in
  let record :=
    match recordId filters with
    | Some r => if truthy_string r then [condition "objectid" "eq" (escapeXml r)] else []
    | None => []
    end in
  let ops := oneOf "operation" (map pretty (operations filters)) in
  let acts := oneOf "action" (map pretty (actions filters)) in
  from ← match fromDate filters with
         | Some d => iso ← toISOString rt d; Return [condition "createdon" "ge" iso]
         | None => Return []
         end;
  to ← match toDate filters with
       | Some d => iso ← nextDayISOString rt d; Return [condition "createdon" "lt" iso]
       | None => Return []
       end;
  let users :=
    oneOf "userid" (map (fun u => escapeXml (ref_id u)) (selectedUsers filters)) in
  let roles :=
    oneOf "objectid" (map (fun r => escapeXml (ref_id r)) (selectedSecurityRoles filters)) in
  Return (tables ++ record ++ ops ++ acts ++ from ++ to ++ users ++ roles).

Definition buildFetchXmlFilters (rt : DateRuntime) (filters : AuditFiltersState)
  : Outcome string :=
  conditions ← filterConditions rt filters;
  Return (if (0 <? length conditions)%nat
          then String.concat (nl ++ "          ") conditions
          else EmptyString).

(** [count="pageSize" page="pageNumber"], and the escaped cursor when one
    is set. *)
Definition pagingAttrs (pageSize pageNumber : Z) (pagingCookie : option string) : string :=
  ("count=" ++ quoted (pretty pageSize) ++ " page=" ++ quoted (pretty pageNumber)
   ++ match pagingCookie with
      | Some cookie =>
          if truthy_string cookie
          then " paging-cookie=" ++ quoted (escapeXml cookie)
          else EmptyString
      | None => EmptyString
      end)%string.

(** The fixed part of both templates, from the end of the [fetch] tag to
    the indentation of the filter. *)
Definition auditEntity : string :=
  (" returntotalrecordcount=" ++ quoted "true" ++ ">" ++ nl
   ++ "  <entity name=" ++ quoted "audit" ++ ">" ++ nl
   ++ "    <attribute name=" ++ quoted "auditid" ++ " />" ++ nl
   ++ "    <attribute name=" ++ quoted "createdon" ++ " />" ++ nl
   ++ "    <attribute name=" ++ quoted "operation" ++ " />" ++ nl
   ++ "    <attribute name=" ++ quoted "action" ++ " />" ++ nl
   ++ "    <attribute name=" ++ quoted "objecttypecode" ++ " />" ++ nl
   ++ "    <attribute name=" ++ quoted "objectid" ++ " />" ++ nl
   ++ "    <attribute name=" ++ quoted "userid" ++ " />" ++ nl
   ++ "    <attribute name=" ++ quoted "useradditionalinfo" ++ " />" ++ nl
   ++ "    <attribute name=" ++ quoted "attributemask" ++ " />" ++ nl
   ++ "    <attribute name=" ++ quoted "changedata" ++ " />" ++ nl
   ++ "    <order attribute=" ++ quoted "createdon" ++ " descending=" ++ quoted "true"
   ++ " />" ++ nl
   ++ "    <order attribute=" ++ quoted "auditid" ++ " descending=" ++ quoted "true"
   ++ " />" ++ nl
   ++ "    ")%string.

Definition buildAuditFetchXml (rt : DateRuntime) (filters : AuditFiltersState)
  (pageSize pageNumber : Z) (pagingCookie : option string) : Outcome string :=
  filterConditions ← buildFetchXmlFilters rt filters;
  Return
    (trim
       (nl ++ "<fetch " ++ pagingAttrs pageSize pageNumber pagingCookie ++ auditEntity
        ++ (if truthy_string filterConditions
            then "<filter type=" ++ quoted "and" ++ ">" ++ nl ++ "          "
                 ++ filterConditions ++ nl ++ "        </filter>"
            else EmptyString)
        ++ nl ++ "  </entity>" ++ nl ++ "</fetch>")%string).

(** The query text of [getRecordChangeHistory]. *)
Definition buildHistoryFetchXml (recordId : string) (pagination : PaginationState)
  : string :=
  trim
    (nl ++ "<fetch "
     ++ pagingAttrs (Model.pageSize pagination) (Model.pageNumber pagination)
          (Model.pagingCookie pagination)
     ++ auditEntity
     ++ "<filter type=" ++ quoted "and" ++ ">" ++ nl
     ++ "      " ++ condition "objectid" "eq" (escapeXml recordId) ++ nl
     ++ "    </filter>" ++ nl ++ "  </entity>" ++ nl ++ "</fetch>")%string.

(** The collaborators of the service with the two query texts filled in. *)
Definition withQueryText (rt : DateRuntime) (co : Parsers.Collaborators)
  : Parsers.Collaborators :=
  {| Parsers.buildAuditFetchXml := buildAuditFetchXml rt;
     Parsers.buildHistoryFetchXml := fun recordId pagination =>
       Return (buildHistoryFetchXml recordId pagination);
     Parsers.decodeURIComponent := Parsers.decodeURIComponent co;
     Parsers.parseMetadataAuditDetail := Parsers.parseMetadataAuditDetail co;
     Parsers.parseRolePrivilegeAuditDetail := Parsers.parseRolePrivilegeAuditDetail co;
     Parsers.parseRelationshipAuditDetail := Parsers.parseRelationshipAuditDetail co;
     Parsers.getAttributeMap := Parsers.getAttributeMap co |}.

End QueryText.

(* ===================================================================== *)
(** ** services/auditDetailParsers.ts: metadata changes                   *)
(* ===================================================================== *)

Module MetadataParser.

(** [MetadataActionLabels] of utils/accessRightsConstants.ts *)
Definition MetadataActionLabels : list (Z * string) :=
  [(100, "Delete Entity"); (101, "Delete Attribute");
   (102, "Audit Change at Entity Level"); (103, "Audit Change at Attribute Level");
   (104, "Audit Change at Org Level")].

(** What the parser takes from its surroundings: [JSON.parse], and the
    attribute list [getEntityAttributes] of the metadata service resolves
    to for a table. *)
Record Runtime : Type := mkRuntime {
  JSON_parse : string -> Outcome JsValue;
  getEntityAttributes : string -> Outcome (list AttributeOption)
}.

(** [attributes.find(a => a.columnNumber === columnNumber)] *)
Definition getAttributeByColumnNumber (rt : Runtime) (entityLogicalName : string)
  (column : Z) : Outcome (option AttributeOption) :=
  attributes ← getEntityAttributes rt entityLogicalName;
  Return (List.find (fun a => match columnNumber a with
                              | Some n => n =? column
                              | None => false
                              end) attributes).

(** [new Map(attributes.map(a => [a.logicalName, a]))]: for a name that
    occurs twice the later attribute wins. *)
Definition getAttributeMap (rt : Runtime) (entityLogicalName : string)
  : Outcome (gmap string AttributeOption) :=
  attributes ← getEntityAttributes rt entityLogicalName;
  Return (fold_left (fun m a => <[logicalName a := a]> m) attributes ∅).

(** The [auditEnabled] flag read from [changeData]. *)
Definition readAuditEnabled (action : Z) (changeData : option string) : option bool :=
  if (102 <=? action) && (action <=? 104) && truthy changeData then
    let changeDataLower := trim (toLowerCase (default EmptyString changeData)) in
    if String.eqb changeDataLower "true" then Some true
    else if String.eqb changeDataLower "false" then Some false
    else None
  else None.

(** The attribute looked up for action 103; a failed lookup is swallowed. *)
Definition lookupAttribute (rt : Runtime) (entry : AuditLogEntry) : option AttributeOption :=
  if (entry_action entry =? 103) && truthy (attributeMask entry)
     && truthy_string (objectTypeCode entry) then
    match parseInt10 (default EmptyString (attributeMask entry)) with
    | Some column =>
        match getAttributeByColumnNumber rt (objectTypeCode entry) column with
        | Return found => found
        | Throw _ => None
        end
    | None => None
    end
  else None.

Definition parseMetadataAuditDetail (rt : Runtime) (entry : AuditLogEntry)
  : list MetadataAuditDetail :=
  let parsed :=
    if truthy (changeData entry) then
      match JSON_parse rt (default EmptyString (changeData entry)) with
      | Return v => Some v
      | Throw _ => None
      end
    else None in
  let found := lookupAttribute rt entry in
  [ {| metadata_action := entry_action entry;
       metadata_actionLabel :=
         match Helpers.label_of MetadataActionLabels (entry_action entry) with
         | Some l => l
         | None => ("Action " ++ pretty (entry_action entry))%string
         end;
       metadata_changeData :=
         if truthy (changeData entry) then changeData entry else None;
       parsedChangeData := parsed;
       metadata_attributeDisplayName := displayName <$> found;
       attributeLogicalName := logicalName <$> found;
       auditEnabled := readAuditEnabled (entry_action entry) (changeData entry) |} ].

(** The collaborators of the service with this parser and this attribute
    map filled in. *)
Definition withMetadata (rt : Runtime) (co : Parsers.Collaborators)
  : Parsers.Collaborators :=
  {| Parsers.buildAuditFetchXml := Parsers.buildAuditFetchXml co;
     Parsers.buildHistoryFetchXml := Parsers.buildHistoryFetchXml co;
     Parsers.decodeURIComponent := Parsers.decodeURIComponent co;
     Parsers.parseMetadataAuditDetail := fun entry =>
       Return (map metadata (parseMetadataAuditDetail rt entry));
     Parsers.parseRolePrivilegeAuditDetail := Parsers.parseRolePrivilegeAuditDetail co;
     Parsers.parseRelationshipAuditDetail := Parsers.parseRelationshipAuditDetail co;
     Parsers.getAttributeMap := getAttributeMap rt |}.

End MetadataParser.

(* ===================================================================== *)
(** ** hooks/useAuditLogs.ts: expanding a row                             *)
(* ===================================================================== *)

Module Expansion.
Import Hooks.

(** [{ ...e, isExpanded: !e.isExpanded }] *)
Definition flip (e : AuditLogEntry) : AuditLogEntry :=
  {| id := id e; createdOn := createdOn e; entry_operation := entry_operation e;
     operationLabel := operationLabel e; entry_action := entry_action e;
     actionLabel := actionLabel e; objectTypeCode := objectTypeCode e;
     objectId := objectId e; objectName := objectName e; userId := userId e;
     userName := userName e; attributeMask := attributeMask e;
     changeData := changeData e; isExpanded := negb (isExpanded e) |}.

(** The updater passed to [setEntries]. *)
Definition toggleEntries (entryId : string) (prev : list AuditLogEntry)
  : list AuditLogEntry :=
  map (fun e => if String.eqb (id e) entryId then flip e else e) prev.

Definition with_entries (h : LogsHook) (es : list AuditLogEntry) : LogsHook :=
  {| entries := es; detailsMap := detailsMap h; isLoading := isLoading h;
     isLoadingDetails := isLoadingDetails h; error := error h;
     paging := paging h; filters := filters h |}.

(** [toggleExpanded]: the row is flipped, and its details are loaded when
    it was collapsed (or not found).  [loadDetails] is the one of the
    render the callback was made in; it only writes the details map and
    the loading flag. *)
Definition toggleExpanded (api : DataverseAPI) (co : Parsers.Collaborators)
  (entryId : string) (h : LogsHook) : M LogsHook :=
  let entry := List.find (fun e => String.eqb (id e) entryId) (entries h) in
  let isCurrentlyExpanded :=
    match entry with
    | Some e => isExpanded e
    | None => false
    end in
  if negb isCurrentlyExpanded then
    h' ← loadDetails api co entryId None h;
    mret (with_entries h' (toggleEntries entryId (entries h')))
  else mret (with_entries h (toggleEntries entryId (entries h))).

End Expansion.

(* ===================================================================== *)
(** ** hooks/useAuditSorting.ts                                           *)
(* ===================================================================== *)

Module Sorting.

Inductive SortColumn : Type :=
  byCreatedOn | byOperation | byAction | byObjectName | byUserName.

Inductive SortDirection : Type := asc | desc.

(** [null] is [None] in both fields. *)
Record SortState : Type := mkSort {
  column : option SortColumn;
  direction : option SortDirection
}.

Definition initialSortState : SortState :=
  {| column := Some byCreatedOn; direction := Some desc |}.

Definition same_column (a : option SortColumn) (b : SortColumn) : bool :=
  match a, b with
  | Some byCreatedOn, byCreatedOn | Some byOperation, byOperation
  | Some byAction, byAction | Some byObjectName, byObjectName
  | Some byUserName, byUserName => true
  | _, _ => false
  end.

(** The updater of [setSort]. *)
Definition setSort (clicked : SortColumn) (prev : SortState) : SortState :=
  if same_column (column prev) clicked then
    match direction prev with
    | Some desc => {| column := Some clicked; direction := Some asc |}
    | Some asc => {| column := None; direction := None |}
    | None => {| column := Some clicked; direction := Some desc |}
    end
  else {| column := Some clicked; direction := Some desc |}.

(** Whether [sortedEntries] is the list as fetched. *)
Definition unsorted (s : SortState) : bool :=
  match column s, direction s with
  | Some _, Some _ => false
  | _, _ => true
  end.

End Sorting.

(* ===================================================================== *)
(** ** More fixtures                                                      *)
(* ===================================================================== *)

Module Samples.

(** A directory that answers every name lookup with the same user. *)
Definition directory : DataverseAPI :=
  {| fetchXmlQuery := fun _ _ => Fixtures.unreachable;
     execute := fun _ _ _ _ => Fixtures.unreachable;
     queryData := fun _ _ => Return (JObj [("fullname"%string, JStr "Ann")]) |}.

(** Dates that print as the text they were built from. *)
Definition plainDates : QueryText.DateRuntime :=
  {| QueryText.toISOString := fun d => Return d;
     QueryText.nextDayISOString := fun d => Return d |}.

(** Dates that are all invalid. *)
Definition invalidDates : QueryText.DateRuntime :=
  {| QueryText.toISOString := fun _ => Throw (Error "RangeError: Invalid time value");
     QueryText.nextDayISOString := fun _ => Throw (Error "RangeError: Invalid time value") |}.

Definition sinceSomeDay : AuditFiltersState :=
  Filters.filterReducer initialFiltersState (Filters.SET_FROM_DATE (Some "someday"%string)).

(** Scenario C of the specification: column 7 of the table is [revenue]. *)
Definition revenue : AttributeOption :=
  {| logicalName := "revenue"; displayName := "Annual Revenue";
     attributeType := "Money"; isAuditEnabled := true; columnNumber := Some 7 |}.

Definition accountColumns : MetadataParser.Runtime :=
  {| MetadataParser.JSON_parse := fun _ => Throw (Error "SyntaxError");
     MetadataParser.getEntityAttributes := fun _ => Return [revenue] |}.

Definition columnAuditChange : AuditLogEntry :=
  {| id := "m1"; createdOn := NewDateNow; entry_operation := 2;
     operationLabel := "Update"; entry_action := 103;
     actionLabel := "Audit Change at Attribute Level";
     objectTypeCode := "account"; objectId := EmptyString; objectName := EmptyString;
     userId := EmptyString; userName := EmptyString;
     attributeMask := Some "7"%string; changeData := Some "True"%string;
     isExpanded := false |}.

(** A paging annotation as the service sends it. *)
Definition annotationStart : string :=
  ("<cookie pagenumber=" ++ dq ++ "2" ++ dq ++ " ")%string.

Definition annotationEnd : string :=
  (" istracking=" ++ dq ++ "False" ++ dq ++ " />")%string.

Definition annotation : string :=
  (annotationStart ++ "pagingcookie=" ++ dq ++ "%253ccookie%2520page%253d" ++ dq
   ++ annotationEnd)%string.

(** An envelope whose old values come as an [Attributes] array with a
    [null] entry. *)
Definition brokenAttributes : JsValue :=
  JObj [("OldValue"%string, JObj [("Attributes"%string, JArr [JNull])]);
        ("NewValue"%string, JObj [("name"%string, JStr "B")])].

(** The entry of an [Attributes] array for a key and its value. *)
Definition attributeEntry (kv : string * JsValue) : JsValue :=
  JObj [("key"%string, JStr (fst kv)); ("value"%string, snd kv)].

(** An envelope whose old values come as an [Attributes] array and whose
    new values come as a flat object. *)
Definition renamed : JsValue :=
  JObj [("OldValue"%string,
         JObj [("Attributes"%string,
                JArr [JObj [("key"%string, JStr "name"); ("value"%string, JStr "A")]])]);
        ("NewValue"%string,
         JObj [("name"%string, JStr "B"); ("city"%string, JStr "C")])].

(** A directory that knows the users and fails on every other request. *)
Definition usersOnly : DataverseAPI :=
  {| fetchXmlQuery := fun _ _ => Fixtures.unreachable;
     execute := fun _ _ _ _ => Fixtures.unreachable;
     queryData := fun _ url =>
       if String.prefix "systemusers(" url
       then Return (JObj [("fullname"%string, JStr "Ann")])
       else Fixtures.unreachable |}.

(** A service that rejects the query for page one and answers every other
    query with one row. *)
Definition firstPageFails : DataverseAPI :=
  {| fetchXmlQuery := fun _ fetchXml =>
       if String.eqb fetchXml (Fixtures.pageMark 1) then Fixtures.unreachable
       else Fixtures.answer [Fixtures.row "a1"] None None None;
     execute := fun _ _ _ _ => Fixtures.unreachable;
     queryData := fun _ _ => Fixtures.unreachable |}.

(** The page the hook is on at the start of a run and after each of its
    steps. *)
Fixpoint pagesShown (api : DataverseAPI) (co : Parsers.Collaborators)
  (steps : list Hooks.Step) (h : Hooks.LogsHook) (w : World) : list Z :=
  pageNumber (Pagination.pagination (Hooks.paging h))
  :: match steps with
     | [] => []
     | s :: rest =>
         match Hooks.step api co s h w with
         | (Return h', w') => pagesShown api co rest h' w'
         | (Throw _, _) => []
         end
     end.

(** The pagination hook once pages one and two were fetched and page one is
    shown again, its fetch done: the cursor of page one is in flight, and
    cursors are cached for the pages two and three. *)
Definition revisitedFirstPage : Pagination.Hook :=
  {| Pagination.pagination := initialPaginationState;
     Pagination.pagingCookieRef := Some "C1"%string;
     Pagination.pagingCookieCacheRef := {[ 2 := "C1"%string; 3 := "C2"%string ]} |}.

(** A service that holds three rows and serves them two per answer, in
    turn: what it answers depends on the requests it has seen, not on the
    query. *)
Definition threeRowsInTurn : DataverseAPI :=
  {| fetchXmlQuery := fun evs _ =>
       let k := length (requests evs) in
       Fixtures.answer (firstn 2 (skipn (k * 2) Fixtures.threeRows)) None
                       (Some ((k + 1) * 2 <? 3)%nat) None;
     execute := fun _ _ _ _ => Fixtures.unreachable;
     queryData := fun _ _ => Fixtures.unreachable |}.

(** A service that answers two rows, announcing more, and nothing after
    that. *)
Definition twoRowsThenNone : DataverseAPI :=
  {| fetchXmlQuery := fun evs _ =>
       match length (requests evs) with
       | O => Fixtures.answer [Fixtures.row "a1"; Fixtures.row "a2"] None (Some true) None
       | _ => Fixtures.answer [] None None None
       end;
     execute := fun _ _ _ _ => Fixtures.unreachable;
     queryData := fun _ _ => Fixtures.unreachable |}.

(** A pagination hook on page 5 that holds a cursor for page 3. *)
Definition onPageFive : Pagination.Hook :=
  {| Pagination.pagination := Pagination.with_page initialPaginationState 5;
     Pagination.pagingCookieRef := None;
     Pagination.pagingCookieCacheRef := {[ 3 := "C"%string ]} |}.

End Samples.

(* ===================================================================== *)
(** * Properties                                                          *)
(* ===================================================================== *)

(** ** The page-indexed cursor cache *)

Section CursorCache.
Import Pagination.

Implicit Types (h : Hook) (page k : Z).

Lemma has_is_Some (cache : gmap Z string) page :
  has cache page = true <-> is_Some (cache !! page).
Proof.
  unfold has. destruct (cache !! page) as [c|]; split; intros H; done.
Qed.

Lemma canNavigateToPage_first h : canNavigateToPage h 1 = true.
Proof. reflexivity. Qed.

(** C1 (as amended). Page 1 is always navigable; on a state whose page
    number is at least 1, the page after the current one is navigable
    exactly when the in-flight cursor is set or that page has a cached
    cursor; any page further ahead is navigable exactly when it is a key
    of the cursor cache. *)
Theorem canNavigateToPage_characterised h k :
  1 <= pageNumber (pagination h) ->
  canNavigateToPage h 1 = true
  /\ (canNavigateToPage h (pageNumber (pagination h) + 1) = true
      <-> truthy (pagingCookieRef h) = true
          \/ is_Some (pagingCookieCacheRef h !! (pageNumber (pagination h) + 1)))
  /\ (pageNumber (pagination h) + 1 < k ->
      (canNavigateToPage h k = true <-> is_Some (pagingCookieCacheRef h !! k))).
Proof.
  intros Hpage. split; [reflexivity|]. split.
  - unfold canNavigateToPage.
    destruct (Z.eqb_spec (pageNumber (pagination h) + 1) 1) as [E|_]; [lia|].
    rewrite Z.eqb_refl. cbn [andb].
    destruct (truthy (pagingCookieRef h)).
    + split; [by left|done].
    + rewrite <- has_is_Some.
      destruct (has (pagingCookieCacheRef h) (pageNumber (pagination h) + 1));
        split; intros H; try done; try (by right).
      by destruct H.
  - intros Hk. unfold canNavigateToPage.
    destruct (Z.eqb_spec k 1) as [E|_]; [lia|].
    destruct (Z.eqb_spec k (pageNumber (pagination h) + 1)) as [E|_]; [lia|].
    cbn [andb]. rewrite <- has_is_Some.
    by destruct (has (pagingCookieCacheRef h) k).
Qed.

Lemma canNavigateToPage_characterised_witness :
  canNavigateToPage Samples.revisitedFirstPage 2 = true
  /\ canNavigateToPage Samples.revisitedFirstPage 3 = true
  /\ canNavigateToPage Samples.revisitedFirstPage 4 = false.
Proof.
  assert (Hpage : 1 <= pageNumber (pagination Samples.revisitedFirstPage))
    by (simpl; lia).
  destruct (canNavigateToPage_characterised Samples.revisitedFirstPage 3 Hpage)
    as (_ & Hnext & Hthird).
  destruct (canNavigateToPage_characterised Samples.revisitedFirstPage 4 Hpage)
    as (_ & _ & Hfourth).
  split; [apply Hnext; left; reflexivity|].
  split; [apply Hthird; [simpl; lia|]; by eexists|].
  apply not_true_is_false. intros Hnav.
  apply Hfourth in Hnav as [c Hc]; [|simpl; lia]. vm_compute in Hc. discriminate Hc.
Defined.

(** C1 (as stated) fails twice in one state.  Pages one and two were
    fetched, the user went back to page one and the fetch of that page
    failed: the hook showed the pages 1 and 2 only.  Page two is navigable
    although no in-flight cursor is set; and page three, further ahead, is
    navigable although it was never visited -- its cursor was cached when
    page two was fetched. *)
Lemma navigable_without_cursor_or_visit :
  exists h,
    Fixtures.pagingAfter Fixtures.scripted Fixtures.backToFirstPage = Some h
    /\ pageNumber (pagination h) = 1
    /\ pagingCookieRef h = None
    /\ ~ (canNavigateToPage h (pageNumber (pagination h) + 1) = true
          <-> truthy (pagingCookieRef h) = true)
    /\ Samples.pagesShown Fixtures.scripted Fixtures.plain Fixtures.backToFirstPage
         Hooks.initialLogs emptyWorld = [1; 1; 2; 2; 1; 1]
    /\ pageNumber (pagination h) + 1 < 3
    /\ pagingCookieCacheRef h !! 3 = Some "C2"%string
    /\ ~ (canNavigateToPage h 3 = true
          <-> In 3 (Samples.pagesShown Fixtures.scripted Fixtures.plain
                      Fixtures.backToFirstPage Hooks.initialLogs emptyWorld)).
Proof.
  eexists. split; [vm_compute; reflexivity|].
  split; [reflexivity|]. split; [reflexivity|].
  split.
  { intros [H _]. cbn in H. discriminate H. vm_compute. reflexivity. }
  split; [vm_compute; reflexivity|]. split; [simpl; lia|].
  split; [vm_compute; reflexivity|].
  intros [H _]. assert (Hin : In 3 [1; 1; 2; 2; 1; 1]).
  { apply H. vm_compute. reflexivity. }
  cbn in Hin. intuition discriminate.
Qed.

(** C6. A jump to a page that is not 1, not the next page, and has no
    cached cursor (no entry, or an empty one) leaves the pagination state
    -- page number, page size, cursor and cursor cache -- exactly as it
    was; nothing is thrown, and a warning is logged unless the page asked
    for is the current one. *)
Theorem setPage_unreachable_is_noop h page :
  page <> 1 ->
  page <> pageNumber (pagination h) + 1 ->
  truthy (pagingCookieCacheRef h !! page) = false ->
  setPage page h
  = (h, if page =? pageNumber (pagination h) then [] else [NoCachedPagingCookie page]).
Proof.
  intros H1 Hnext Hcache. unfold setPage.
  destruct (Z.eqb_spec page (pageNumber (pagination h))) as [_|_]; [reflexivity|].
  destruct (Z.eqb_spec page 1) as [E|_]; [contradiction|].
  destruct (Z.eqb_spec page (pageNumber (pagination h) + 1)) as [E|_]; [contradiction|].
  cbn zeta. rewrite Hcache. reflexivity.
Qed.

Lemma setPage_unreachable_is_noop_witness :
  setPage 5 initialHook = (initialHook, [NoCachedPagingCookie 5]).
Proof.
  apply (setPage_unreachable_is_noop initialHook 5).
  - lia.
  - simpl. lia.
  - reflexivity.
Defined.

End CursorCache.

(** ** The filter reducer *)

Section FilterReducer.
Import Filters FilterInvariant.

Lemma filterReducer_preserves s a :
  recordNeedsOneTable s -> offered s a -> recordNeedsOneTable (filterReducer s a).
Proof.
  unfold recordNeedsOneTable.
  destruct a as [tables|[rid|] rname| | | | | | | |]; cbn; intros Hs Ha Hrec;
    solve [ contradiction | assumption | auto ].
Qed.

(** C8 (as amended). In every filter state reached by dispatches in which
    a record is only selected while exactly one table is selected, a
    non-null record id implies that exactly one table is selected. *)
Theorem guarded_dispatches_keep_record_in_one_table s :
  Reachable s -> recordNeedsOneTable s.
Proof.
  induction 1 as [|s a _ IH Ha].
  - intros Hrec. cbn in Hrec. contradiction.
  - by apply filterReducer_preserves.
Qed.

Lemma guarded_dispatches_keep_record_in_one_table_witness :
  recordNeedsOneTable
    (filterReducer (filterReducer initialFiltersState (SET_TABLES ["contact"%string]))
                   (SET_RECORD (Some "r1"%string) (Some "Ann"%string))).
Proof.
  apply (guarded_dispatches_keep_record_in_one_table
           (filterReducer (filterReducer initialFiltersState (SET_TABLES ["contact"%string]))
                          (SET_RECORD (Some "r1"%string) (Some "Ann"%string)))).
  apply reach_dispatch.
  - apply reach_dispatch.
    + apply reach_initial.
    + simpl. exact I.
  - simpl. reflexivity.
Defined.

(** C8 (as stated) fails: the reducer accepts [SET_RECORD] in any state, so
    one dispatch from the initial state selects a record with no table. *)
Lemma record_selected_without_table :
  let s := dispatchAll [SET_RECORD (Some "r1"%string) (Some "Ann"%string)] in
  recordId s = Some "r1"%string
  /\ tableLogicalNames s = []
  /\ ~ recordNeedsOneTable s.
Proof.
  cbn. split; [reflexivity|]. split; [reflexivity|].
  intros H. unfold recordNeedsOneTable in H. cbn in H.
  assert (E : 0%nat = 1%nat) by (apply H; discriminate). discriminate E.
Qed.

(** What the other operations do to the pair the invariant is about. *)
Lemma set_tables_clears_record s tables :
  recordId (filterReducer s (SET_TABLES tables)) = None.
Proof. reflexivity. Qed.

Lemma clear_filters_keeps_tables s :
  tableLogicalNames (filterReducer s CLEAR_FILTERS) = tableLogicalNames s
  /\ recordId (filterReducer s CLEAR_FILTERS) = None.
Proof. split; reflexivity. Qed.

End FilterReducer.

(** ** The page fetcher *)

Section PageFetcher.
Import Parsers Service Helpers.

Variables (api : DataverseAPI) (co : Collaborators).
Implicit Types (filters : AuditFiltersState) (pagination : PaginationState) (w : World).

(** [queryAuditLogs] never lets an exception out. *)
Lemma queryAuditLogs_returns filters pagination w :
  exists r, fst (queryAuditLogs api co filters pagination w) = Return r.
Proof.
  unfold queryAuditLogs, catch, mbind, M_bind, mbindM, lift, mret, M_ret, ret.
  destruct (buildAuditFetchXml co _ _ _ _) as [q|e]; cbn; [|by eexists].
  unfold call_fetchXmlQuery.
  destruct (fetchXmlQuery api (trace w) q) as [[resp|]|e]; cbn; try by eexists.
  destruct (length (rowsOf resp) =? 0)%nat; cbn; by eexists.
Qed.

(** The two ways a call can end when the request it would send is
    rejected: the query text could not be built and nothing was sent, or
    the request was sent and threw.  Either way the caller gets the empty
    page. *)
Lemma queryAuditLogs_down filters pagination w :
  (forall fetchXml,
     buildAuditFetchXml co filters (Model.pageSize pagination)
       (Model.pageNumber pagination) (Model.pagingCookie pagination) = Return fetchXml ->
     exists e, fetchXmlQuery api (trace w) fetchXml = Throw e) ->
  queryAuditLogs api co filters pagination w = (Return emptyPage, w)
  \/ exists fetchXml,
       queryAuditLogs api co filters pagination w
       = (Return emptyPage, log (Request (FetchXmlQuery fetchXml)) w).
Proof.
  intros Hdown.
  unfold queryAuditLogs, catch, mbind, M_bind, mbindM, lift, mret, M_ret, ret.
  destruct (buildAuditFetchXml co _ _ _ _) as [q|e]; cbn; [|by left].
  right. exists q. unfold call_fetchXmlQuery. destruct (Hdown q eq_refl) as [e ->].
  reflexivity.
Qed.

(** C5. Whatever the filters and the pagination, when the remote call for
    the query built from them throws, [queryAuditLogs] does not throw and
    resolves to the empty page
    [{entries: [], totalCount: 0, hasMoreRecords: false}]; so it does when
    the query text cannot be built. *)
Theorem queryAuditLogs_transport_failure filters pagination w :
  (forall fetchXml,
     buildAuditFetchXml co filters (Model.pageSize pagination)
       (Model.pageNumber pagination) (Model.pagingCookie pagination) = Return fetchXml ->
     exists e, fetchXmlQuery api (trace w) fetchXml = Throw e) ->
  fst (queryAuditLogs api co filters pagination w) = Return emptyPage.
Proof.
  intros Hdown.
  destruct (queryAuditLogs_down filters pagination w Hdown) as [->|[q ->]]; reflexivity.
Qed.

(** C4 (as amended). For an answer that carries at least one row: when the
    more-records flag is left out, [hasMoreRecords] is
    [row count >= pageSize]; when the total count is left out,
    [totalCount] is [entries.length * (pageNumber + 1)] if there are more
    records and [entries.length + (pageNumber - 1) * pageSize] otherwise.
    For an answer without rows, [hasMoreRecords] is false and [totalCount]
    is the total the service sent, or 0. *)
Theorem queryAuditLogs_fallbacks filters pagination w fetchXml responseData :
  buildAuditFetchXml co filters (Model.pageSize pagination)
    (Model.pageNumber pagination) (Model.pagingCookie pagination) = Return fetchXml ->
  fetchXmlQuery api (trace w) fetchXml = Return (Some responseData) ->
  exists r,
    fst (queryAuditLogs api co filters pagination w) = Return r
    /\ (rowsOf responseData <> [] ->
        (morerecords responseData = None ->
         hasMoreRecords r = (Model.pageSize pagination <=? len (rowsOf responseData)))
        /\ (totalrecordcount responseData = None ->
            totalCount r =
              if hasMoreRecords r
              then len (entries r) * (Model.pageNumber pagination + 1)
              else len (entries r)
                   + (Model.pageNumber pagination - 1) * Model.pageSize pagination))
    /\ (rowsOf responseData = [] ->
        hasMoreRecords r = false
        /\ totalCount r = num_or (totalrecordcount responseData) 0).
Proof.
  intros Hbuild Hanswer.
  unfold queryAuditLogs, catch, mbind, M_bind, mbindM, lift, mret, M_ret, ret.
  rewrite Hbuild. cbn. unfold call_fetchXmlQuery. rewrite Hanswer. cbn.
  destruct (rowsOf responseData) as [|row rows] eqn:Hrows.
  - cbn. eexists. split; [reflexivity|]. split; [congruence|]. intros _. split; reflexivity.
  - cbn. eexists. split; [reflexivity|]. split; [|discriminate].
    intros _. split; intros ->; reflexivity.
Qed.

End PageFetcher.

Lemma queryAuditLogs_transport_failure_witness :
  fst (Service.queryAuditLogs Samples.firstPageFails Fixtures.pageInQuery initialFiltersState
         initialPaginationState emptyWorld)
  = Return Service.emptyPage.
Proof.
  apply (queryAuditLogs_transport_failure Samples.firstPageFails Fixtures.pageInQuery
           initialFiltersState initialPaginationState emptyWorld).
  intros fetchXml Hbuilt. injection Hbuilt as <-. exists (Error "network"). reflexivity.
Defined.

Lemma queryAuditLogs_fallbacks_witness :
  exists r,
    fst (Service.queryAuditLogs Fixtures.twoRowsNoAnnotation Fixtures.plain initialFiltersState
           (mkPagination 3 2 0 None None false) emptyWorld) = Return r
    /\ Service.hasMoreRecords r = true
    /\ Service.totalCount r = 8.
Proof.
  destruct (queryAuditLogs_fallbacks Fixtures.twoRowsNoAnnotation Fixtures.plain
              initialFiltersState (mkPagination 3 2 0 None None false) emptyWorld
              EmptyString
              {| value := Some [Fixtures.row "a1"; Fixtures.row "a2"];
                 fetchxmlpagingcookie := None; morerecords := None;
                 totalrecordcount := None |}
              eq_refl eq_refl) as (r & Hr & Hrows & _).
  exists r. split; [exact Hr|].
  destruct Hrows as [Hmore Htotal]; [discriminate|].
  specialize (Hmore eq_refl). specialize (Htotal eq_refl).
  vm_compute in Hr. injection Hr as <-. split; reflexivity.
Defined.

(** C4 (as stated) fails on an answer without rows: on page 2 with page
    size 50 and no total sent, the formula gives [0 + (2 - 1) * 50 = 50],
    and [queryAuditLogs] returns a total of 0. *)
Lemma empty_answer_total_is_zero :
  exists r,
    fst (Service.queryAuditLogs Fixtures.emptyAnswers Fixtures.plain initialFiltersState
           (mkPagination 2 50 0 None None false) emptyWorld) = Return r
    /\ Service.totalCount r = 0
    /\ Service.totalCount r
       <> (if Service.hasMoreRecords r
           then Service.len (Service.entries r) * (2 + 1)
           else Service.len (Service.entries r) + (2 - 1) * 50).
Proof.
  eexists. split; [vm_compute; reflexivity|]. split; [reflexivity|]. vm_compute. discriminate.
Qed.

(** ** The detail dispatcher *)

Section DetailDispatch.
Import Parsers Fixtures.

Variables (api : DataverseAPI) (co : Collaborators).

Lemma prefix_refl p : String.prefix p p = true.
Proof. induction p as [|c p IH]; cbn; [reflexivity|]. by destruct (ascii_dec c c). Qed.

Lemma includes_unfold s p :
  includes s p
  = if String.prefix p s then true
    else match s with
         | EmptyString => false
         | String _ s' => includes s' p
         end.
Proof. destruct s; reflexivity. Qed.

Lemma includes_suffix pre p : includes (pre ++ p) p = true.
Proof.
  induction pre as [|c pre IH].
  - change (includes p p = true). rewrite includes_unfold. by rewrite prefix_refl.
  - change (includes (String c (pre ++ p)) p = true). rewrite includes_unfold.
    destruct (String.prefix p (String c (pre ++ p))); [reflexivity|exact IH].
Qed.

Lemma dispatch_share pre entity attributeMap w :
  parseAuditDetail api co (scenarioB pre) entity attributeMap w
  = parseShareAuditDetail api (scenarioB pre) w.
Proof.
  unfold scenarioB.
  assert (Hincl : includes (pre +:+ "ShareAuditDetail") "ShareAuditDetail" = true)
    by apply includes_suffix.
  assert (Htruthy : truthy_string (pre +:+ "ShareAuditDetail") = true)
    by (destruct pre; reflexivity).
  generalize dependent (pre +:+ "ShareAuditDetail"). intros t Hincl Htruthy.
  unfold parseAuditDetail, mbind, M_bind, mbindM, lift, odataIncludes, Js.get, or_else.
  cbn. rewrite Htruthy, Hincl. reflexivity.
Qed.

Lemma lookupPrincipalName_returns principalId principalType w :
  exists name w', Principal.lookupPrincipalName api principalId principalType w = (Return name, w').
Proof.
  unfold Principal.lookupPrincipalName, gets, catch, mbind, M_bind, mbindM, mret, M_ret, ret.
  destruct (truthy_value _); [by eexists _, _|].
  unfold Principal.fetchPrincipalName, call_queryData, modify, mbind, M_bind, mbindM, mret, M_ret, ret.
  destruct (String.eqb principalType "systemuser").
  { destruct (queryData api _ _); by eexists _, _. }
  destruct (String.eqb principalType "team").
  { destruct (queryData api _ _); by eexists _, _. }
  by eexists _, _.
Qed.

(** C9. Scenario B: for the envelope whose type ends in [ShareAuditDetail],
    with a team principal [T1], old privileges 0 and new privileges 3, the
    dispatcher selects the share parser and the result is a single detail
    tagged [share] with principalId [T1], principalType [team],
    oldPrivileges [None] and newPrivileges [Read, Write] -- whatever the
    service, the caches and the name lookup do. *)
Theorem scenarioB_parses_to_share pre entity attributeMap w :
  parseAuditDetail api co (scenarioB pre) entity attributeMap w
  = parseShareAuditDetail api (scenarioB pre) w
  /\ exists name,
    fst (parseAuditDetail api co (scenarioB pre) entity attributeMap w)
    = Return [share {| principalId := JStr "T1"; principalName := name;
                       principalType := "team"; oldPrivileges := "None";
                       newPrivileges := "Read, Write" |}].
Proof.
  split; [apply dispatch_share|].
  rewrite dispatch_share.
  unfold parseShareAuditDetail.
  pose proof lookupPrincipalName_returns as HL.
  set (L := Principal.lookupPrincipalName api) in *. clearbody L.
  unfold scenarioB, catch, mbind, M_bind, mbindM, lift, mret, M_ret, ret.
  cbn -[String.append].
  destruct (HL (JStr "T1") "team"%string w) as (name & w' & Hl).
  vm_compute. vm_compute in Hl. rewrite Hl.
  match goal with
  | |- context [(if ?c then _ else _) w'] => destruct c
  end; eexists; reflexivity.
Qed.
End DetailDispatch.

(** Scenario B against a service that is down: the name lookup fails and
    the placeholder built from the id is used. *)
Lemma scenarioB_service_down :
  fst (Parsers.parseAuditDetail Fixtures.down Fixtures.plain
         (Fixtures.scenarioB "#Microsoft.Dynamics.CRM.") "account" ∅ emptyWorld)
  = Return [share {| principalId := JStr "T1";
                     principalName := JStr "Team (T1...)";
                     principalType := "team"; oldPrivileges := "None";
                     newPrivileges := "Read, Write" |}].
Proof. vm_compute. reflexivity. Qed.

(** ** The attribute parser *)

Section AttributeParsing.
Import Parsers.

Implicit Types (oldValues newValues : JsValue) (attributeMap : gmap string AttributeOption).

Lemma existsb_eqb_In (x : string) (seen : list string) :
  existsb (String.eqb x) seen = true <-> In x seen.
Proof.
  rewrite existsb_exists. split.
  - intros (y & Hy & E). apply String.eqb_eq in E. by subst.
  - intros H. exists x. split; [exact H|apply String.eqb_refl].
Qed.

Lemma dedup_keys_In seen xs x :
  In x (dedup_keys seen xs) <-> In x xs /\ ~ In x seen.
Proof.
  revert seen. induction xs as [|y xs IH]; intros seen; cbn.
  - tauto.
  - destruct (existsb (String.eqb y) seen) eqn:E.
    + apply existsb_eqb_In in E. rewrite IH. split.
      * tauto.
      * intros [[->|H] Hn]; tauto.
    + assert (Hy : ~ In y seen).
      { intros H. apply existsb_eqb_In in H. congruence. }
      cbn. rewrite IH. cbn. split.
      * intros [->|[H Hn]]; [tauto|]. split; [tauto|]. intros Hs. apply Hn. by right.
      * intros [[->|H] Hn]; [by left|].
        destruct (string_dec y x) as [->|Hne]; [by left|].
        right. split; [exact H|]. intros [E'|Hs]; [by apply Hne|by apply Hn].
Qed.

Lemma dedup_keys_NoDup seen xs : List.NoDup (dedup_keys seen xs).
Proof.
  revert seen. induction xs as [|y xs IH]; intros seen; cbn; [constructor|].
  destruct (existsb (String.eqb y) seen); [apply IH|].
  constructor; [|apply IH].
  rewrite dedup_keys_In. intros [_ Hn]. apply Hn. by left.
Qed.

(** The rows, read off the key set: one row for each key that is not a
    metadata key and has a value in at least one map -- equal values or
    not. *)
Lemma attributeRows_names oldValues newValues attributeMap :
  List.map attributeName (attributeRows oldValues newValues attributeMap)
  = List.filter
      (fun k => negb (isMetadataKey k)
                && negb (is_undefined (get_prop oldValues k)
                         && is_undefined (get_prop newValues k)))
      (allAttributes oldValues newValues).
Proof.
  unfold attributeRows.
  induction (allAttributes oldValues newValues) as [|k ks IH]; [reflexivity|].
  cbn [flat_map List.filter]. rewrite List.map_app, IH.
  unfold attributeRow at 1.
  destruct (isMetadataKey k); [reflexivity|].
  destruct (is_undefined (get_prop oldValues k) && is_undefined (get_prop newValues k));
    reflexivity.
Qed.

Lemma attributeRows_one_row_per_key oldValues newValues attributeMap :
  List.NoDup (List.map attributeName (attributeRows oldValues newValues attributeMap)).
Proof.
  rewrite attributeRows_names. apply List.NoDup_filter. apply dedup_keys_NoDup.
Qed.

Lemma attributeRows_skip_metadata oldValues newValues attributeMap d :
  In d (attributeRows oldValues newValues attributeMap) ->
  isMetadataKey (attributeName d) = false.
Proof.
  intros Hd. apply (List.in_map attributeName) in Hd.
  rewrite attributeRows_names in Hd. apply List.filter_In in Hd as [_ Hd].
  apply andb_true_iff in Hd as [Hd _]. by apply negb_true_iff in Hd.
Qed.

Lemma attributeRows_display_name oldValues newValues attributeMap d :
  In d (attributeRows oldValues newValues attributeMap) ->
  attributeDisplayName d = resolveDisplayName attributeMap (attributeName d).
Proof.
  unfold attributeRows. rewrite List.in_flat_map. intros (k & _ & Hd).
  unfold attributeRow in Hd.
  destruct (isMetadataKey k); [destruct Hd|].
  destruct (is_undefined _ && is_undefined _); [destruct Hd|].
  destruct Hd as [<-|[]]. reflexivity.
Qed.

Lemma resolveDisplayName_fallback attributeMap k :
  attributeMap !! k = None -> resolveDisplayName attributeMap k = k.
Proof. intros H. unfold resolveDisplayName. by rewrite H. Qed.

(** C3. A row is due only for a key whose stringified old and new values
    differ.  On an envelope whose old and new maps both hold [name = A],
    whose stringified values are equal, the parser emits a row for [name]
    all the same. *)
Theorem unchanged_attribute_gets_a_row :
  stringify (get_prop (get_prop Fixtures.unchangedName "OldValue") "name")
  = stringify (get_prop (get_prop Fixtures.unchangedName "NewValue") "name")
  /\ parseAttributeAuditDetail Fixtures.unchangedName ∅
     = [ {| attributeName := "name"; attributeDisplayName := "name";
            oldValue := Some "A"%string; newValue := Some "A"%string |} ].
Proof. split; reflexivity. Qed.

End AttributeParsing.

(** ** The fetch cycle and the cursor cache *)

Section FetchCycle.
Import Parsers Pagination Hooks.

Variables (api : DataverseAPI) (co : Collaborators).
Implicit Types (h : LogsHook) (w : World).

(** The cache after a commit: the cache before, with the returned cursor
    put under the page after the requested one when that cursor is set. *)
Lemma commitFetch_cache requestedPage result details h :
  pagingCookieCacheRef (paging (commitFetch requestedPage result details h))
  = if truthy (Service.pagingCookie result)
    then <[requestedPage + 1 := default EmptyString (Service.pagingCookie result)]>
           (pagingCookieCacheRef (paging h))
    else pagingCookieCacheRef (paging h).
Proof.
  unfold commitFetch. cbn.
  destruct (Service.pagingCookie result) as [c|]; [|reflexivity].
  cbn. by destruct (truthy_string c).
Qed.

Lemma commitFetch_ref requestedPage result details h :
  pagingCookieRef (paging (commitFetch requestedPage result details h))
  = Service.pagingCookie result.
Proof. reflexivity. Qed.

(** When the query that was sent threw, the awaited call yields no
    cursor. *)
Lemma requestPage_rejected f p w out w1 fetchXml e :
  requestPage api co f p w = (out, w1) ->
  trace w1 = trace w ++ [Request (FetchXmlQuery fetchXml)] ->
  fetchXmlQuery api (trace w) fetchXml = Throw e ->
  exists answer, out = Return answer /\ Service.pagingCookie (fst answer) = None.
Proof.
  assert (Hsame : forall q, trace w ++ [Request (FetchXmlQuery q)]
                            = trace w ++ [Request (FetchXmlQuery fetchXml)] -> q = fetchXml).
  { intros q H. apply app_inv_head in H. by injection H. }
  assert (Hnone : trace w <> trace w ++ [Request (FetchXmlQuery fetchXml)]).
  { intros H. apply (f_equal (@length _)) in H. rewrite length_app in H. cbn in H. lia. }
  unfold requestPage.
  destruct (truthy (recordId f) && (length (tableLogicalNames f) =? 1)%nat).
  - unfold Service.getRecordChangeHistory, catch, mbind, M_bind, mbindM, lift,
      mret, M_ret, ret, call_fetchXmlQuery.
    destruct (buildHistoryFetchXml co _ _) as [q|e']; cbn.
    2: { intros [= <- <-] Htrace. by destruct Hnone. }
    destruct (fetchXmlQuery api (trace w) q) as [[resp|]|e'] eqn:Hq; cbn.
    + destruct (length (Service.rowsOf resp) =? 0)%nat; cbn;
        intros [= <- <-] Htrace Hthrow; cbn in Htrace;
        apply Hsame in Htrace; subst q; congruence.
    + intros [= <- <-] Htrace Hthrow. cbn in Htrace. apply Hsame in Htrace. subst q.
      congruence.
    + intros [= <- <-] _ _. by eexists.
  - unfold mbind, M_bind, mbindM, mret, M_ret, ret.
    unfold Service.queryAuditLogs, catch, mbind, M_bind, mbindM, lift, mret, M_ret, ret,
      call_fetchXmlQuery.
    destruct (buildAuditFetchXml co _ _ _ _) as [q|e']; cbn.
    2: { intros [= <- <-] Htrace. by destruct Hnone. }
    destruct (fetchXmlQuery api (trace w) q) as [[resp|]|e'] eqn:Hq; cbn.
    + destruct (length (Service.rowsOf resp) =? 0)%nat; cbn;
        intros [= <- <-] Htrace Hthrow; cbn in Htrace;
        apply Hsame in Htrace; subst q; congruence.
    + intros [= <- <-] _ _. by eexists.
    + intros [= <- <-] _ _. by eexists.
Qed.

(** C7 (as amended). In a fetch cycle started on page [requested], the
    cursor cache after the cycle is the cache before it, with the cursor
    the awaited call came back with put under [requested + 1] -- in place of
    whatever was cached there -- when that call succeeded and its cursor is
    set; in every other case the cache is as it was.  So no key other than
    [requested + 1] changes; when the query that was sent threw, nothing is
    stored; and a hook that is not connected does nothing. *)
Theorem fetch_records_cursor_under_next_page h w :
  let requested := pageNumber (pagination (paging h)) in
  let cache := pagingCookieCacheRef (paging h) in
  exists h' w' outcome,
    fetchAuditLogs api co true h w = (Return h', w')
    /\ requestPage api co (filters h) (paginationWithCookie (paging h)) w = (outcome, w')
    /\ pagingCookieCacheRef (paging h')
       = match outcome with
         | Return answer =>
             match Service.pagingCookie (fst answer) with
             | Some cookie =>
                 if truthy_string cookie then <[requested + 1 := cookie]> cache else cache
             | None => cache
             end
         | Throw _ => cache
         end
    /\ (forall k, k <> requested + 1 ->
        pagingCookieCacheRef (paging h') !! k = cache !! k)
    /\ (forall fetchXml e,
          trace w' = trace w ++ [Request (FetchXmlQuery fetchXml)] ->
          fetchXmlQuery api (trace w) fetchXml = Throw e ->
          pagingCookieCacheRef (paging h') = cache)
    /\ fetchAuditLogs api co false h w = (Return h, w).
Proof.
  intros requested cache. unfold fetchAuditLogs, catch, mbind, M_bind, mbindM, mret, M_ret, ret.
  cbn [negb].
  destruct (requestPage api co (filters h) (paginationWithCookie (paging h)) w)
    as [[answer|e] w1] eqn:Hreq.
  - eexists _, _, _. split; [reflexivity|]. split; [reflexivity|].
    rewrite commitFetch_cache. cbn [paging startFetch].
    fold cache. fold requested.
    destruct (Service.pagingCookie (fst answer)) as [c|] eqn:Hc; cbn [truthy default].
    + destruct (truthy_string c) eqn:Ht.
      * split; [reflexivity|]. split; [intros k Hk; by rewrite lookup_insert_ne|].
        split; [|reflexivity]. intros q e Htrace Hthrow.
        destruct (requestPage_rejected _ _ _ _ _ _ _ Hreq Htrace Hthrow)
          as (answer' & [= <-] & Hnone). congruence.
      * split; [reflexivity|]. split; [done|]. split; [done|reflexivity].
    + split; [reflexivity|]. split; [done|]. split; [done|reflexivity].
  - eexists _, _, _. split; [reflexivity|]. split; [reflexivity|]. cbn.
    split; [reflexivity|]. split; [done|]. split; [done|reflexivity].
Qed.

(** C7 (as stated) fails: the cursor [C2] cached for page 3 on the first
    visit of page 2 is replaced by [C2b] when page 2 is fetched again after
    it was reached by another path (forward from page 1, without cursor). *)
Lemma recorded_cursor_replaces_cached_one :
  exists first second : Pagination.Hook,
    Fixtures.pagingAfter Fixtures.scripted Fixtures.backToFirstPage = Some first
    /\ Fixtures.pagingAfter Fixtures.scripted Fixtures.secondVisit = Some second
    /\ pagingCookieCacheRef first !! 3 = Some "C2"%string
    /\ pagingCookieCacheRef second !! 3 = Some "C2b"%string.
Proof.
  eexists _, _. split; [vm_compute; reflexivity|]. split; [vm_compute; reflexivity|].
  split; reflexivity.
Qed.

(** Every state the hook goes through is well formed, so the page number
    is at least 1 wherever [canNavigateToPage] is called. *)
Lemma setPage_wellFormed page p :
  wellFormed p -> wellFormed (fst (Pagination.setPage page p)).
Proof.
  intros [Hpage Hcache]. unfold Pagination.setPage.
  destruct (Z.eqb_spec page (pageNumber (pagination p))); [by split|].
  destruct (Z.eqb_spec page 1); [split; [cbn; lia|exact Hcache]|].
  destruct (Z.eqb_spec page (pageNumber (pagination p) + 1)); [split; [cbn; lia|exact Hcache]|].
  cbn zeta. destruct (pagingCookieCacheRef p !! page) as [c|] eqn:Hc; cbn [truthy]; [|by split].
  destruct (truthy_string c); [|by split].
  split; [cbn; by destruct (Hcache page c Hc); lia|exact Hcache].
Qed.

Lemma commitFetch_wellFormed result details h :
  wellFormed (paging h) ->
  wellFormed (paging (commitFetch (pageNumber (pagination (paging h))) result details h)).
Proof.
  intros [Hpage Hcache]. split; [exact Hpage|].
  intros k c. rewrite commitFetch_cache.
  destruct (Service.pagingCookie result) as [c'|]; cbn [truthy default]; [|apply Hcache].
  destruct (truthy_string c') eqn:Ht; [|apply Hcache].
  destruct (decide (pageNumber (pagination (paging h)) + 1 = k)) as [<-|Hne].
  - rewrite lookup_insert_eq. intros [= <-]. split; [lia|exact Ht].
  - rewrite lookup_insert_ne by exact Hne. apply Hcache.
Qed.

Lemma initialHook_wellFormed : wellFormed initialHook.
Proof. split; [cbn; lia|]. intros k c H. cbn in H. by rewrite lookup_empty in H. Qed.

Lemma step_wellFormed s h w h' w' :
  wellFormed (paging h) -> step api co s h w = (Return h', w') -> wellFormed (paging h').
Proof.
  intros Hwf. destruct s as [|page|size|a|entryId name]; cbn [step].
  - unfold fetchAuditLogs, catch, mbind, M_bind, mbindM, mret, M_ret, ret. cbn [negb].
    destruct (requestPage api co (filters h) (paginationWithCookie (paging h)) w)
      as [[answer|e] w1]; intros [= <- _].
    + by apply (commitFetch_wellFormed (fst answer) (snd answer) (startFetch h)).
    + exact Hwf.
  - intros [= <- _]. by apply setPage_wellFormed.
  - intros [= <- _]. split; [cbn; lia|]. intros k c H. cbn in H. by rewrite lookup_empty in H.
  - unfold dispatch, handleFilterChange, Service.clearAuditDetailsCache, modify,
      mbind, M_bind, mbindM, mret, M_ret, ret.
    destruct a; intros [= <- _]; first [exact Hwf | apply initialHook_wellFormed].
  - unfold loadDetails, Service.getCachedDetails, gets, catch, mbind, M_bind, mbindM,
      mret, M_ret, ret.
    destruct (detailsMap h !! entryId); [by intros [= <- _]|].
    destruct (detailsCache w !! entryId); [by intros [= <- _]|].
    destruct (negb _); [by intros [= <- _]|].
    destruct (Service.getAuditDetails _ _ _ _ _ _) as [[d|e] w1]; by intros [= <- _].
Qed.

Lemma run_wellFormed steps h w h' w' :
  wellFormed (paging h) -> run api co steps h w = (Return h', w') -> wellFormed (paging h').
Proof.
  revert h w. induction steps as [|s steps IH]; intros h w Hwf; cbn [run].
  - by intros [= <- _].
  - unfold mbind, M_bind, mbindM.
    destruct (step api co s h w) as [[h1|e] w1] eqn:Hstep; [|discriminate].
    apply IH. by eapply step_wellFormed.
Qed.

Lemma mounted_hook_wellFormed steps w h' w' :
  run api co steps initialLogs w = (Return h', w') -> wellFormed (paging h').
Proof. apply run_wellFormed. apply initialHook_wellFormed. Qed.

End FetchCycle.

Lemma fetch_records_cursor_under_next_page_witness :
  exists h' w',
    Hooks.fetchAuditLogs Fixtures.scripted Fixtures.plain true Hooks.initialLogs emptyWorld
    = (Return h', w')
    /\ Pagination.pagingCookieCacheRef (Hooks.paging h') = {[ 2 := "C1"%string ]}.
Proof.
  destruct (fetch_records_cursor_under_next_page Fixtures.scripted Fixtures.plain
              Hooks.initialLogs emptyWorld)
    as (h' & w' & outcome & Hrun & Hrequest & Hcache & _).
  exists h', w'. split; [exact Hrun|].
  vm_compute in Hrequest. injection Hrequest as <- <-. exact Hcache.
Defined.

(** ** The details cache *)

Section DetailsCache.
Import Parsers Hooks.

Variables (api : DataverseAPI) (co : Collaborators).
Implicit Types (h : LogsHook) (w : World) (auditId : string).


(** [getAuditDetails] never lets an exception out. *)
Lemma getAuditDetails_returns auditId entityLogicalName entry w :
  exists details w',
    Service.getAuditDetails api co auditId entityLogicalName entry w = (Return details, w').
Proof.
  unfold Service.getAuditDetails, catch.
  match goal with
  | |- context [match ?m w with _ => _ end] => destruct (m w) as [[d|e] w1]
  end; by eexists _, _.
Qed.

(** *** The event log only grows *)

Lemma extending_ret {A} (a : A) : extending (mret a).
Proof. intros w. exists []. cbn. by rewrite app_nil_r. Qed.

Lemma extending_throw {A} e : extending (@throw A e).
Proof. intros w. exists []. cbn. by rewrite app_nil_r. Qed.

Lemma extending_lift {A} (o : Outcome A) : extending (lift o).
Proof. intros w. exists []. cbn. by rewrite app_nil_r. Qed.

Lemma extending_gets {A} (f : World -> A) : extending (gets f).
Proof. intros w. exists []. cbn. by rewrite app_nil_r. Qed.

Lemma extending_modify (f : World -> World) :
  (forall w, trace (f w) = trace w) -> extending (modify f).
Proof. intros Hf w. exists []. cbn. by rewrite Hf, app_nil_r. Qed.

Lemma extending_bind {A B} (m : M A) (k : A -> M B) :
  extending m -> (forall a, extending (k a)) -> extending (m ≫= k).
Proof.
  intros Hm Hk w. unfold mbind, M_bind, mbindM.
  destruct (Hm w) as [r1 H1]. destruct (m w) as [[a|e] w1]; cbn [snd] in *.
  - destruct (Hk a w1) as [r2 H2]. exists (r1 ++ r2). by rewrite H2, H1, app_assoc.
  - by exists r1.
Qed.

Lemma extending_catch {A} (m : M A) (h : JsError -> M A) :
  extending m -> (forall e, extending (h e)) -> extending (catch m h).
Proof.
  intros Hm Hh w. unfold catch.
  destruct (Hm w) as [r1 H1]. destruct (m w) as [[a|e] w1]; cbn [snd] in *.
  - by exists r1.
  - destruct (Hh e w1) as [r2 H2]. exists (r1 ++ r2). by rewrite H2, H1, app_assoc.
Qed.

Lemma extending_queryData url : extending (call_queryData api url).
Proof. intros w. by eexists. Qed.

Ltac extending :=
  repeat first
    [ apply extending_ret | apply extending_throw | apply extending_lift
    | apply extending_gets | apply extending_queryData
    | apply extending_modify; reflexivity
    | apply extending_catch; [|intros ?]
    | apply extending_bind; [|intros ?]
    | match goal with
      | |- extending (match ?x with _ => _ end) => destruct x
      end ].






End DetailsCache.


(** ** The all-pages walker *)

Section Walker.
Import Parsers Service.

Variables (api : DataverseAPI) (co : Collaborators) (filters : AuditFiltersState).
Variable onProgress : bool.

Implicit Types (st : Walk) (w : World) (maxRecords : Z).

Lemma fetchCount_fetch evs q :
  fetchCount (evs ++ [Request (FetchXmlQuery q)]) = S (fetchCount evs).
Proof.
  unfold fetchCount, requests. rewrite flat_map_app, List.filter_app, length_app.
  cbn. lia.
Qed.

Lemma fetchCount_progress evs f t : fetchCount (evs ++ [Progress f t]) = fetchCount evs.
Proof.
  unfold fetchCount, requests. rewrite flat_map_app, List.filter_app, length_app.
  cbn. lia.
Qed.

Lemma reported_fetch evs c : reported (evs ++ [Request c]) = reported evs.
Proof. unfold reported. rewrite flat_map_app. cbn. by rewrite app_nil_r. Qed.

Lemma reported_progress evs f t :
  reported (evs ++ [Progress f t]) = reported evs ++ [(f, t)].
Proof. unfold reported. by rewrite flat_map_app. Qed.

(** One call of [queryAuditLogs]: it resolves to [pageOf], reports nothing,
    and sends one request -- or none, and then the page is empty. *)
Lemma queryAuditLogs_effect pagination w :
  exists w',
    queryAuditLogs api co filters pagination w
    = (Return (pageOf api co filters pagination w), w')
    /\ reported (trace w') = reported (trace w)
    /\ (fetchCount (trace w') = S (fetchCount (trace w))
        \/ fetchCount (trace w') = fetchCount (trace w)
           /\ entries (pageOf api co filters pagination w) = []).
Proof.
  unfold pageOf, queryAuditLogs, catch, mbind, M_bind, mbindM, lift, mret, M_ret, ret.
  destruct (buildAuditFetchXml co _ _ _ _) as [q|e]; cbn.
  2: { eexists. split; [reflexivity|]. split; [reflexivity|]. by right. }
  unfold call_fetchXmlQuery.
  destruct (fetchXmlQuery api (trace w) q) as [[resp|]|e]; cbn.
  - destruct (length (rowsOf resp) =? 0)%nat; cbn;
      (eexists; split; [reflexivity|]; cbn; split;
       [apply reported_fetch|left; apply fetchCount_fetch]).
  - eexists; split; [reflexivity|]; cbn; split;
       [apply reported_fetch|left; apply fetchCount_fetch].
  - eexists; split; [reflexivity|]; cbn; split;
       [apply reported_fetch|left; apply fetchCount_fetch].
Qed.

(** One call of [report]. *)
Lemma report_effect fetched total w :
  exists w',
    report onProgress fetched total w = (Return tt, w')
    /\ fetchCount (trace w') = fetchCount (trace w)
    /\ reported (trace w')
       = reported (trace w) ++ (if onProgress then [(fetched, total)] else []).
Proof.
  unfold report. destruct onProgress.
  - eexists. split; [reflexivity|]. cbn. split; [apply fetchCount_progress|apply reported_progress].
  - eexists. split; [reflexivity|]. split; [reflexivity|]. by rewrite app_nil_r.
Qed.

Lemma asksForPage_spec maxRecords st :
  asksForPage maxRecords st = true
  <-> w_hasMoreRecords st = true /\ (0 < maxRecords -> len (allEntries st) < maxRecords).
Proof.
  unfold asksForPage.
  rewrite andb_true_iff, negb_true_iff, andb_false_iff, Z.ltb_ge, Z.leb_gt.
  split; intros [Hmore Hcap]; (split; [exact Hmore|]); [lia|].
  destruct (Z_lt_le_dec 0 maxRecords); [right; auto|left; lia].
Qed.

(** Once the cap is met the loop ends on the spot: no request is sent and
    nothing is reported. *)
Lemma walk_stops_at_cap fuel maxRecords st w :
  0 < maxRecords ->
  maxRecords <= len (allEntries st) ->
  walk (S fuel) api co filters maxRecords onProgress st w = (Return (Some st), w).
Proof.
  intros Hpos Hcap. cbn [walk].
  destruct (w_hasMoreRecords st); cbn [negb]; [|reflexivity].
  destruct (Z.ltb_spec 0 maxRecords); [|lia].
  destruct (Z.leb_spec maxRecords (len (allEntries st))); [|lia].
  reflexivity.
Qed.

(** One turn of the loop that fetches a page with entries: the loop goes
    on from the state and the world of [turn], after one request and one
    report. *)
Lemma walk_turn_exact fuel maxRecords st w :
  w_hasMoreRecords st = true ->
  (0 < maxRecords -> len (allEntries st) < maxRecords) ->
  let page := pageOf api co filters (walkPagination st) w in
  entries page <> [] ->
  let next := turn api co filters maxRecords onProgress st w in
  walk (S fuel) api co filters maxRecords onProgress st w
  = walk fuel api co filters maxRecords onProgress (fst next) (snd next)
  /\ fst next
     = {| allEntries :=
            allEntries st
            ++ (if 0 <? maxRecords
                then firstn (Z.to_nat (maxRecords - len (allEntries st))) (entries page)
                else entries page);
          w_pageNumber := w_pageNumber st + 1;
          w_pagingCookie := pagingCookie page;
          w_hasMoreRecords := hasMoreRecords page;
          w_totalCount := totalCount page |}
  /\ fetchCount (trace (snd next)) = S (fetchCount (trace w))
  /\ reported (trace (snd next))
     = reported (trace w)
       ++ (if onProgress then [(len (allEntries (fst next)), totalCount page)] else []).
Proof.
  intros Hmore Hcap page Hrows next.
  destruct (queryAuditLogs_effect (walkPagination st) w) as (w0 & Hq & Hrep & Hfetch).
  fold page in Hq, Hfetch.
  destruct Hfetch as [Hfetch|[_ Hempty]]; [|contradiction].
  assert (Hnext : next = (appended maxRecords st page,
                          snd (report onProgress (len (allEntries (appended maxRecords st page)))
                                 (totalCount page) w0))).
  { unfold next, turn. fold page. by rewrite Hq. }
  destruct (report_effect (len (allEntries (appended maxRecords st page)))
              (totalCount page) w0) as (w1 & Hr & Hf1 & Hr1).
  rewrite Hr in Hnext. cbn [snd] in Hnext. rewrite Hnext. cbn [fst snd].
  split; [|split; [|split; [lia|by rewrite Hr1, Hrep]]].
  - cbn [walk]. rewrite Hmore. cbn [negb].
    assert (Hnocap : (0 <? maxRecords) && (maxRecords <=? len (allEntries st)) = false).
    { destruct (Z.ltb_spec 0 maxRecords); [|reflexivity].
      destruct (Z.leb_spec maxRecords (len (allEntries st))); [|reflexivity].
      specialize (Hcap ltac:(assumption)). lia. }
    rewrite Hnocap. unfold mbind, M_bind, mbindM. rewrite Hq.
    assert (Hlen : (len (entries page) =? 0) = false).
    { apply Z.eqb_neq. unfold len. destruct (entries page); [contradiction|]. cbn. lia. }
    rewrite Hlen. cbv zeta.
    change (report onProgress _ (totalCount page) w0)
      with (report onProgress (len (allEntries (appended maxRecords st page)))
              (totalCount page) w0).
    rewrite Hr. reflexivity.
  - unfold appended, slice0. f_equal.
    destruct (Z.ltb_spec 0 maxRecords) as [Hp|_]; [|reflexivity].
    specialize (Hcap Hp).
    destruct (Z.ltb_spec (maxRecords - len (allEntries st)) 0); [lia|reflexivity].
Qed.

Lemma walk_turn fuel maxRecords st w :
  w_hasMoreRecords st = true ->
  (0 < maxRecords -> len (allEntries st) < maxRecords) ->
  let page := pageOf api co filters (walkPagination st) w in
  entries page <> [] ->
  exists w1,
    fetchCount (trace w1) = S (fetchCount (trace w))
    /\ reported (trace w1)
       = reported (trace w)
         ++ (if onProgress
             then [(len (allEntries st
                         ++ (if 0 <? maxRecords
                             then firstn (Z.to_nat (maxRecords - len (allEntries st)))
                                         (entries page)
                             else entries page)),
                    totalCount page)]
             else [])
    /\ walk (S fuel) api co filters maxRecords onProgress st w
       = walk fuel api co filters maxRecords onProgress
           {| allEntries :=
                allEntries st
                ++ (if 0 <? maxRecords
                    then firstn (Z.to_nat (maxRecords - len (allEntries st))) (entries page)
                    else entries page);
              w_pageNumber := w_pageNumber st + 1;
              w_pagingCookie := pagingCookie page;
              w_hasMoreRecords := hasMoreRecords page;
              w_totalCount := totalCount page |} w1.
Proof.
  intros Hmore Hcap page Hrows.
  destruct (walk_turn_exact fuel maxRecords st w Hmore Hcap Hrows)
    as (Hwalk & Hst & Hfetch & Hrep).
  exists (snd (turn api co filters maxRecords onProgress st w)).
  split; [exact Hfetch|]. rewrite Hst in Hrep, Hwalk. split; [exact Hrep|exact Hwalk].
Qed.

(** One turn of the loop that fetches an empty page: the loop ends. *)
Lemma walk_empty_page fuel maxRecords st w :
  w_hasMoreRecords st = true ->
  (0 < maxRecords -> len (allEntries st) < maxRecords) ->
  entries (pageOf api co filters (walkPagination st) w) = [] ->
  exists w1,
    walk (S fuel) api co filters maxRecords onProgress st w = (Return (Some st), w1)
    /\ reported (trace w1) = reported (trace w)
    /\ (fetchCount (trace w1) <= S (fetchCount (trace w)))%nat
    /\ (fetchCount (trace w) <= fetchCount (trace w1))%nat.
Proof.
  intros Hmore Hcap Hrows.
  destruct (queryAuditLogs_effect (walkPagination st) w) as (w0 & Hq & Hrep & Hfetch).
  exists w0. split; [|split; [exact Hrep|destruct Hfetch as [->|[-> _]]; lia]].
  cbn [walk]. rewrite Hmore. cbn [negb].
  assert (Hnocap : (0 <? maxRecords) && (maxRecords <=? len (allEntries st)) = false).
  { destruct (Z.ltb_spec 0 maxRecords); [|reflexivity].
    destruct (Z.leb_spec maxRecords (len (allEntries st))); [|reflexivity].
    specialize (Hcap ltac:(assumption)). lia. }
  rewrite Hnocap. unfold mbind, M_bind, mbindM. rewrite Hq, Hrows. reflexivity.
Qed.

Lemma walk_no_more fuel maxRecords st w :
  w_hasMoreRecords st = false ->
  walk (S fuel) api co filters maxRecords onProgress st w = (Return (Some st), w).
Proof. intros Hmore. cbn [walk]. by rewrite Hmore. Qed.

(** What [announces more] means for a page with rows: the flag the service
    sent or, without flag, a page of at least 250 rows. *)
Lemma walk_page_announces_more st w fetchXml responseData :
  buildAuditFetchXml co filters 250 (w_pageNumber st) (w_pagingCookie st) = Return fetchXml ->
  fetchXmlQuery api (trace w) fetchXml = Return (Some responseData) ->
  rowsOf responseData <> [] ->
  hasMoreRecords (pageOf api co filters (walkPagination st) w)
  = match morerecords responseData with
    | Some b => b
    | None => 250 <=? len (rowsOf responseData)
    end.
Proof.
  intros Hbuild Hanswer Hrows.
  unfold pageOf, queryAuditLogs, catch, mbind, M_bind, mbindM, lift, mret, M_ret, ret.
  cbn [walkPagination Model.pageSize Model.pageNumber Model.pagingCookie].
  rewrite Hbuild. cbn. unfold call_fetchXmlQuery. rewrite Hanswer. cbn.
  destruct (rowsOf responseData) as [|row rows]; [done|]. reflexivity.
Qed.

(** *** A source without end, under a cap *)

Lemma walk_unlimited (size : nat) maxRecords w0 :
  (0 < size)%nat ->
  0 < maxRecords ->
  unlimitedSource api co filters maxRecords onProgress w0 size ->
  forall fuel st w,
    (asksForPage maxRecords st = true ->
     Asks api co filters maxRecords onProgress w0 st w) ->
    w_hasMoreRecords st = true ->
    len (allEntries st) <= maxRecords ->
    (Z.to_nat (maxRecords - len (allEntries st)) < fuel)%nat ->
    exists st' w' (n : nat),
      walk fuel api co filters maxRecords onProgress st w = (Return (Some st'), w')
      /\ len (allEntries st') = maxRecords
      /\ fetchCount (trace w') = (fetchCount (trace w) + n)%nat
      /\ (Z.of_nat n - 1) * Z.of_nat size < maxRecords - len (allEntries st)
         <= Z.of_nat n * Z.of_nat size
      /\ length (reported (trace w'))
         = (length (reported (trace w)) + if onProgress then n else 0)%nat.
Proof.
  intros Hsize Hpos Hsrc.
  induction fuel as [|fuel IH]; intros st w Hasks Hmore Hle Hfuel; [lia|].
  destruct (Z.eq_dec (len (allEntries st)) maxRecords) as [Hfull|Hnot].
  - exists st, w, 0%nat. rewrite walk_stops_at_cap by lia.
    split; [reflexivity|]. split; [exact Hfull|]. split; [lia|]. split; [lia|].
    destruct onProgress; lia.
  - assert (Hhere : Asks api co filters maxRecords onProgress w0 st w).
    { apply Hasks. apply asksForPage_spec. split; [exact Hmore|lia]. }
    destruct (Hsrc st w Hhere) as [Hrows Hnext].
    assert (Hnonempty : entries (pageOf api co filters (walkPagination st) w) <> []).
    { intros E. rewrite E in Hrows. cbn in Hrows. lia. }
    destruct (walk_turn_exact fuel maxRecords st w Hmore ltac:(lia) Hnonempty)
      as (Hwalk & Hst & Hfetch & Hrep).
    set (next := turn api co filters maxRecords onProgress st w) in *.
    destruct (Z.ltb_spec 0 maxRecords) as [_|]; [|lia].
    assert (Hlen1 : len (allEntries (fst next))
                    = len (allEntries st)
                      + Z.min (maxRecords - len (allEntries st)) (Z.of_nat size)).
    { rewrite Hst. unfold len in *. cbn [allEntries].
      rewrite length_app, length_firstn, Hrows. lia. }
    destruct (IH (fst next) (snd next)) as (st' & w' & n & Hrun & Hall & Hcount & Hbound & Hreports).
    + intros Hthen. by apply asks_next.
    + rewrite Hst. exact Hnext.
    + lia.
    + lia.
    + exists st', w', (S n). rewrite Hwalk. split; [exact Hrun|]. split; [exact Hall|].
      split; [lia|]. split.
      * rewrite Hlen1 in Hbound. rewrite Nat2Z.inj_succ.
        destruct (Z.min_spec (maxRecords - len (allEntries st)) (Z.of_nat size))
          as [[Hlt Hmin]|[Hge Hmin]]; rewrite Hmin in Hbound.
        -- assert (n = 0)%nat by nia. subst n. lia.
        -- nia.
      * rewrite Hreports, Hrep, length_app. destruct onProgress; cbn; lia.
Qed.

(** *** A source that serves a finite list of entries page by page *)

Lemma pagesFor_spec (n size : nat) :
  (0 < size)%nat ->
  (n <= pagesFor n size * size)%nat
  /\ (pagesFor n size = 0%nat \/ ((pagesFor n size - 1) * size < n)%nat).
Proof.
  intros Hsize. unfold pagesFor.
  pose proof (Nat.div_mod (n + size - 1) size ltac:(lia)) as Hdiv.
  pose proof (Nat.mod_upper_bound (n + size - 1) size ltac:(lia)) as Hmod.
  split; [nia|]. destruct n as [|n].
  - left. apply Nat.div_small. lia.
  - right. nia.
Qed.

Section Paged.

Variables (data : list AuditLogEntry) (size : nat) (maxRecords : Z) (w0 : World).
Hypothesis Hsize : (0 < size)%nat.
Hypothesis Hcap : 0 <= maxRecords.
Hypothesis Hsrc : pagedSource api co filters maxRecords onProgress w0 data size.

Lemma capped_length :
  length (capped maxRecords data)
  = if maxRecords =? 0 then length data else Nat.min (Z.to_nat maxRecords) (length data).
Proof. unfold capped. destruct (maxRecords =? 0); [reflexivity|apply length_take]. Qed.

Lemma capped_le : (length (capped maxRecords data) <= length data)%nat.
Proof. rewrite capped_length. destruct (maxRecords =? 0); lia. Qed.

(** Below the target, the target and the data have the same prefixes. *)
Lemma take_capped (j : nat) :
  (j <= length (capped maxRecords data))%nat -> take j (capped maxRecords data) = take j data.
Proof.
  rewrite capped_length. unfold capped. destruct (maxRecords =? 0); [reflexivity|].
  intros Hj. rewrite take_take. f_equal. lia.
Qed.

(** The entries appended after page [k + 1], when the target is not yet
    collected. *)
Lemma append_page (k : nat) :
  (k * size < length (capped maxRecords data))%nat ->
  take (k * size) (capped maxRecords data)
  ++ (if 0 <? maxRecords
      then take (Z.to_nat (maxRecords - len (take (k * size) (capped maxRecords data))))
                (take size (drop (k * size) data))
      else take size (drop (k * size) data))
  = take ((k + 1) * size) (capped maxRecords data).
Proof.
  intros Hk. pose proof capped_length as Hlen. pose proof capped_le as Hle.
  rewrite (take_capped (k * size)) by lia.
  unfold len. rewrite length_take.
  unfold capped in *. destruct (Z.eqb_spec maxRecords 0) as [->|Hne].
  - cbn. rewrite take_take_drop. f_equal. lia.
  - destruct (Z.ltb_spec 0 maxRecords); [|lia].
    rewrite !take_take, take_take_drop. f_equal. lia.
Qed.

Lemma walk_paged (n : nat) :
  (length (capped maxRecords data) <= n * size)%nat ->
  (n = 0%nat \/ ((n - 1) * size < length (capped maxRecords data))%nat) ->
  forall fuel k st w,
    (asksForPage maxRecords st = true ->
     Asks api co filters maxRecords onProgress w0 st w) ->
    allEntries st = take (k * size) (capped maxRecords data) ->
    w_pageNumber st = Z.of_nat k + 1 ->
    ((k * size < length data)%nat -> w_hasMoreRecords st = true) ->
    (length (capped maxRecords data) - k * size < fuel)%nat ->
    exists st' w',
      walk fuel api co filters maxRecords onProgress st w = (Return (Some st'), w')
      /\ allEntries st' = capped maxRecords data
      /\ List.map fst (reported (trace w'))
         = List.map fst (reported (trace w))
           ++ (if onProgress
               then List.map (fun i => Z.of_nat (Nat.min (i * size)
                                                   (length (capped maxRecords data))))
                             (seq (k + 1) (n - k))
               else [])
      /\ (fetchCount (trace w) + (n - k) <= fetchCount (trace w')
          <= fetchCount (trace w) + (n - k) + 1)%nat
      /\ (0 < maxRecords <= len data ->
          fetchCount (trace w') = (fetchCount (trace w) + (n - k))%nat).
Proof.
  intros Hn1 Hn2. pose proof capped_length as Hlen. pose proof capped_le as Hle.
  induction fuel as [|fuel IH]; intros k st w Hasks Hall Hpage Hmore Hfuel; [lia|].
  assert (Hk : Z.to_nat (w_pageNumber st - 1) = k) by lia.
  destruct (le_lt_dec (length (capped maxRecords data)) (k * size)) as [Hdone|Hleft].
  - (* everything is collected: the loop ends here *)
    assert (Hnk : (n - k = 0)%nat) by nia.
    assert (Hfull : allEntries st = capped maxRecords data)
      by (rewrite Hall; by apply take_ge).
    rewrite Hnk. cbn [seq List.map].
    assert (Hnil : (if onProgress then [] else []) = @nil Z) by (by destruct onProgress).
    rewrite Hnil, app_nil_r.
    destruct (w_hasMoreRecords st) eqn:Hm.
    2: { exists st, w. rewrite walk_no_more by exact Hm.
         repeat split; first [exact Hfull | lia]. }
    destruct (Z_lt_le_dec 0 maxRecords) as [Hpos|Hzero].
    + destruct (Z_le_gt_dec maxRecords (len (allEntries st))) as [Hmet|Hbelow].
      * exists st, w. rewrite walk_stops_at_cap by assumption.
        repeat split; first [exact Hfull | lia].
      * assert (Hdata : (length data <= k * size)%nat).
        { rewrite Hfull in Hbelow. unfold len in Hbelow.
          destruct (Z.eqb_spec maxRecords 0); lia. }
        assert (Hhere : Asks api co filters maxRecords onProgress w0 st w).
        { apply Hasks. apply asksForPage_spec. split; [exact Hm|lia]. }
        destruct (walk_empty_page fuel maxRecords st w Hm ltac:(lia))
          as (w1 & Hwalk & Hrep & Hf1 & Hf2).
        { destruct (Hsrc st w Hhere) as [-> _]. rewrite Hk.
          by rewrite drop_ge, take_nil. }
        exists st, w1. rewrite Hwalk, Hrep.
        repeat split; first [exact Hfull | lia |
          (intros [_ Hin]; rewrite Hfull in Hbelow; unfold len in *;
           destruct (Z.eqb_spec maxRecords 0); lia)].
    + assert (Hdata : (length data <= k * size)%nat)
        by (destruct (Z.eqb_spec maxRecords 0); lia).
      assert (Hhere : Asks api co filters maxRecords onProgress w0 st w).
      { apply Hasks. apply asksForPage_spec. split; [exact Hm|lia]. }
      destruct (walk_empty_page fuel maxRecords st w Hm ltac:(lia))
        as (w1 & Hwalk & Hrep & Hf1 & Hf2).
      { destruct (Hsrc st w Hhere) as [-> _]. rewrite Hk.
        by rewrite drop_ge, take_nil. }
      exists st, w1. rewrite Hwalk, Hrep.
      repeat split; first [exact Hfull | lia].
  - (* entries are left to collect: page [k + 1] is fetched and appended *)
    assert (Hkn : (k < n)%nat) by nia.
    assert (Hm : w_hasMoreRecords st = true) by (apply Hmore; lia).
    assert (Hlenall : len (allEntries st) = Z.of_nat (k * size)).
    { rewrite Hall. unfold len. rewrite length_take. lia. }
    assert (Hbelow : 0 < maxRecords -> len (allEntries st) < maxRecords).
    { intros Hpos. rewrite Hlenall. destruct (Z.eqb_spec maxRecords 0); lia. }
    assert (Hhere : Asks api co filters maxRecords onProgress w0 st w).
    { apply Hasks. apply asksForPage_spec. by split. }
    destruct (Hsrc st w Hhere) as [Hrows Hnext]. rewrite Hk in Hrows, Hnext.
    assert (Hnonempty : entries (pageOf api co filters (walkPagination st) w) <> []).
    { rewrite Hrows. intros E. apply (f_equal (@length _)) in E.
      rewrite length_take, length_drop in E. cbn in E. lia. }
    destruct (walk_turn_exact fuel maxRecords st w Hm Hbelow Hnonempty)
      as (Hwalk & Hst & Hfetch & Hrep).
    set (next := turn api co filters maxRecords onProgress st w) in *.
    rewrite Hrows, Hall in Hst. rewrite (append_page k Hleft) in Hst.
    destruct (IH (k + 1)%nat (fst next) (snd next))
      as (st' & w' & Hrun & Hres & Hreps & Hcount & Hexact).
    + intros Hthen. by apply asks_next.
    + by rewrite Hst.
    + rewrite Hst. cbn. lia.
    + rewrite Hst. exact Hnext.
    + nia.
    + exists st', w'. rewrite Hwalk. split; [exact Hrun|]. split; [exact Hres|].
      split; [|split; [lia|intros Hin; specialize (Hexact Hin); lia]].
      rewrite Hreps, Hrep, List.map_app, <- app_assoc. f_equal.
      replace (n - k)%nat with (S (n - (k + 1))) by lia.
      replace (k + 1 + 1)%nat with (S (k + 1)) by lia.
      destruct onProgress; [|reflexivity].
      cbn [List.map seq fst app]. f_equal. rewrite Hst. cbn [allEntries].
      unfold len. rewrite length_take. reflexivity.
Qed.

End Paged.

(** C2 (as amended). The export cap.  (1) Whatever the source, once
    [maxRecords > 0] entries are collected the loop ends without another
    fetch and without another report.  (2) From a source without end, each
    of whose pages -- as the walk asks for them -- holds [size] entries and
    announces more, a walk capped at [maxRecords > 0] returns exactly
    [maxRecords] entries after [n] fetches, where [n] is the first page on
    which the cap is met, and reports progress once per page.  (3) From a
    source that serves [data] in pages of [size] and announces more while
    entries remain, the walk returns the first [min(maxRecords, available)]
    entries of [data] under a cap and all of [data] without one
    ([maxRecords = 0]); it reports progress once after each page that
    brought entries, with the running count; it fetches one page per
    report, plus at most one empty page that ends the walk, and no such
    page when the cap is met.  (4) A page without entries ends the walk and
    is not reported.  (5) So does a state in which no more records are
    announced, without a fetch.  (6) A page with entries is followed by
    exactly one report, of the running count and the total of that page.
    (7) A page with rows announces more when the service says so or, when
    the service leaves the flag out, when it holds at least 250 rows. *)
Theorem export_walk_respects_cap :
  (forall fuel maxRecords st w,
      0 < maxRecords ->
      maxRecords <= len (allEntries st) ->
      walk (S fuel) api co filters maxRecords onProgress st w = (Return (Some st), w))
  /\ (forall maxRecords (size : nat) w,
        0 < maxRecords ->
        (0 < size)%nat ->
        unlimitedSource api co filters maxRecords onProgress w size ->
        forall fuel,
          (Z.to_nat maxRecords < fuel)%nat ->
          exists all total w' (n : nat),
            queryAllAuditLogs fuel api co filters maxRecords onProgress w
            = (Return (Some (all, total)), w')
            /\ len all = maxRecords
            /\ fetchCount (trace w') = (fetchCount (trace w) + n)%nat
            /\ (Z.of_nat n - 1) * Z.of_nat size < maxRecords <= Z.of_nat n * Z.of_nat size
            /\ length (reported (trace w'))
               = (length (reported (trace w)) + if onProgress then n else 0)%nat)
  /\ (forall maxRecords data (size : nat) w,
        0 <= maxRecords ->
        (0 < size)%nat ->
        pagedSource api co filters maxRecords onProgress w data size ->
        forall fuel,
          (length (capped maxRecords data) < fuel)%nat ->
          let pages := pagesFor (length (capped maxRecords data)) size in
          exists total w',
            queryAllAuditLogs fuel api co filters maxRecords onProgress w
            = (Return (Some (capped maxRecords data, total)), w')
            /\ len (capped maxRecords data)
               = (if maxRecords =? 0 then len data else Z.min maxRecords (len data))
            /\ List.map fst (reported (trace w'))
               = List.map fst (reported (trace w))
                 ++ (if onProgress
                     then List.map
                            (fun i => Z.of_nat (Nat.min (i * size)
                                                  (length (capped maxRecords data))))
                            (seq 1 pages)
                     else [])
            /\ (fetchCount (trace w) + pages <= fetchCount (trace w')
                <= fetchCount (trace w) + pages + 1)%nat
            /\ (0 < maxRecords <= len data ->
                fetchCount (trace w') = (fetchCount (trace w) + pages)%nat))
  /\ (forall fuel maxRecords st w,
        asksForPage maxRecords st = true ->
        entries (pageOf api co filters (walkPagination st) w) = [] ->
        exists w1,
          walk (S fuel) api co filters maxRecords onProgress st w = (Return (Some st), w1)
          /\ reported (trace w1) = reported (trace w)
          /\ (fetchCount (trace w) <= fetchCount (trace w1) <= S (fetchCount (trace w)))%nat)
  /\ (forall fuel maxRecords st w,
        w_hasMoreRecords st = false ->
        walk (S fuel) api co filters maxRecords onProgress st w = (Return (Some st), w))
  /\ (forall fuel maxRecords st w,
        asksForPage maxRecords st = true ->
        entries (pageOf api co filters (walkPagination st) w) <> [] ->
        let next := turn api co filters maxRecords onProgress st w in
        walk (S fuel) api co filters maxRecords onProgress st w
        = walk fuel api co filters maxRecords onProgress (fst next) (snd next)
        /\ fetchCount (trace (snd next)) = S (fetchCount (trace w))
        /\ reported (trace (snd next))
           = reported (trace w)
             ++ (if onProgress
                 then [(len (allEntries (fst next)),
                        totalCount (pageOf api co filters (walkPagination st) w))]
                 else []))
  /\ (forall st w fetchXml responseData,
        buildAuditFetchXml co filters 250 (w_pageNumber st) (w_pagingCookie st)
        = Return fetchXml ->
        fetchXmlQuery api (trace w) fetchXml = Return (Some responseData) ->
        rowsOf responseData <> [] ->
        hasMoreRecords (pageOf api co filters (walkPagination st) w)
        = match morerecords responseData with
          | Some b => b
          | None => 250 <=? len (rowsOf responseData)
          end).
Proof.
  split; [intros; by apply walk_stops_at_cap|]. split; [|split; [|split; [|split; [|split]]]].
  - intros maxRecords size w Hpos Hsize Hsrc fuel Hfuel.
    destruct (walk_unlimited size maxRecords w Hsize Hpos Hsrc fuel walkStart w)
      as (st' & w' & n & Hwalk & Hlen & Hcount & Hbound & Hreps).
    + apply asks_first.
    + reflexivity.
    + unfold len. cbn. lia.
    + unfold len. cbn. rewrite Z.sub_0_r. exact Hfuel.
    + exists (allEntries st'), (w_totalCount st'), w', n.
      unfold queryAllAuditLogs, mbind, M_bind, mbindM. rewrite Hwalk.
      split; [reflexivity|]. split; [exact Hlen|]. split; [exact Hcount|].
      split; [|exact Hreps]. unfold len in Hbound. cbn in Hbound. lia.
  - intros maxRecords data size w Hcap Hsize Hsrc fuel Hfuel pages.
    destruct (pagesFor_spec (length (capped maxRecords data)) size Hsize) as [Hp1 Hp2].
    destruct (walk_paged data size maxRecords w Hsize Hcap Hsrc pages Hp1 Hp2
                fuel 0%nat walkStart w)
      as (st' & w' & Hwalk & Hres & Hreps & Hcount & Hexact).
    + apply asks_first.
    + reflexivity.
    + reflexivity.
    + reflexivity.
    + lia.
    + exists (w_totalCount st'), w'.
      unfold queryAllAuditLogs, mbind, M_bind, mbindM. rewrite Hwalk, <- Hres.
      split; [reflexivity|]. rewrite Hres.
      split; [|split; [|split]].
      * unfold len. rewrite (capped_length data maxRecords).
        destruct (maxRecords =? 0); lia.
      * rewrite Hreps. rewrite Nat.sub_0_r. reflexivity.
      * lia.
      * intros Hin. rewrite (Hexact Hin). lia.
  - intros fuel maxRecords st w Hasks Hempty.
    apply asksForPage_spec in Hasks as [Hmore Hcap].
    destruct (walk_empty_page fuel maxRecords st w Hmore Hcap Hempty)
      as (w1 & Hwalk & Hrep & Hup & Hlow).
    exists w1. split; [exact Hwalk|]. split; [exact Hrep|lia].
  - intros fuel maxRecords st w. apply walk_no_more.
  - intros fuel maxRecords st w Hasks Hrows next.
    apply asksForPage_spec in Hasks as [Hmore Hcap].
    destruct (walk_turn_exact fuel maxRecords st w Hmore Hcap Hrows)
      as (Hwalk & _ & Hfetch & Hrep).
    split; [exact Hwalk|]. split; [exact Hfetch|exact Hrep].
  - apply walk_page_announces_more.
Qed.

End Walker.

Section WalkerFixtures.
Import Parsers Service Fixtures.

Lemma endless_is_unlimited maxRecords onProgress w0 :
  unlimitedSource endless plain initialFiltersState maxRecords onProgress w0 2.
Proof. intros st w _. split; reflexivity. Qed.

(** What a walk from the empty world has sent to the service that answers
    in turn when it asks for a page: one request for each page before. *)
Lemma threeRowsInTurn_asks maxRecords onProgress st w :
  Asks Samples.threeRowsInTurn plain initialFiltersState maxRecords onProgress emptyWorld st w ->
  1 <= w_pageNumber st
  /\ length (requests (trace w)) = Z.to_nat (w_pageNumber st - 1).
Proof.
  induction 1 as [_|st w _ [IHpage IHsent] _ _]; [split; [cbn; lia|reflexivity]|].
  unfold turn. cbn [fst snd appended w_pageNumber]. split; [lia|].
  replace (Z.to_nat (w_pageNumber st + 1 - 1)) with (S (Z.to_nat (w_pageNumber st - 1))) by lia.
  rewrite <- IHsent.
  assert (Hsent : forall b f t w1,
            length (requests (trace (snd (report b f t w1)))) = length (requests (trace w1))).
  { intros b f t w1. destruct b; [|reflexivity]. cbn.
    unfold requests. rewrite flat_map_app, length_app. cbn. lia. }
  rewrite Hsent.
  unfold queryAuditLogs, catch, mbind, M_bind, mbindM, lift, mret, M_ret, ret,
    call_fetchXmlQuery.
  cbn [buildAuditFetchXml plain fetchXmlQuery Samples.threeRowsInTurn answer].
  assert (Hlog : forall q, length (requests (trace (log (Request (FetchXmlQuery q)) w)))
                           = S (length (requests (trace w)))).
  { intros q. cbn. unfold requests. rewrite flat_map_app, length_app. cbn. lia. }
  destruct (length (rowsOf _) =? 0)%nat; cbn [snd]; apply Hlog.
Qed.

Lemma threeRowsInTurn_is_paged maxRecords onProgress :
  pagedSource Samples.threeRowsInTurn plain initialFiltersState maxRecords onProgress
    emptyWorld (convertRecords threeRows) 2.
Proof.
  intros st w Hasks k.
  destruct (threeRowsInTurn_asks maxRecords onProgress st w Hasks) as [_ Hsent].
  fold k in Hsent.
  unfold pageOf, queryAuditLogs, catch, mbind, M_bind, mbindM, lift, mret, M_ret, ret,
    call_fetchXmlQuery.
  cbn [buildAuditFetchXml plain fetchXmlQuery Samples.threeRowsInTurn].
  rewrite Hsent. generalize k. clear. intros k.
  destruct k as [|[|k]].
  - split; [reflexivity|]. intros _. reflexivity.
  - split; [reflexivity|]. cbn. lia.
  - split; [|cbn; lia].
    replace (S (S k) * 2)%nat with (S (S (S (S (k * 2))))) by lia. reflexivity.
Qed.

Lemma export_walk_respects_cap_witness :
  (exists all total w',
      queryAllAuditLogs 4 endless plain initialFiltersState 3 true emptyWorld
      = (Return (Some (all, total)), w')
      /\ len all = 3)
  /\ (exists total w',
        queryAllAuditLogs 4 Samples.threeRowsInTurn plain initialFiltersState 0 true
          emptyWorld
        = (Return (Some (convertRecords threeRows, total)), w')
        /\ List.map fst (reported (trace w')) = [2; 3]).
Proof.
  destruct (export_walk_respects_cap endless plain initialFiltersState true)
    as (_ & Hunlimited & _).
  destruct (export_walk_respects_cap Samples.threeRowsInTurn plain initialFiltersState true)
    as (_ & _ & Hpaged & _).
  split.
  - destruct (Hunlimited 3 2%nat emptyWorld ltac:(lia) ltac:(lia)
                (endless_is_unlimited 3 true emptyWorld) 4%nat ltac:(simpl; lia))
      as (all & total & w' & n & Hrun & Hlen & _).
    exists all, total, w'. split; [exact Hrun|exact Hlen].
  - destruct (Hpaged 0 (convertRecords threeRows) 2%nat emptyWorld ltac:(lia) ltac:(lia)
                (threeRowsInTurn_is_paged 0 true) 4%nat ltac:(simpl; lia))
      as (total & w' & Hrun & _ & Hreps & _).
    exists total, w'. split; [exact Hrun|]. rewrite Hreps. reflexivity.
Defined.

(** C2 (as stated) fails twice.  A source whose pages all hold two rows
    and leave the more-records flag out is walked for one page only -- two
    rows are fewer than the 250 asked for, so no more are expected -- and
    the walk capped at 3 returns 2 entries.  And the page without rows that
    ends a walk is fetched but not reported: two fetches, one report. *)
Lemma export_stops_short_and_skips_a_report :
  (forall pagination w,
     length (entries (pageOf twoRowsNoAnnotation plain initialFiltersState pagination w))
     = 2%nat)
  /\ (exists all total w',
        queryAllAuditLogs 4 twoRowsNoAnnotation plain initialFiltersState 3 true emptyWorld
        = (Return (Some (all, total)), w')
        /\ len all = 2
        /\ len all <> 3)
  /\ (exists all total w',
        queryAllAuditLogs 4 Samples.twoRowsThenNone plain initialFiltersState 0 true
          emptyWorld
        = (Return (Some (all, total)), w')
        /\ len all = 2
        /\ fetchCount (trace w') = 2%nat
        /\ length (reported (trace w')) = 1%nat
        /\ fetchCount (trace w') <> length (reported (trace w'))).
Proof.
  split; [intros pagination w; reflexivity|]. split.
  - eexists _, _, _. split; [vm_compute; reflexivity|]. split; [reflexivity|discriminate].
  - eexists _, _, _. split; [vm_compute; reflexivity|].
    split; [reflexivity|]. split; [reflexivity|]. split; [reflexivity|discriminate].
Qed.

End WalkerFixtures.

(* ===================================================================== *)
(** * Further properties                                                  *)
(* ===================================================================== *)

(** ** Strings *)

Section StringFacts.

Lemma string_app_assoc (s t u : string) : ((s ++ t) ++ u = s ++ (t ++ u))%string.
Proof.
  induction s as [|c s IH]; [reflexivity|].
  change (String c ((s +:+ t) +:+ u) = String c (s +:+ (t +:+ u))). by rewrite IH.
Qed.

Lemma string_length_app (s t : string) :
  String.length (s ++ t) = (String.length s + String.length t)%nat.
Proof.
  induction s as [|c s IH]; [reflexivity|].
  change (S (String.length (s +:+ t)) = S (String.length s + String.length t)).
  by rewrite IH.
Qed.

Lemma string_prefix_app p r : String.prefix p (p ++ r) = true.
Proof.
  induction p as [|c p IH]; [by destruct r|].
  change (String.prefix (String c p) (String c (p +:+ r)) = true).
  cbn [String.prefix]. by destruct (ascii_dec c c).
Qed.

Lemma string_prefix_app_l a b c : String.prefix (a ++ b) (a ++ c) = String.prefix b c.
Proof.
  induction a as [|x a IH]; [reflexivity|].
  change (String.prefix (String x (a +:+ b)) (String x (a +:+ c)) = String.prefix b c).
  cbn [String.prefix]. by destruct (ascii_dec x x).
Qed.

(** A pattern no longer than [x] is a prefix of [x ++ y] only if it is one
    of [x]. *)
Lemma prefix_within p x y :
  (String.length p <= String.length x)%nat ->
  String.prefix p (x ++ y) = String.prefix p x.
Proof.
  revert x. induction p as [|c p IH]; intros x Hlen;
    [destruct x; [destruct y|]; reflexivity|].
  destruct x as [|c' x]; [cbn in Hlen; lia|].
  change (String.prefix (String c p) (String c' (x +:+ y))
          = String.prefix (String c p) (String c' x)).
  cbn [String.prefix]. destruct (ascii_dec c c'); [|reflexivity].
  apply IH. cbn in Hlen. lia.
Qed.

Lemma prefix_skip p s :
  String.prefix p s = true -> s = (p ++ skip (String.length p) s)%string.
Proof.
  revert s. induction p as [|c p IH]; intros s; [reflexivity|].
  destruct s as [|c' s]; [discriminate|]. cbn [String.prefix String.length skip].
  destruct (ascii_dec c c') as [<-|]; [|discriminate].
  intros Hp. change (String c s = String c (p +:+ skip (String.length p) s)).
  by rewrite <- IH.
Qed.

Lemma includes_later c s p : includes s p = true -> includes (String c s) p = true.
Proof. intros H. rewrite includes_unfold. by destruct (String.prefix p (String c s)). Qed.

Lemma includes_here p r : includes (p ++ r) p = true.
Proof. rewrite includes_unfold. by rewrite string_prefix_app. Qed.

(** [trim] leaves alone a text that ends in something it would keep. *)
Lemma trim_end_keeps s t :
  trim_end t = t -> truthy_string t = true -> trim_end (s ++ t) = (s ++ t)%string.
Proof.
  intros Ht Hne. induction s as [|c s IH]; [exact Ht|].
  change (trim_end (String c (s +:+ t)) = String c (s +:+ t)).
  cbn [trim_end]. rewrite IH. destruct s; [by destruct t|done].
Qed.

End StringFacts.

(** ** Numbers written in decimal *)

Section Decimal.

Lemma pretty_N_char_digit (d : N) :
  (d < 10)%N ->
  is_digit (pretty_N_char d) = true
  /\ Z.of_nat (nat_of_ascii (pretty_N_char d) - 48) = Z.of_N d.
Proof.
  intros Hd.
  assert (Hcases : In d [0; 1; 2; 3; 4; 5; 6; 7; 8; 9]%N).
  { cbn. lia. }
  cbn in Hcases. intuition subst; split; reflexivity.
Qed.

(** Reading the digits of [x] in front of [s] shifts the accumulator and
    adds [x]. *)
Lemma digits_value_pretty_N_go (x : N) :
  forall s acc seen,
    (0 < x)%N ->
    exists p, digits_value acc seen (pretty_N_go x s) = digits_value (acc * p + Z.of_N x) true s.
Proof.
  induction x as [x IH] using (well_founded_induction N.lt_wf_0).
  intros s acc seen Hx. rewrite pretty_N_go_step by exact Hx.
  destruct (pretty_N_char_digit (x `mod` 10)%N) as [Hdigit Hval].
  { apply N.mod_lt. lia. }
  destruct (N.eq_dec (x `div` 10)%N 0%N) as [Hz|Hnz].
  - rewrite Hz, pretty_N_go_0. cbn [digits_value]. rewrite Hdigit, Hval.
    exists 10. f_equal.
    pose proof (N.div_mod x 10 ltac:(lia)) as Hdm. rewrite Hz in Hdm. lia.
  - destruct (IH (x `div` 10)%N) with (s := String (pretty_N_char (x `mod` 10)) s)
      (acc := acc) (seen := seen) as [p Hp].
    { apply N.div_lt; lia. }
    { by apply N.neq_0_lt_0. }
    rewrite Hp. cbn [digits_value]. rewrite Hdigit, Hval.
    exists (p * 10). f_equal.
    pose proof (N.div_mod x 10 ltac:(lia)) as Hdm.
    rewrite N2Z.inj_div. rewrite N2Z.inj_mod. change (Z.of_N 10) with 10.
    pose proof (Z.div_mod (Z.of_N x) 10 ltac:(lia)). lia.
Qed.

Lemma digits_value_pretty_positive (x : positive) :
  digits_value 0 false (pretty x) = Some (Z.pos x).
Proof.
  change (pretty x) with (pretty_N_go (N.pos x) "").
  destruct (digits_value_pretty_N_go (N.pos x) "" 0 false ltac:(lia)) as [p ->].
  cbn [digits_value]. f_equal.
Qed.

Lemma pretty_N_go_first (x : N) s :
  (0 < x)%N ->
  exists d r, (d < 10)%N /\ pretty_N_go x s = String (pretty_N_char d) r.
Proof.
  revert s. induction x as [x IH] using (well_founded_induction N.lt_wf_0).
  intros s Hx. rewrite pretty_N_go_step by exact Hx.
  destruct (N.eq_dec (x `div` 10)%N 0%N) as [Hz|Hnz].
  - rewrite Hz, pretty_N_go_0. exists (x `mod` 10)%N, s. split; [apply N.mod_lt; lia|done].
  - apply IH; [apply N.div_lt; lia|by apply N.neq_0_lt_0].
Qed.

(** [parseInt(String(n), 10)] is [n]. *)
Lemma parseInt10_pretty (n : Z) : parseInt10 (pretty n) = Some n.
Proof.
  destruct n as [|x|x].
  - reflexivity.
  - change (pretty (Z.pos x)) with (pretty_N_go (N.pos x) "").
    destruct (pretty_N_go_first (N.pos x) "" ltac:(lia)) as (d & r & Hd & Hr).
    pose proof (digits_value_pretty_positive x) as Hv.
    change (pretty x) with (pretty_N_go (N.pos x) "") in Hv.
    rewrite Hr in *. unfold parseInt10. cbn [trim_start].
    assert (Hcases : In d [0; 1; 2; 3; 4; 5; 6; 7; 8; 9]%N) by (cbn; lia).
    cbn in Hcases. intuition subst; exact Hv.
  - change (pretty (Z.neg x)) with (String "-" (pretty x)).
    change (parseInt10 (String "-" (pretty x)))
      with (Z.opp <$> digits_value 0 false (pretty x)).
    by rewrite digits_value_pretty_positive.
Qed.

End Decimal.

(** ** Moving between pages *)

Section Navigation.
Import Pagination.

Implicit Types (h : Hook) (page : Z).

(** X1. In a well-formed pagination state, [setPage] moves to every page
    that [canNavigateToPage] reports as reachable: afterwards the page
    number is the requested one, no warning is logged, the cursor cache and
    the page size are as before, and the cursor in flight is none for page
    1, the one held for the next page, and the cached one for any other
    page. *)
Theorem navigable_page_is_reached h page :
  wellFormed h ->
  canNavigateToPage h page = true ->
  let h' := fst (setPage page h) in
  pageNumber (pagination h') = page
  /\ snd (setPage page h) = []
  /\ pagingCookieCacheRef h' = pagingCookieCacheRef h
  /\ pageSize (pagination h') = pageSize (pagination h)
  /\ (page <> pageNumber (pagination h) ->
      pagingCookieRef h'
      = if page =? 1 then None
        else if page =? pageNumber (pagination h) + 1 then pagingCookieRef h
        else pagingCookieCacheRef h !! page).
Proof.
  intros [Hpage Hcache]. unfold canNavigateToPage, setPage, has. cbn zeta.
  destruct (Z.eqb_spec page (pageNumber (pagination h))) as [->|Hcur].
  { intros _. cbn. repeat split; congruence. }
  destruct (Z.eqb_spec page 1) as [->|Hone]; [intros _; cbn; repeat split; done|].
  destruct (Z.eqb_spec page (pageNumber (pagination h) + 1)) as [->|Hnext].
  { intros _. cbn. repeat split; done. }
  cbn [andb]. destruct (pagingCookieCacheRef h !! page) as [c|] eqn:Hc; [|discriminate].
  intros _. cbn [truthy]. destruct (Hcache page c Hc) as [_ ->]. cbn. repeat split; done.
Qed.

Lemma navigable_page_is_reached_witness :
  pageNumber (pagination (fst (setPage 3 Samples.onPageFive))) = 3
  /\ pagingCookieRef (fst (setPage 3 Samples.onPageFive)) = Some "C"%string.
Proof.
  assert (Hwf : wellFormed Samples.onPageFive).
  { split; [cbn; lia|]. unfold Samples.onPageFive. cbn [pagingCookieCacheRef].
    intros k c [<- <-]%lookup_singleton_Some. split; [lia|reflexivity]. }
  destruct (navigable_page_is_reached Samples.onPageFive 3 Hwf eq_refl)
    as (Hp & _ & _ & _ & Hc).
  split; [exact Hp|]. apply Hc. cbn. lia.
Defined.

(** X2. After a change of page size the hook is on page 1 with the new
    size, and page 1 is the only page that can be navigated to: the cursor
    in flight and every cached cursor are gone.  The same holds after
    [resetPagination]. *)
Theorem page_size_change_forgets_cursors size h page :
  pageNumber (pagination (setPageSize size h)) = 1
  /\ pageSize (pagination (setPageSize size h)) = size
  /\ (canNavigateToPage (setPageSize size h) page = true <-> page = 1)
  /\ (canNavigateToPage (resetPagination h) page = true <-> page = 1).
Proof.
  split; [reflexivity|]. split; [reflexivity|].
  unfold canNavigateToPage, has. cbn. rewrite !lookup_empty, andb_false_r.
  split; destruct (Z.eqb_spec page 1); split; (done || lia).
Qed.

End Navigation.

(** ** One page query *)

Section QueryFrame.
Import Parsers Service Helpers.

Variables (api : DataverseAPI) (co : Collaborators).
Implicit Types (filters : AuditFiltersState) (pagination : PaginationState) (w : World).

(** When the query text is built, it is sent, once. *)
Lemma queryAuditLogs_built filters pagination w fetchXml :
  buildAuditFetchXml co filters (Model.pageSize pagination)
    (Model.pageNumber pagination) (Model.pagingCookie pagination) = Return fetchXml ->
  exists r,
    queryAuditLogs api co filters pagination w
    = (Return r, log (Request (FetchXmlQuery fetchXml)) w).
Proof.
  intros Hq. unfold queryAuditLogs, catch, mbind, M_bind, mbindM, lift, mret, M_ret, ret.
  rewrite Hq. unfold call_fetchXmlQuery.
  destruct (fetchXmlQuery api (trace w) fetchXml) as [[resp|]|e]; cbn; try by eexists.
  destruct (length (rowsOf resp) =? 0)%nat; by eexists.
Qed.

(** When it cannot be built, nothing is sent. *)
Lemma queryAuditLogs_not_built filters pagination w e :
  buildAuditFetchXml co filters (Model.pageSize pagination)
    (Model.pageNumber pagination) (Model.pagingCookie pagination) = Throw e ->
  queryAuditLogs api co filters pagination w = (Return emptyPage, w).
Proof.
  intros Hq. unfold queryAuditLogs, catch, mbind, M_bind, mbindM, lift, mret, M_ret, ret.
  by rewrite Hq.
Qed.

(** X3. [queryAuditLogs] never throws and touches neither cache.  If the
    query text cannot be built it sends nothing and returns the empty page;
    otherwise it sends exactly one request, carrying that text.  The
    entries are the rows of the answer that have an audit id, converted in
    order; a cursor is returned only with an answer that has rows; a
    [null] answer gives the empty page. *)
Theorem queryAuditLogs_sends_one_request filters pagination w :
  match buildAuditFetchXml co filters (Model.pageSize pagination)
          (Model.pageNumber pagination) (Model.pagingCookie pagination) with
  | Throw _ => queryAuditLogs api co filters pagination w = (Return emptyPage, w)
  | Return fetchXml =>
      exists r,
        queryAuditLogs api co filters pagination w
        = (Return r, log (Request (FetchXmlQuery fetchXml)) w)
        /\ (forall responseData,
              fetchXmlQuery api (trace w) fetchXml = Return (Some responseData) ->
              entries r = convertRecords (rowsOf responseData)
              /\ (rowsOf responseData = [] -> pagingCookie r = None)
              /\ (rowsOf responseData <> [] ->
                  pagingCookie r = decodedCookie co responseData))
        /\ (fetchXmlQuery api (trace w) fetchXml = Return None -> r = emptyPage)
  end.
Proof.
  unfold queryAuditLogs, catch, mbind, M_bind, mbindM, lift, mret, M_ret, ret.
  destruct (buildAuditFetchXml co _ _ _ _) as [q|e]; [|reflexivity].
  unfold call_fetchXmlQuery.
  destruct (fetchXmlQuery api (trace w) q) as [[resp|]|e] eqn:Hq; cbn.
  - destruct (rowsOf resp) as [|row rows] eqn:Hrows; cbn.
    + eexists. split; [reflexivity|]. split; [|done].
      intros ? [= <-]. rewrite Hrows. done.
    + eexists. split; [reflexivity|]. split; [|done].
      intros ? [= <-]. rewrite Hrows. done.
  - eexists. split; [reflexivity|]. split; [intros ? [=]|done].
  - eexists. split; [reflexivity|]. split; [intros ? [=]|done].
Qed.

(** X4. [getRecordChangeHistory] throws only if its query text cannot be
    built; otherwise it sends exactly one request and returns a page with
    an empty details map, whatever the service answers.  When the request
    throws the page is the empty page, and when the answer carries no
    total the total is the number of entries (the estimate of
    [queryAuditLogs] is not used here). *)
Theorem getRecordChangeHistory_carries_no_details entity recordId pagination w :
  match buildHistoryFetchXml co recordId pagination with
  | Throw e => getRecordChangeHistory api co entity recordId pagination w = (Throw e, w)
  | Return fetchXml =>
      exists r,
        getRecordChangeHistory api co entity recordId pagination w
        = (Return (r, ∅), log (Request (FetchXmlQuery fetchXml)) w)
        /\ ((exists e, fetchXmlQuery api (trace w) fetchXml = Throw e) -> r = emptyPage)
        /\ (forall responseData,
              fetchXmlQuery api (trace w) fetchXml = Return (Some responseData) ->
              totalrecordcount responseData = None ->
              totalCount r = len (entries r))
  end.
Proof.
  unfold getRecordChangeHistory, catch, mbind, M_bind, mbindM, lift, mret, M_ret, ret.
  destruct (buildHistoryFetchXml co _ _) as [q|e]; [|reflexivity].
  unfold call_fetchXmlQuery.
  destruct (fetchXmlQuery api (trace w) q) as [[resp|]|e] eqn:Hq; cbn.
  - destruct (rowsOf resp) as [|row rows] eqn:Hrows; cbn.
    + eexists. split; [reflexivity|]. split; [intros [? [=]]|].
      intros ? [= <-] ->. reflexivity.
    + eexists. split; [reflexivity|]. split; [intros [? [=]]|].
      intros ? [= <-] ->. reflexivity.
  - eexists. split; [reflexivity|]. split; [done|]. intros ? [=].
  - eexists. split; [reflexivity|]. split; [done|]. intros ? [=].
Qed.

End QueryFrame.

(** ** Rows and entries *)

Section Rows.
Import Helpers Service.

(** The audit id of a row that becomes an entry. *)
Lemma toAuditLogEntry_id record e :
  toAuditLogEntry record = Return e ->
  exists r, record = Some r /\ truthy (auditid r) = true /\ auditid r = Some (id e).
Proof.
  unfold toAuditLogEntry. destruct record as [r|]; [|discriminate].
  destruct (auditid r) as [a|] eqn:Ha; cbn; [|discriminate].
  destruct (truthy_string a) eqn:Ht; cbn; [|discriminate].
  intros [= <-]. exists r. cbn. rewrite Ha. cbn. by rewrite Ht.
Qed.

(** X5. The entries made from the rows of an answer are, in order, those of
    the rows that are not [null] and carry a non-empty audit id, each entry
    under the audit id of its row; so there are never more entries than
    rows.  [toAuditLogEntry] succeeds on exactly those rows. *)
Theorem convertRecords_keeps_identified_rows records :
  map id (convertRecords records)
  = omap (fun record => r ← record; if truthy (auditid r) then auditid r else None) records
  /\ (length (convertRecords records) <= length records)%nat
  /\ (forall record,
        (exists e, toAuditLogEntry record = Return e)
        <-> exists r, record = Some r /\ truthy (auditid r) = true).
Proof.
  assert (Hids : map id (convertRecords records)
    = omap (fun record => r ← record; if truthy (auditid r) then auditid r else None) records).
  { unfold convertRecords. induction records as [|[r|] records IH]; cbn; [done| |exact IH].
    destruct (auditid r) as [a|] eqn:Ha; cbn; [|exact IH].
    destruct (truthy_string a) eqn:Ht; cbn; [|exact IH].
    by rewrite IH. }
  split; [exact Hids|]. split.
  - clear Hids. unfold convertRecords.
    induction records as [|[r|] records IH]; cbn [flat_map]; rewrite ?length_app;
      [done| |cbn [length app]; lia].
    destruct (truthy (auditid r)); [|cbn [length]; lia].
    destruct (toAuditLogEntry (Some r)); cbn [length]; lia.
  - intros record. split.
    + intros [e (r & -> & Ht & _)%toAuditLogEntry_id]. by exists r.
    + intros (r & -> & Ht). unfold toAuditLogEntry. rewrite Ht. by eexists.
Qed.

End Rows.

(** ** The walk under a cap, whatever the service does *)

Section WalkBound.
Import Parsers Service.

Variables (api : DataverseAPI) (co : Collaborators) (filters : AuditFiltersState).
Variable onProgress : bool.

(** Under a cap, a walk with enough fuel ends; it only appends to what it
    holds, never holds more than the cap, and fetches at most once per
    entry still missing. *)
Lemma walk_bounded maxRecords :
  0 < maxRecords ->
  forall fuel st w,
    len (allEntries st) <= maxRecords ->
    (Z.to_nat (maxRecords - len (allEntries st)) < fuel)%nat ->
    exists st' w',
      walk fuel api co filters maxRecords onProgress st w = (Return (Some st'), w')
      /\ len (allEntries st') <= maxRecords
      /\ (exists more, allEntries st' = allEntries st ++ more)
      /\ (fetchCount (trace w')
          <= fetchCount (trace w) + Z.to_nat (maxRecords - len (allEntries st)))%nat.
Proof.
  intros Hcap. induction fuel as [|fuel IH]; intros st w Hlen Hfuel; [lia|].
  destruct (w_hasMoreRecords st) eqn:Hmore.
  2: { rewrite walk_no_more by exact Hmore. exists st, w.
       split; [reflexivity|]. split; [exact Hlen|]. split; [exists []; by rewrite app_nil_r|lia]. }
  destruct (Z.eq_dec (len (allEntries st)) maxRecords) as [Hfull|Hroom].
  { rewrite walk_stops_at_cap by lia. exists st, w.
    split; [reflexivity|]. split; [exact Hlen|]. split; [exists []; by rewrite app_nil_r|lia]. }
  destruct (entries (pageOf api co filters (walkPagination st) w)) as [|e es] eqn:Hpage.
  { destruct (walk_empty_page api co filters onProgress fuel maxRecords st w Hmore
                ltac:(lia) Hpage) as (w1 & -> & _ & Hup & _).
    exists st, w1. split; [reflexivity|]. split; [exact Hlen|].
    split; [exists []; by rewrite app_nil_r|]. unfold len in *. lia. }
  destruct (walk_turn api co filters onProgress fuel maxRecords st w Hmore ltac:(lia))
    as (w1 & Hfetch & _ & ->); [by rewrite Hpage|].
  rewrite Hpage. destruct (Z.ltb_spec 0 maxRecords) as [_|?]; [|lia].
  set (added := firstn (Z.to_nat (maxRecords - len (allEntries st))) (e :: es)).
  assert (Hadded : (1 <= length added <= Z.to_nat (maxRecords - len (allEntries st)))%nat).
  { unfold added. rewrite length_take. cbn [length]. unfold len in *. lia. }
  match goal with
  | |- context [walk fuel api co filters maxRecords onProgress ?s w1] => set (st1 := s)
  end.
  assert (Hlen1 : len (allEntries st1) = len (allEntries st) + Z.of_nat (length added)).
  { unfold st1, len. cbn [allEntries]. rewrite length_app. lia. }
  destruct (IH st1 w1) as (st' & w' & Hwalk & Hle & [more Hmore'] & Hcount).
  { unfold len in *. lia. }
  { unfold len in *. lia. }
  exists st', w'. split; [exact Hwalk|]. split; [exact Hle|]. split.
  - exists (added ++ more). rewrite Hmore'. unfold st1. cbn [allEntries]. by rewrite <- app_assoc.
  - unfold len in *. lia.
Qed.

(** X6. With a cap [maxRecords > 0], [queryAllAuditLogs] ends within
    [maxRecords + 1] turns of its loop whatever the service answers (pages
    of any size, any more-records flag, failures), returns at most
    [maxRecords] entries and sends at most [maxRecords] page requests. *)
Theorem export_never_exceeds_cap maxRecords fuel w :
  0 < maxRecords ->
  (Z.to_nat maxRecords < fuel)%nat ->
  exists all total w',
    queryAllAuditLogs fuel api co filters maxRecords onProgress w
    = (Return (Some (all, total)), w')
    /\ len all <= maxRecords
    /\ (fetchCount (trace w') <= fetchCount (trace w) + Z.to_nat maxRecords)%nat.
Proof.
  intros Hcap Hfuel.
  destruct (walk_bounded maxRecords Hcap fuel walkStart w) as (st' & w' & Hwalk & Hle & _ & Hcount).
  { unfold len. cbn. lia. }
  { unfold len. cbn. rewrite Z.sub_0_r. exact Hfuel. }
  exists (allEntries st'), (w_totalCount st'), w'.
  unfold queryAllAuditLogs, mbind, M_bind, mbindM. rewrite Hwalk.
  split; [reflexivity|]. split; [exact Hle|].
  unfold len in Hcount. cbn in Hcount. rewrite Z.sub_0_r in Hcount. exact Hcount.
Qed.

End WalkBound.

Lemma export_never_exceeds_cap_witness :
  exists all total w',
    Service.queryAllAuditLogs 4 Fixtures.endless Fixtures.plain initialFiltersState 3 false
      emptyWorld
    = (Return (Some (all, total)), w')
    /\ Service.len all <= 3.
Proof.
  destruct (export_never_exceeds_cap Fixtures.endless Fixtures.plain initialFiltersState
              false 3 4%nat emptyWorld ltac:(lia) ltac:(simpl; lia))
    as (all & total & w' & Hrun & Hlen & _).
  exists all, total, w'. split; [exact Hrun|exact Hlen].
Defined.

(** ** The cursor in the paging annotation *)

Section PagingCookie.
Import Parsers Service.

Variable co : Collaborators.

Lemma until_quote_spec s m :
  until_quote s = Some m ->
  includes m dq = false /\ exists rest, s = (m ++ dq ++ rest)%string.
Proof.
  revert m. induction s as [|c s IH]; intros m; cbn [until_quote]; [discriminate|].
  destruct (Nat.eqb_spec (nat_of_ascii c) 34) as [Hq|Hq].
  - intros [= <-]. split; [reflexivity|]. exists s.
    rewrite <- (ascii_nat_embedding c), Hq. reflexivity.
  - destruct (until_quote s) as [m'|]; [|discriminate]. intros [= <-].
    destruct (IH m' eq_refl) as [Hfree [rest ->]]. split; [|by exists rest].
    rewrite includes_unfold. unfold dq. cbn [String.prefix].
    destruct (ascii_dec (ascii_of_nat 34) c) as [<-|_]; [by destruct Hq|exact Hfree].
Qed.

Lemma until_quote_app m rest :
  includes m dq = false -> until_quote (m ++ dq ++ rest) = Some m.
Proof.
  induction m as [|c m IH]; [reflexivity|].
  rewrite includes_unfold. unfold dq at 1. cbn [String.prefix].
  destruct (ascii_dec (ascii_of_nat 34) c) as [<-|Hne]; [by destruct m|].
  intros Hfree. change (until_quote (String c (m +:+ dq +:+ rest)) = Some (String c m)).
  cbn [until_quote]. destruct (Nat.eqb_spec (nat_of_ascii c) 34) as [Hq|_].
  - destruct Hne. by rewrite <- (ascii_nat_embedding c), Hq.
  - by rewrite IH.
Qed.

Lemma matchPagingCookie_unfold s :
  matchPagingCookie s
  = match (if String.prefix ("pagingcookie=" ++ dq) s
           then match until_quote (skip 14 s) with
                | Some (String c r) => Some (String c r)
                | _ => None
                end
           else None) with
    | Some m => Some m
    | None =>
        match s with
        | EmptyString => None
        | String _ s' => matchPagingCookie s'
        end
    end.
Proof. by destruct s. Qed.

(** What is found is a non-empty text without double quote that stands in
    the annotation between [pagingcookie=] with its quote, and a quote. *)
Lemma matchPagingCookie_sound s m :
  matchPagingCookie s = Some m ->
  truthy_string m = true
  /\ includes m dq = false
  /\ includes s ("pagingcookie=" ++ dq ++ m ++ dq) = true.
Proof.
  induction s as [|c s IH].
  - cbn. discriminate.
  - cbn [matchPagingCookie].
    destruct (String.prefix ("pagingcookie=" ++ dq) (String c s)) eqn:Hp.
    + destruct (until_quote (skip 14 (String c s))) as [[|c' r]|] eqn:Hu.
      * intros H. destruct (IH H) as (? & ? & ?). by auto using includes_later.
      * intros [= <-]. destruct (until_quote_spec _ _ Hu) as [Hfree [rest Hrest]].
        split; [reflexivity|]. split; [exact Hfree|].
        rewrite (prefix_skip _ _ Hp).
        change (String.length ("pagingcookie=" +:+ dq)) with 14%nat. rewrite Hrest.
        replace (("pagingcookie=" +:+ dq) +:+ String c' r +:+ dq +:+ rest)
          with (("pagingcookie=" +:+ dq +:+ String c' r +:+ dq) +:+ rest).
        { apply includes_here. }
        by rewrite !string_app_assoc.
      * intros H. destruct (IH H) as (? & ? & ?). by auto using includes_later.
    + intros H. destruct (IH H) as (? & ? & ?). by auto using includes_later.
Qed.

(** The first [pagingcookie=] with its quote is where the cursor is read. *)
Lemma matchPagingCookie_found pre m post :
  truthy_string m = true ->
  includes m dq = false ->
  includes (pre ++ "pagingcookie=") ("pagingcookie=" ++ dq) = false ->
  matchPagingCookie (pre ++ "pagingcookie=" ++ dq ++ m ++ dq ++ post) = Some m.
Proof.
  intros Hne Hfree. induction pre as [|c pre IH]; intros Hfirst.
  - change (EmptyString +:+ "pagingcookie=" +:+ dq +:+ m +:+ dq +:+ post)
      with (("pagingcookie=" +:+ dq) +:+ m +:+ dq +:+ post).
    rewrite matchPagingCookie_unfold, string_prefix_app.
    change (skip 14 (("pagingcookie=" +:+ dq) +:+ m +:+ dq +:+ post))
      with (m +:+ dq +:+ post).
    rewrite until_quote_app by exact Hfree. by destruct m.
  - change (String c pre +:+ "pagingcookie=" +:+ dq +:+ m +:+ dq +:+ post)
      with (String c (pre +:+ "pagingcookie=" +:+ dq +:+ m +:+ dq +:+ post)).
    change (String c pre +:+ "pagingcookie=") with (String c (pre +:+ "pagingcookie="))
      in Hfirst.
    rewrite includes_unfold in Hfirst.
    destruct (String.prefix ("pagingcookie=" +:+ dq) (String c (pre +:+ "pagingcookie=")))
      eqn:Hhere; [discriminate|].
    cbn [matchPagingCookie].
    replace (String c (pre +:+ "pagingcookie=" +:+ dq +:+ m +:+ dq +:+ post))
      with (String c (pre +:+ "pagingcookie=") +:+ dq +:+ m +:+ dq +:+ post).
    2: { change (String c ((pre +:+ "pagingcookie=") +:+ dq +:+ m +:+ dq +:+ post)
                 = String c (pre +:+ "pagingcookie=" +:+ dq +:+ m +:+ dq +:+ post)).
         by rewrite string_app_assoc. }
    rewrite prefix_within, Hhere.
    2: { change (String.length ("pagingcookie=" +:+ dq)) with 14%nat.
         change (String.length (String c (pre +:+ "pagingcookie=")))
           with (S (String.length (pre +:+ "pagingcookie="))).
         rewrite string_length_app. cbn. lia. }
    by apply IH.
Qed.

(** X7. In an annotation where the first [pagingcookie=] followed by a
    double quote is followed by a non-empty text [m] without double quote
    and a double quote, [decodePagingCookie] reads [m] and returns it
    decoded twice; if either decoding throws it returns the annotation
    unchanged. *)
Theorem cursor_is_read_from_annotation pre m post :
  truthy_string m = true ->
  includes m dq = false ->
  includes (pre ++ "pagingcookie=") ("pagingcookie=" ++ dq) = false ->
  let rawCookie := (pre ++ "pagingcookie=" ++ dq ++ m ++ dq ++ post)%string in
  matchPagingCookie rawCookie = Some m
  /\ decodePagingCookie co rawCookie
     = match (once ← decodeURIComponent co m; decodeURIComponent co once) with
       | Return cursor => cursor
       | Throw _ => rawCookie
       end.
Proof.
  intros Hne Hfree Hfirst rawCookie.
  pose proof (matchPagingCookie_found pre m post Hne Hfree Hfirst) as Hmatch.
  split; [exact Hmatch|]. unfold decodePagingCookie. fold rawCookie in Hmatch.
  by rewrite Hmatch.
Qed.

(** X8. Whatever [decodePagingCookie] reads from an annotation is a
    non-empty text without double quote that occurs in the annotation
    between [pagingcookie=] with its opening quote, and a closing quote;
    the result is that text decoded twice, or the annotation itself when a
    decoding throws. *)
Theorem extracted_cursor_stands_in_annotation rawCookie m :
  matchPagingCookie rawCookie = Some m ->
  truthy_string m = true
  /\ includes m dq = false
  /\ includes rawCookie ("pagingcookie=" ++ dq ++ m ++ dq) = true
  /\ decodePagingCookie co rawCookie
     = match (once ← decodeURIComponent co m; decodeURIComponent co once) with
       | Return cursor => cursor
       | Throw _ => rawCookie
       end.
Proof.
  intros Hmatch. destruct (matchPagingCookie_sound _ _ Hmatch) as (H1 & H2 & H3).
  repeat split; try done. unfold decodePagingCookie. by rewrite Hmatch.
Qed.

End PagingCookie.

Lemma cursor_is_read_from_annotation_witness :
  Service.decodePagingCookie Fixtures.plain Samples.annotation
  = "%253ccookie%2520page%253d"%string.
Proof.
  destruct (cursor_is_read_from_annotation Fixtures.plain Samples.annotationStart
              "%253ccookie%2520page%253d" Samples.annotationEnd
              eq_refl eq_refl eq_refl) as [_ Hdecode].
  exact Hdecode.
Defined.

Lemma extracted_cursor_stands_in_annotation_witness :
  includes Samples.annotation
    ("pagingcookie=" ++ dq ++ "%253ccookie%2520page%253d" ++ dq) = true.
Proof.
  destruct (extracted_cursor_stands_in_annotation Fixtures.plain Samples.annotation
              "%253ccookie%2520page%253d" eq_refl) as (_ & _ & Hin & _).
  exact Hin.
Defined.

(** ** The query text *)

Section XmlEscaping.
Import QueryText.

(** A global replacement of one character works character by character. *)
Lemma replace_all_char_step c repl a s :
  replace_all (String a s) (String c EmptyString) repl
  = ((if Ascii.eqb c a then repl else String a EmptyString)
     ++ replace_all s (String c EmptyString) repl)%string.
Proof.
  unfold replace_all. cbn [replace_all_go String.prefix String.length Nat.sub].
  destruct (ascii_dec c a) as [->|Hne].
  - rewrite Ascii.eqb_refl. by destruct s.
  - apply Ascii.eqb_neq in Hne. by rewrite Hne.
Qed.

Lemma replace_all_char_app c repl s t :
  replace_all (s ++ t) (String c EmptyString) repl
  = (replace_all s (String c EmptyString) repl
     ++ replace_all t (String c EmptyString) repl)%string.
Proof.
  induction s as [|a s IH]; [reflexivity|].
  change (String a s +:+ t) with (String a (s +:+ t)).
  rewrite !replace_all_char_step, IH.
  by rewrite string_app_assoc.
Qed.

Lemma replace_all_char_other c repl a :
  c <> a -> replace_all (String a EmptyString) (String c EmptyString) repl = String a EmptyString.
Proof.
  intros Hne. rewrite replace_all_char_step. apply Ascii.eqb_neq in Hne. by rewrite Hne.
Qed.

Lemma escapeXml_app s t : escapeXml (s ++ t) = (escapeXml s ++ escapeXml t)%string.
Proof. unfold escapeXml, dq. by rewrite !replace_all_char_app. Qed.

(** The five passes do not interfere: the ampersands they write are not
    escaped again, because the ampersand pass runs first. *)
Lemma escapeXml_char c : escapeXml (String c EmptyString) = xmlEntity c.
Proof.
  unfold escapeXml, xmlEntity, dq.
  destruct (Ascii.eqb_spec c "&") as [->|Hamp]; [reflexivity|].
  destruct (Ascii.eqb_spec c "<") as [->|Hlt]; [reflexivity|].
  destruct (Ascii.eqb_spec c ">") as [->|Hgt]; [reflexivity|].
  destruct (Nat.eqb_spec (nat_of_ascii c) 34) as [Hq|Hq].
  { rewrite <- (ascii_nat_embedding c), Hq. reflexivity. }
  destruct (Ascii.eqb_spec c "'") as [->|Hapos]; [reflexivity|].
  rewrite !replace_all_char_other;
    first [reflexivity | congruence | intros <-; by apply Hq].
Qed.

Lemma escapeXml_step c s : escapeXml (String c s) = (xmlEntity c ++ escapeXml s)%string.
Proof.
  change (String c s) with (String c EmptyString ++ s)%string.
  by rewrite escapeXml_app, escapeXml_char.
Qed.

Lemma all_chars_app p s t : all_chars p (s ++ t) = all_chars p s && all_chars p t.
Proof.
  induction s as [|c s IH]; [reflexivity|].
  change (p c && all_chars p (s +:+ t) = p c && all_chars p s && all_chars p t).
  by rewrite IH, andb_assoc.
Qed.

Lemma xmlEntity_no_markup c : all_chars (fun x => negb (isMarkup x)) (xmlEntity c) = true.
Proof.
  unfold xmlEntity.
  destruct (Ascii.eqb c "&") eqn:H1; [reflexivity|].
  destruct (Ascii.eqb c "<") eqn:H2; [reflexivity|].
  destruct (Ascii.eqb c ">") eqn:H3; [reflexivity|].
  destruct (nat_of_ascii c =? 34)%nat eqn:H4; [reflexivity|].
  destruct (Ascii.eqb c "'") eqn:H5; [reflexivity|].
  cbn. unfold isMarkup. by rewrite H2, H3, H4, H5.
Qed.

(** X9. The text [escapeXml] returns holds no [<], no [>], no double quote
    and no apostrophe, so it cannot end the attribute value it is written
    into; escaping works character by character (the escape of a
    concatenation is the concatenation of the escapes), leaves a text
    without any of the five special characters unchanged, and never
    shortens. *)
Theorem escapeXml_leaves_no_markup s t :
  all_chars (fun c => negb (isMarkup c)) (escapeXml s) = true
  /\ escapeXml (s ++ t) = (escapeXml s ++ escapeXml t)%string
  /\ (all_chars (fun c => negb (isMarkup c || Ascii.eqb c "&")) s = true -> escapeXml s = s)
  /\ (String.length s <= String.length (escapeXml s))%nat.
Proof.
  split; [|split; [apply escapeXml_app|split]].
  - induction s as [|c s IH]; [reflexivity|].
    by rewrite escapeXml_step, all_chars_app, xmlEntity_no_markup, IH.
  - induction s as [|c s IH]; [reflexivity|].
    cbn [all_chars]. intros [Hc Hs]%andb_true_iff. rewrite escapeXml_step, (IH Hs).
    unfold xmlEntity. unfold isMarkup in Hc.
    apply negb_true_iff in Hc. repeat (apply orb_false_iff in Hc as [Hc ?]).
    by repeat match goal with H : _ = false |- _ => rewrite H; clear H end.
  - induction s as [|c s IH]; [reflexivity|].
    rewrite escapeXml_step, string_length_app. cbn [String.length].
    assert (1 <= String.length (xmlEntity c))%nat; [|lia].
    unfold xmlEntity. repeat (destruct (_ : bool); [cbn; lia|]). cbn. lia.
Qed.

End XmlEscaping.

Section QueryBuilding.
Import QueryText.

Variable rt : DateRuntime.
Implicit Types (filters : AuditFiltersState).

Lemma oneOf_nil attribute values : oneOf attribute values = [] <-> values = [].
Proof. destruct values as [|v [|v' values]]; cbn; split; done. Qed.

Lemma oneOf_truthy attribute values :
  Forall (fun c => truthy_string c = true) (oneOf attribute values).
Proof.
  destruct values as [|v [|v' values]]; cbn [oneOf]; repeat first [reflexivity | constructor].
Qed.

Lemma concat_truthy sep x xs :
  truthy_string x = true -> truthy_string (String.concat sep (x :: xs)) = true.
Proof. destruct x; [done|]. intros _. by destruct xs. Qed.

(** The conditions are never empty strings. *)
Lemma filterConditions_truthy filters conditions :
  filterConditions rt filters = Return conditions ->
  Forall (fun c => truthy_string c = true) conditions.
Proof.
  unfold filterConditions, mbind, outcome_bind, Js.bind.
  destruct (fromDate filters) as [d|];
    [destruct (toISOString rt d) as [iso|]; [|discriminate]|];
    (destruct (toDate filters) as [d'|];
     [destruct (nextDayISOString rt d') as [iso'|]; [|discriminate]|]);
    intros [= <-];
    (destruct (recordId filters) as [r|]; [destruct (truthy_string r)|]);
    repeat first [ reflexivity | apply oneOf_truthy | apply Forall_app; split | constructor ].
Qed.

(** X10. [buildFetchXmlFilters] returns the empty text exactly when no
    filter is set: no table, no record id (an empty one counts as none),
    no operation, no action, no date, no user and no security role.  With
    a date set it either throws or returns a condition. *)
Theorem no_filter_no_condition filters :
  buildFetchXmlFilters rt filters = Return EmptyString
  <-> tableLogicalNames filters = []
      /\ truthy (recordId filters) = false
      /\ operations filters = []
      /\ actions filters = []
      /\ fromDate filters = None
      /\ toDate filters = None
      /\ selectedUsers filters = []
      /\ selectedSecurityRoles filters = [].
Proof.
  unfold buildFetchXmlFilters.
  destruct (filterConditions rt filters) as [conditions|e] eqn:Hc.
  2: { cbn. split; [discriminate|].
       intros (_ & _ & _ & _ & Hfrom & Hto & _).
       unfold filterConditions in Hc. rewrite Hfrom, Hto in Hc. discriminate. }
  pose proof (filterConditions_truthy _ _ Hc) as Htruthy.
  cbn [mbind outcome_bind Js.bind].
  assert (Hempty : conditions = [] <->
    tableLogicalNames filters = [] /\ truthy (recordId filters) = false
    /\ operations filters = [] /\ actions filters = []
    /\ fromDate filters = None /\ toDate filters = None
    /\ selectedUsers filters = [] /\ selectedSecurityRoles filters = []).
  { clear Htruthy. revert Hc.
    unfold filterConditions, mbind, outcome_bind, Js.bind.
    destruct (fromDate filters) as [d|];
      [destruct (toISOString rt d) as [iso|]; [|discriminate]|];
      (destruct (toDate filters) as [d'|];
       [destruct (nextDayISOString rt d') as [iso'|]; [|discriminate]|]);
      intros [= <-]; (split; [intros H|intros (Ht & Hr & Ho & Ha & Hf & Hd & Hu & Hs)]);
      try discriminate;
      repeat match goal with
             | H : _ ++ _ = [] |- _ =>
                 let H1 := fresh in apply app_eq_nil in H as [H1 H]
             | H : oneOf _ _ = [] |- _ => apply oneOf_nil in H
             | H : map _ _ = [] |- _ => apply map_eq_nil in H
             end;
      try discriminate.
    - repeat split; try done.
      destruct (recordId filters) as [r|]; [|done]. cbn. by destruct (truthy_string r).
    - rewrite Ht, Ho, Ha, Hu, Hs. cbn.
      destruct (recordId filters) as [r|]; [|done]. cbn in Hr. by rewrite Hr. }
  rewrite <- Hempty.
  destruct conditions as [|c conditions]; [split; done|].
  cbn [length Nat.ltb Nat.leb].
  split; [|discriminate].
  inversion Htruthy as [|? ? Hx _]; subst.
  pose proof (concat_truthy (nl ++ "          ") c conditions Hx) as Hne.
  destruct (String.concat _ (c :: conditions)); [discriminate|]. intros [=].
Qed.

(** The text [trim] leaves of the template: only the leading line feed
    goes. *)
Lemma fetch_template_trimmed attrs body :
  trim (nl ++ "<fetch " ++ attrs ++ body ++ nl ++ "  </entity>" ++ nl ++ "</fetch>")
  = ("<fetch " ++ attrs ++ body ++ nl ++ "  </entity>" ++ nl ++ "</fetch>")%string.
Proof.
  unfold trim.
  change (trim_start (nl +:+ "<fetch " +:+ attrs +:+ body +:+ nl +:+ "  </entity>"
                      +:+ nl +:+ "</fetch>"))
    with ("<fetch " +:+ attrs +:+ body +:+ nl +:+ "  </entity>" +:+ nl +:+ "</fetch>").
  rewrite <- !string_app_assoc. by apply trim_end_keeps.
Qed.

Lemma buildAuditFetchXml_text filters pageSize pageNumber cookie conditions :
  buildFetchXmlFilters rt filters = Return conditions ->
  exists filter,
    buildAuditFetchXml rt filters pageSize pageNumber cookie
    = Return ("<fetch " ++ pagingAttrs pageSize pageNumber cookie ++ auditEntity ++ filter
              ++ nl ++ "  </entity>" ++ nl ++ "</fetch>")%string.
Proof.
  intros Hc. unfold buildAuditFetchXml. rewrite Hc. cbn [mbind outcome_bind Js.bind].
  generalize auditEntity as entity. intros entity.
  generalize (pagingAttrs pageSize pageNumber cookie) as attrs. intros attrs.
  match goal with
  | |- context [(entity +:+ ?f +:+ ?rest)%string] => exists f
  end.
  rewrite <- (string_app_assoc entity), fetch_template_trimmed.
  by rewrite (string_app_assoc entity).
Qed.

Lemma filters_built_when_dates_are_valid filters :
  (forall d, fromDate filters = Some d -> exists iso, toISOString rt d = Return iso) ->
  (forall d, toDate filters = Some d -> exists iso, nextDayISOString rt d = Return iso) ->
  exists conditions, buildFetchXmlFilters rt filters = Return conditions.
Proof.
  intros Hfrom Hto.
  unfold buildFetchXmlFilters, filterConditions, mbind, outcome_bind, Js.bind.
  destruct (fromDate filters) as [d|]; [destruct (Hfrom d eq_refl) as [iso ->]|];
    (destruct (toDate filters) as [d'|]; [destruct (Hto d' eq_refl) as [iso' ->]|]);
    by eexists.
Qed.

(** X11. With the query text of the source, when the dates of the filter
    are valid [queryAuditLogs] builds the text and sends it in exactly one
    request.  The text starts with the [fetch] tag carrying the page size
    and the page number in decimal, followed, when a non-empty cursor is
    passed, by the escaped cursor as [paging-cookie]. *)
Theorem query_is_sent_when_dates_are_valid api co filters pagination w :
  (forall d, fromDate filters = Some d -> exists iso, toISOString rt d = Return iso) ->
  (forall d, toDate filters = Some d -> exists iso, nextDayISOString rt d = Return iso) ->
  exists fetchXml r,
    buildAuditFetchXml rt filters (Model.pageSize pagination) (Model.pageNumber pagination)
      (Model.pagingCookie pagination) = Return fetchXml
    /\ Service.queryAuditLogs api (withQueryText rt co) filters pagination w
       = (Return r, log (Request (FetchXmlQuery fetchXml)) w)
    /\ String.prefix
         ("<fetch " ++ "count=" ++ quoted (pretty (Model.pageSize pagination))
          ++ " page=" ++ quoted (pretty (Model.pageNumber pagination)))
         fetchXml = true
    /\ (forall cookie,
          Model.pagingCookie pagination = Some cookie -> truthy_string cookie = true ->
          String.prefix
            ("<fetch " ++ "count=" ++ quoted (pretty (Model.pageSize pagination))
             ++ " page=" ++ quoted (pretty (Model.pageNumber pagination))
             ++ " paging-cookie=" ++ quoted (escapeXml cookie)
             ++ " returntotalrecordcount=")
            fetchXml = true).
Proof.
  intros Hfrom Hto.
  destruct (filters_built_when_dates_are_valid filters Hfrom Hto) as [conditions Hc].
  destruct (buildAuditFetchXml_text filters (Model.pageSize pagination)
              (Model.pageNumber pagination) (Model.pagingCookie pagination) conditions Hc)
    as [body Hq].
  destruct (queryAuditLogs_built api (withQueryText rt co) filters pagination w _ Hq)
    as [r Hrun].
  eexists _, r. split; [exact Hq|]. split; [exact Hrun|].
  clear Hq Hrun.
  unfold pagingAttrs.
  generalize (pretty (Model.pageSize pagination)) as size.
  generalize (pretty (Model.pageNumber pagination)) as page. intros page size.
  split.
  - rewrite !string_app_assoc, !string_prefix_app_l. apply string_prefix_app.
  - intros cookie -> ->. generalize (escapeXml cookie) as escaped. intros escaped.
    rewrite !string_app_assoc, !string_prefix_app_l.
    unfold auditEntity. rewrite (string_app_assoc " returntotalrecordcount=").
    apply string_prefix_app.
Qed.

(** X12. With the query text of the source, when a date of the filter is
    invalid (its conversion to ISO text throws), [queryAuditLogs] sends no
    request and returns the empty page, without an error. *)
Theorem invalid_date_gives_empty_page api co filters pagination w :
  (exists d e, fromDate filters = Some d /\ toISOString rt d = Throw e)
  \/ (exists d e, toDate filters = Some d /\ nextDayISOString rt d = Throw e) ->
  Service.queryAuditLogs api (withQueryText rt co) filters pagination w
  = (Return Service.emptyPage, w).
Proof.
  intros Hbad.
  assert (Hthrow : exists e,
    buildAuditFetchXml rt filters (Model.pageSize pagination) (Model.pageNumber pagination)
      (Model.pagingCookie pagination) = Throw e).
  { unfold buildAuditFetchXml, buildFetchXmlFilters, filterConditions,
      mbind, outcome_bind, Js.bind.
    destruct Hbad as [(d & e & -> & ->)|(d & e & -> & ->)]; [by eexists|].
    destruct (fromDate filters) as [d'|]; [destruct (toISOString rt d')|]; by eexists. }
  destruct Hthrow as [e He].
  by apply (queryAuditLogs_not_built api (withQueryText rt co) filters pagination w e).
Qed.

End QueryBuilding.

Lemma query_is_sent_when_dates_are_valid_witness :
  exists fetchXml r,
    Service.queryAuditLogs Fixtures.down
      (QueryText.withQueryText Samples.plainDates Fixtures.plain)
      Samples.sinceSomeDay initialPaginationState emptyWorld
    = (Return r, log (Request (FetchXmlQuery fetchXml)) emptyWorld)
    /\ String.prefix
         ("<fetch count=" ++ dq ++ "50" ++ dq ++ " page=" ++ dq ++ "1" ++ dq)
         fetchXml = true.
Proof.
  destruct (query_is_sent_when_dates_are_valid Samples.plainDates Fixtures.down
              Fixtures.plain Samples.sinceSomeDay initialPaginationState emptyWorld)
    as (fetchXml & r & _ & Hrun & Hprefix & _).
  { intros d _. exists d. reflexivity. }
  { intros d _. exists d. reflexivity. }
  exists fetchXml, r. split; [exact Hrun|exact Hprefix].
Defined.

Lemma invalid_date_gives_empty_page_witness :
  Service.queryAuditLogs Fixtures.down
    (QueryText.withQueryText Samples.invalidDates Fixtures.plain)
    Samples.sinceSomeDay initialPaginationState emptyWorld
  = (Return Service.emptyPage, emptyWorld).
Proof.
  apply (invalid_date_gives_empty_page Samples.invalidDates Fixtures.down Fixtures.plain
           Samples.sinceSomeDay initialPaginationState emptyWorld).
  left. exists "someday"%string, (Error "RangeError: Invalid time value").
  split; reflexivity.
Defined.

(** ** Principal names *)

Section PrincipalNames.
Import Principal.

Variable api : DataverseAPI.
Implicit Types (principalId : JsValue) (principalType : string) (w : World).

Lemma name_of_truthy response field : truthy_value (name_of response field) = true.
Proof.
  unfold name_of. destruct (truthy_value response); cbn; [|reflexivity].
  by destruct (truthy_value (get_prop response field)) eqn:H.
Qed.

(** A lookup always returns a non-empty name and never touches the
    details cache. *)
Lemma lookupPrincipalName_frame principalId principalType w :
  exists name w',
    lookupPrincipalName api principalId principalType w = (Return name, w')
    /\ truthy_value name = true
    /\ detailsCache w' = detailsCache w.
Proof.
  unfold lookupPrincipalName, gets, catch, mbind, M_bind, mbindM, mret, M_ret, ret.
  destruct (truthy_value _) eqn:Hc; [by eexists _, _|].
  unfold fetchPrincipalName, call_queryData, modify, mbind, M_bind, mbindM, mret, M_ret, ret.
  destruct (String.eqb principalType "systemuser").
  { destruct (queryData api _ _); eexists _, _; (split; [reflexivity|]);
      split; try done. apply name_of_truthy. }
  destruct (String.eqb principalType "team").
  { destruct (queryData api _ _); eexists _, _; (split; [reflexivity|]);
      split; try done. apply name_of_truthy. }
  by eexists _, _.
Qed.

(** X13. When the directory request for the principal does not throw,
    [lookupPrincipalName] returns a non-empty name and from then on the
    same lookup returns that name without any request and without any
    change of state, whatever the service would answer by then. *)
Theorem resolved_principal_name_is_cached principalId principalType w :
  (principalType = "systemuser"%string ->
   exists response,
     queryData api (trace w)
       ("systemusers(" ++ to_string principalId ++ ")?$select=fullname")%string
     = Return response) ->
  (principalType = "team"%string ->
   exists response,
     queryData api (trace w) ("teams(" ++ to_string principalId ++ ")?$select=name")%string
     = Return response) ->
  exists name w1,
    lookupPrincipalName api principalId principalType w = (Return name, w1)
    /\ truthy_value name = true
    /\ forall api', lookupPrincipalName api' principalId principalType w1 = (Return name, w1).
Proof.
  intros Huser Hteam.
  unfold lookupPrincipalName, gets, catch, mbind, M_bind, mbindM, mret, M_ret, ret.
  destruct (truthy_value (default JUndefined
              (principalNameCache w !! (principalType +:+ ":" +:+ to_string principalId))))
    eqn:Hc.
  { eexists _, _. split; [reflexivity|]. split; [exact Hc|]. intros api'. by rewrite Hc. }
  unfold fetchPrincipalName, call_queryData, modify, mbind, M_bind, mbindM, mret, M_ret, ret.
  destruct (String.eqb_spec principalType "systemuser") as [Hty|_].
  { destruct (Huser Hty) as [response ->].
    eexists _, _. split; [reflexivity|]. split; [apply name_of_truthy|].
    intros api'. cbn. rewrite lookup_insert_eq. cbn. by rewrite name_of_truthy. }
  destruct (String.eqb_spec principalType "team") as [Hty|_].
  { destruct (Hteam Hty) as [response ->].
    eexists _, _. split; [reflexivity|]. split; [apply name_of_truthy|].
    intros api'. cbn. rewrite lookup_insert_eq. cbn. by rewrite name_of_truthy. }
  eexists _, _. split; [reflexivity|]. split; [reflexivity|].
  intros api'. cbn. by rewrite lookup_insert_eq.
Qed.

(** X14. When the directory request for a user or a team throws,
    [lookupPrincipalName] returns [Unknown] and leaves the name cache as it
    was: the failure is not remembered, and the next lookup of the same
    principal sends the same request again. *)
Theorem failed_principal_lookup_is_not_cached principalId principalType w e :
  let url :=
    (if String.eqb principalType "systemuser"
     then "systemusers(" ++ to_string principalId ++ ")?$select=fullname"
     else "teams(" ++ to_string principalId ++ ")?$select=name")%string in
  truthy_value (default JUndefined
    (principalNameCache w !! (principalType ++ ":" ++ to_string principalId)%string)) = false ->
  principalType = "systemuser"%string \/ principalType = "team"%string ->
  queryData api (trace w) url = Throw e ->
  lookupPrincipalName api principalId principalType w
  = (Return (JStr "Unknown"), log (Request (QueryData url)) w)
  /\ principalNameCache (log (Request (QueryData url)) w) = principalNameCache w
  /\ forall api', exists name w2,
       lookupPrincipalName api' principalId principalType (log (Request (QueryData url)) w)
       = (Return name, w2)
       /\ trace w2 = trace w ++ [Request (QueryData url); Request (QueryData url)].
Proof.
  intros url Hc Hty Hdown.
  unfold lookupPrincipalName, gets, catch, mbind, M_bind, mbindM, mret, M_ret, ret.
  cbn [principalNameCache log]. rewrite Hc.
  unfold fetchPrincipalName, call_queryData, modify, mbind, M_bind, mbindM, mret, M_ret, ret.
  destruct Hty as [-> | ->]; cbn [String.eqb Ascii.eqb Bool.eqb] in *; subst url.
  - rewrite Hdown. split; [reflexivity|]. split; [reflexivity|].
    intros api'. destruct (queryData api' _ _); eexists _, _; (split; [reflexivity|]);
      cbn; by rewrite <- app_assoc.
  - rewrite Hdown. split; [reflexivity|]. split; [reflexivity|].
    intros api'. destruct (queryData api' _ _); eexists _, _; (split; [reflexivity|]);
      cbn; by rewrite <- app_assoc.
Qed.

End PrincipalNames.

Lemma resolved_principal_name_is_cached_witness :
  exists name w1,
    Principal.lookupPrincipalName Samples.usersOnly (JStr "U1") "systemuser" emptyWorld
    = (Return name, w1)
    /\ Principal.lookupPrincipalName Fixtures.down (JStr "U1") "systemuser" w1
       = (Return name, w1).
Proof.
  destruct (resolved_principal_name_is_cached Samples.usersOnly (JStr "U1") "systemuser"
              emptyWorld) as (name & w1 & Hrun & _ & Hagain).
  { intros _. eexists. reflexivity. }
  { intros Hty. discriminate Hty. }
  exists name, w1. split; [exact Hrun|apply Hagain].
Defined.

Lemma failed_principal_lookup_is_not_cached_witness :
  Principal.lookupPrincipalName Samples.usersOnly (JStr "T1") "team" emptyWorld
  = (Return (JStr "Unknown"),
     log (Request (QueryData "teams(T1)?$select=name")) emptyWorld).
Proof.
  destruct (failed_principal_lookup_is_not_cached Samples.usersOnly (JStr "T1") "team"
              emptyWorld (Error "network")) as (Hrun & _).
  { reflexivity. }
  { right. reflexivity. }
  { reflexivity. }
  exact Hrun.
Defined.

(** ** Access rights *)

Section AccessRightsLabels.
Import AccessRights.

Lemma formatAccessRightsFromNumber_cases value :
  (formatAccessRightsFromNumber value = "None"%string
   <-> Forall (fun mask => bit_and value mask = 0)
         [Read; Write; Append; AppendTo; Create; Delete; Share; Assign])
  /\ truthy_string (formatAccessRightsFromNumber value) = true.
Proof.
  unfold formatAccessRightsFromNumber.
  destruct (Z.eqb_spec value 0) as [->|Hv].
  { split; [|reflexivity]. split; [intros _|done]. repeat constructor. }
  unfold flag, truthy_num.
  destruct (Z.eqb_spec (bit_and value Read) 0) as [H1|H1];
  destruct (Z.eqb_spec (bit_and value Write) 0) as [H2|H2];
  destruct (Z.eqb_spec (bit_and value Append) 0) as [H3|H3];
  destruct (Z.eqb_spec (bit_and value AppendTo) 0) as [H4|H4];
  destruct (Z.eqb_spec (bit_and value Create) 0) as [H5|H5];
  destruct (Z.eqb_spec (bit_and value Delete) 0) as [H6|H6];
  destruct (Z.eqb_spec (bit_and value Share) 0) as [H7|H7];
  destruct (Z.eqb_spec (bit_and value Assign) 0) as [H8|H8];
  cbn [negb app length Nat.ltb Nat.leb String.concat];
  (split; [|reflexivity]);
  (split;
   [ try discriminate; intros _; repeat constructor; assumption
   | intros HF; try reflexivity; exfalso;
     repeat match goal with
            | H : Forall _ (_ :: _) |- _ => inversion H; clear H; subst
            end; contradiction ]).
Qed.

Lemma or_None_truthy s : truthy_string (or_None s) = true.
Proof. unfold or_None. by destruct s. Qed.

Lemma formatAccessRights_truthy rights : truthy_string (formatAccessRights rights) = true.
Proof.
  destruct rights; cbn [formatAccessRights]; try reflexivity; try apply or_None_truthy.
  - apply formatAccessRightsFromNumber_cases.
  - destruct (parseInt10 s); [apply formatAccessRightsFromNumber_cases|apply or_None_truthy].
  - destruct (nullish_else _ _); first [apply formatAccessRightsFromNumber_cases
                                       | apply or_None_truthy].
  - destruct (nullish_else _ _); first [apply formatAccessRightsFromNumber_cases
                                       | apply or_None_truthy].
Qed.

(** X15. The text [formatAccessRights] returns is never empty.  For a
    number it is [None] exactly when none of the eight flag bits is set;
    and the same rights give the same text whether they come as a number,
    as the decimal text of that number (for a number of at most [2^53] in
    absolute value, which [parseInt] reads back exactly), or wrapped in an
    object under [Value] or [value]. *)
Theorem access_rights_text rights value n :
  truthy_string (formatAccessRights rights) = true
  /\ (formatAccessRightsFromNumber value = "None"%string
      <-> Forall (fun mask => bit_and value mask = 0)
            [Read; Write; Append; AppendTo; Create; Delete; Share; Assign])
  /\ (Z.abs n <= 2 ^ 53 ->
      formatAccessRights (JStr (pretty n)) = formatAccessRights (JNum n))
  /\ formatAccessRights (JObj [("Value"%string, JNum n)]) = formatAccessRights (JNum n)
  /\ formatAccessRights (JObj [("value"%string, JNum n)]) = formatAccessRights (JNum n).
Proof.
  split; [apply formatAccessRights_truthy|].
  split; [apply formatAccessRightsFromNumber_cases|].
  split; [|split; reflexivity].
  intros _. cbn [formatAccessRights]. by rewrite parseInt10_pretty.
Qed.

End AccessRightsLabels.

Lemma access_rights_text_witness :
  AccessRights.formatAccessRights (JStr (pretty 3)) = "Read, Write"%string.
Proof.
  destruct (access_rights_text JNull 0 3) as (_ & _ & Htext & _).
  rewrite Htext; [reflexivity|]. vm_compute. discriminate.
Defined.

(** ** Share details and the details cache *)

Section ShareDetails.
Import Parsers.

Variables (api : DataverseAPI) (co : Collaborators).
Implicit Types (auditDetail : JsValue) (w : World).

Lemma parseShareAuditDetail_outcome auditDetail w :
  exists details w',
    parseShareAuditDetail api auditDetail w = (Return details, w')
    /\ detailsCache w' = detailsCache w
    /\ (details = []
        \/ exists d,
             details = [share d]
             /\ truthy_value (principalName d) = true
             /\ oldPrivileges d
                = AccessRights.formatAccessRights (get_prop auditDetail "OldPrivileges")
             /\ newPrivileges d
                = AccessRights.formatAccessRights (get_prop auditDetail "NewPrivileges")).
Proof.
  unfold parseShareAuditDetail.
  pose proof (lookupPrincipalName_frame api) as HL.
  unfold catch, mbind, M_bind, mbindM, lift, mret, M_ret, ret, throw, Js.get.
  destruct auditDetail eqn:Had; try (by eexists _, _; split; [reflexivity|]; split; [done|left]).
  all: cbn beta iota.
  all: match goal with
       | |- context [truthy_value ?p] =>
           destruct (truthy_value p) eqn:Hprincipal
       end.
  all: try (eexists _, _; split; [reflexivity|]; split; [done|right];
            eexists; split; [reflexivity|]; cbn; done).
  all: match goal with
       | |- context [or_else ?a ?b] => destruct (or_else a b) eqn:Hty
       end.
  all: try (by eexists _, _; split; [reflexivity|]; split; [done|left]).
  all: cbn beta iota.
  all: match goal with
       | |- context [if ?c then Principal.lookupPrincipalName api ?pid ?pty else _] =>
           destruct c eqn:Hlookup;
           [destruct (HL pid pty w) as (name & w1 & Hl & Hname & Hframe); rewrite Hl|]
       end.
  all: cbn beta iota.
  all: match goal with
       | |- context [if ?c then (if truthy_value ?pid then _ else _) else _] =>
           destruct c eqn:Hfallback; [destruct (truthy_value pid) eqn:Hpid; [destruct pid|]|]
       end.
  all: try (by eexists _, _; split; [reflexivity|]; split; [done|left]).
  all: eexists _, _; (split; [reflexivity|]); (split; [done|right]);
       eexists; (split; [reflexivity|]); cbn [principalName oldPrivileges newPrivileges];
       repeat split; try done.
  all: try (by destruct (String.eqb _ "team")).
  all: try (apply orb_false_elim in Hfallback as [Hf _]; by apply negb_false_iff in Hf).
Qed.

(** X16. [parseShareAuditDetail] never throws, leaves the details cache
    alone and returns at most one detail.  The principal name of that
    detail is never empty and its two privilege texts are the non-empty
    [formatAccessRights] of the envelope's [OldPrivileges] and
    [NewPrivileges].  For an envelope without principal nothing is
    requested and the detail names the principal [Unknown], of type
    [systemuser], with an empty id. *)
Theorem share_detail_names_its_principal auditDetail w :
  exists details w',
    parseShareAuditDetail api auditDetail w = (Return details, w')
    /\ detailsCache w' = detailsCache w
    /\ (details = []
        \/ exists d,
             details = [share d]
             /\ truthy_value (principalName d) = true
             /\ truthy_string (oldPrivileges d) = true
             /\ truthy_string (newPrivileges d) = true
             /\ oldPrivileges d
                = AccessRights.formatAccessRights (get_prop auditDetail "OldPrivileges")
             /\ newPrivileges d
                = AccessRights.formatAccessRights (get_prop auditDetail "NewPrivileges"))
    /\ (auditDetail <> JNull -> auditDetail <> JUndefined ->
        truthy_value (get_prop auditDetail "Principal") = false ->
        w' = w
        /\ details
           = [share {| principalId := JStr EmptyString;
                       principalName := JStr "Unknown";
                       principalType := "systemuser";
                       oldPrivileges :=
                         AccessRights.formatAccessRights
                           (get_prop auditDetail "OldPrivileges");
                       newPrivileges :=
                         AccessRights.formatAccessRights
                           (get_prop auditDetail "NewPrivileges") |}]).
Proof.
  destruct (parseShareAuditDetail_outcome auditDetail w)
    as (details & w' & Hrun & Hframe & Hshape).
  exists details, w'. split; [exact Hrun|]. split; [exact Hframe|]. split.
  - destruct Hshape as [->|(d & -> & Hname & Hold & Hnew)]; [by left|right].
    exists d. split; [reflexivity|]. split; [exact Hname|].
    rewrite Hold, Hnew.
    pose proof (formatAccessRights_truthy (get_prop auditDetail "OldPrivileges")) as Ho.
    pose proof (formatAccessRights_truthy (get_prop auditDetail "NewPrivileges")) as Hn.
    by repeat split.
  - intros Hnull Hundef Hprincipal. revert Hrun.
    unfold parseShareAuditDetail, catch, mbind, M_bind, mbindM, lift, mret, M_ret, ret,
      Js.get.
    destruct auditDetail; try done; cbn beta iota; rewrite Hprincipal;
      by intros [= <- <-].
Qed.

(** The dispatcher leaves the details cache alone, whichever parser it
    selects and however that parser ends. *)
Lemma parseAuditDetail_frame auditDetail entity attributeMap w :
  detailsCache (snd (parseAuditDetail api co auditDetail entity attributeMap w))
  = detailsCache w.
Proof.
  unfold parseAuditDetail, mbind, M_bind, mbindM, lift, mret, M_ret, ret.
  destruct (Js.get auditDetail "@odata.type") as [t|e]; [|reflexivity].
  destruct (odataIncludes _ "ShareAuditDetail") as [[|]|e]; [| |reflexivity].
  { destruct (parseShareAuditDetail_outcome auditDetail w) as (ds & w' & -> & Hframe & _).
    exact Hframe. }
  destruct (odataIncludes _ "RolePrivilegeAuditDetail") as [[|]|e]; [| |reflexivity].
  { by destruct (parseRolePrivilegeAuditDetail co auditDetail). }
  destruct (odataIncludes _ "UserAccessAuditDetail") as [[|]|e]; [reflexivity| |reflexivity].
  destruct (odataIncludes _ "RelationshipAuditDetail") as [[|]|e]; [| |reflexivity].
  { by destruct (parseRelationshipAuditDetail co auditDetail). }
  by destruct (_ || _).
Qed.

(** X17. [getAuditDetails] never throws and changes the details cache at
    no other id than the one asked for.  What it returns is what the cache
    holds for that id afterwards, so that [getCachedDetails] gives it back;
    the one exception is a [null] answer of the service, for which it
    returns no detail and leaves the cache as it was. *)
Theorem getAuditDetails_result_is_cached auditId entityLogicalName entry w :
  exists details w',
    Service.getAuditDetails api co auditId entityLogicalName entry w = (Return details, w')
    /\ (forall other, other <> auditId -> detailsCache w' !! other = detailsCache w !! other)
    /\ (fst (Service.getCachedDetails auditId w') = Return (Some details)
        \/ details = [] /\ detailsCache w' = detailsCache w
           /\ exists response,
                execute api (trace w) "RetrieveAuditDetails" "audit" auditId = Return response
                /\ truthy_value response = false).
Proof.
  assert (Hretrieve :
    exists out w',
      Service.retrieveAuditDetails api co auditId entityLogicalName w = (out, w')
      /\ match out with
         | Throw _ => detailsCache w' = detailsCache w
         | Return details =>
             detailsCache w' = <[auditId := details]> (detailsCache w)
             \/ details = [] /\ detailsCache w' = detailsCache w
                /\ exists response,
                     execute api (trace w) "RetrieveAuditDetails" "audit" auditId
                     = Return response
                     /\ truthy_value response = false
         end).
  { unfold Service.retrieveAuditDetails, call_execute, modify, mbind, M_bind, mbindM, lift,
      mret, M_ret, ret.
    destruct (execute api (trace w) _ _ auditId) as [response|e] eqn:Hexec;
      [|by eexists _, _].
    destruct (truthy_value response) eqn:Hresponse; cbn [negb].
    2: { eexists _, _. split; [reflexivity|]. right. split; [done|]. split; [done|].
         by exists response. }
    destruct (truthy_value (or_else _ _)); cbn [negb].
    2: { eexists _, _. split; [reflexivity|]. by left. }
    destruct (getAttributeMap co entityLogicalName) as [attributeMap|e];
      [|by eexists _, _].
    pose proof (parseAuditDetail_frame
                  (or_else (get_prop response "AuditDetail") response)
                  entityLogicalName attributeMap
                  (log (Request (Execute "RetrieveAuditDetails" "audit" auditId)) w))
      as Hframe.
    destruct (parseAuditDetail _ _ _ _ _ _) as [[details|e] w1]; cbn [snd] in Hframe.
    - eexists _, _. split; [reflexivity|]. left. cbn. by rewrite Hframe.
    - eexists _, _. split; [reflexivity|]. exact Hframe. }
  destruct Hretrieve as (out & w1 & Hrun & Hout).
  unfold Service.getCachedDetails, gets. cbn [fst].
  unfold Service.getAuditDetails, catch, modify, mbind, M_bind, mbindM, lift,
    mret, M_ret, ret.
  assert (Hvia :
    exists details w',
      match out with
      | Return a => (Return a, w1)
      | Throw e => (Return [], set_detailsCache auditId [] w1)
      end = (Return details, w')
      /\ (forall other, other <> auditId -> detailsCache w' !! other = detailsCache w !! other)
      /\ (Return (detailsCache w' !! auditId) = Return (Some details)
          \/ details = [] /\ detailsCache w' = detailsCache w
             /\ exists response,
                  execute api (trace w) "RetrieveAuditDetails" "audit" auditId
                  = Return response
                  /\ truthy_value response = false)).
  { destruct out as [details|e].
    - exists details, w1. split; [reflexivity|].
      destruct Hout as [Hc|(-> & Hc & Hresp)].
      + rewrite Hc. split; [intros other Hne; by rewrite lookup_insert_ne|].
        left. by rewrite lookup_insert_eq.
      + rewrite Hc. split; [done|]. right. done.
    - eexists _, _. split; [reflexivity|]. cbn. rewrite Hout.
      split; [intros other Hne; by rewrite lookup_insert_ne|].
      left. by rewrite lookup_insert_eq. }
  destruct entry as [en|]; [|by rewrite Hrun].
  destruct (Service.isMetadataEntry (Some en)); [|by rewrite Hrun].
  destruct (parseMetadataAuditDetail co en) as [details|e];
    eexists _, _; (split; [reflexivity|]); cbn;
    (split; [intros other Hne; by rewrite lookup_insert_ne
            |left; by rewrite lookup_insert_eq]).
Qed.

End ShareDetails.

(** ** Attribute rows *)

Section AttributeRows.
Import Parsers.

Implicit Types (auditDetail oldValues newValues : JsValue)
  (attributeMap : gmap string AttributeOption).

(** What [parseAttributeAuditDetail] returns: the rows of the loop over the
    two merged maps, or nothing. *)
Lemma parseAttributeAuditDetail_rows auditDetail attributeMap :
  parseAttributeAuditDetail auditDetail attributeMap = []
  \/ exists oldValues newValues,
       mergeValues (get_prop auditDetail "OldValue") = Return oldValues
       /\ mergeValues (get_prop auditDetail "NewValue") = Return newValues
       /\ parseAttributeAuditDetail auditDetail attributeMap
          = attributeRows oldValues newValues attributeMap.
Proof.
  unfold parseAttributeAuditDetail, Js.get, mbind, outcome_bind, Js.bind.
  destruct auditDetail; try (by left).
  all: destruct (mergeValues (get_prop _ "OldValue")) as [o|]; [|by left].
  all: destruct (mergeValues (get_prop _ "NewValue")) as [n|]; [|by left].
  all: right; by exists o, n.
Qed.

(** X18. Whatever the envelope, the rows [parseAttributeAuditDetail]
    returns have pairwise distinct attribute names, none of which starts
    with [@] or [_]; the display name of a row is the one the attribute map
    holds for its name when that is non-empty, and the attribute name
    itself otherwise. *)
Theorem attribute_rows_are_distinct_and_named auditDetail attributeMap :
  List.NoDup (List.map attributeName (parseAttributeAuditDetail auditDetail attributeMap))
  /\ forall d,
       In d (parseAttributeAuditDetail auditDetail attributeMap) ->
       isMetadataKey (attributeName d) = false
       /\ attributeDisplayName d = resolveDisplayName attributeMap (attributeName d)
       /\ (attributeMap !! attributeName d = None -> attributeDisplayName d = attributeName d).
Proof.
  destruct (parseAttributeAuditDetail_rows auditDetail attributeMap)
    as [->|(o & n & _ & _ & ->)].
  { split; [constructor|intros d []]. }
  split; [apply attributeRows_one_row_per_key|].
  intros d Hd. split; [by eapply attributeRows_skip_metadata|].
  pose proof (attributeRows_display_name _ _ _ _ Hd) as Hname.
  split; [exact Hname|]. intros Hnone. rewrite Hname. by apply resolveDisplayName_fallback.
Qed.

Lemma attributeRows_values oldValues newValues attributeMap d :
  In d (attributeRows oldValues newValues attributeMap) ->
  oldValue d = formatAuditValue (get_prop oldValues (attributeName d)) oldValues (attributeName d)
  /\ newValue d
     = formatAuditValue (get_prop newValues (attributeName d)) newValues (attributeName d).
Proof.
  unfold attributeRows. rewrite in_flat_map. intros (k & _ & Hd).
  unfold attributeRow in Hd. destruct (isMetadataKey k); [done|].
  destruct (_ && _); [done|]. destruct Hd as [<-|[]]. done.
Qed.

(** X19. For an envelope whose old and new values merge into the objects
    [oldValues] and [newValues], none of whose keys names a member of
    [Object.prototype], and whose [Attributes] arrays do not assign
    [__proto__] (so that the two maps keep the prototype they were created
    with, and looking a key up in them finds their own properties only): a
    key gets a row exactly when it is a key of one of the two maps, does
    not start with [@] or [_], and is defined in at least one of them --
    whether or not the two values differ; the two values of a row are the
    formatted values of its key in the two maps. *)
Theorem attribute_row_for_every_defined_key auditDetail attributeMap
    (oldValues newValues : list (string * JsValue)) k :
  auditDetail <> JNull -> auditDetail <> JUndefined ->
  writesPrototype (get_prop auditDetail "OldValue") = false ->
  writesPrototype (get_prop auditDetail "NewValue") = false ->
  mergeValues (get_prop auditDetail "OldValue") = Return (JObj oldValues) ->
  mergeValues (get_prop auditDetail "NewValue") = Return (JObj newValues) ->
  Forall (fun key => inherited key = false) (map fst oldValues ++ map fst newValues) ->
  (In k (List.map attributeName (parseAttributeAuditDetail auditDetail attributeMap))
   <-> (In k (map fst oldValues) \/ In k (map fst newValues))
       /\ isMetadataKey k = false
       /\ (Js.assoc k oldValues <> JUndefined \/ Js.assoc k newValues <> JUndefined))
  /\ forall d,
       In d (parseAttributeAuditDetail auditDetail attributeMap) ->
       inherited (attributeName d) = false
       /\ oldValue d
          = formatAuditValue (Js.assoc (attributeName d) oldValues) (JObj oldValues)
              (attributeName d)
       /\ newValue d
          = formatAuditValue (Js.assoc (attributeName d) newValues) (JObj newValues)
              (attributeName d).
Proof.
  intros Hnull Hundef _ _ Hold Hnew Hkeys.
  assert (Hparse : parseAttributeAuditDetail auditDetail attributeMap
                   = attributeRows (JObj oldValues) (JObj newValues) attributeMap).
  { unfold parseAttributeAuditDetail, Js.get, mbind, outcome_bind, Js.bind.
    destruct auditDetail; try done; by rewrite Hold, Hnew. }
  rewrite Hparse. split.
  - rewrite attributeRows_names, filter_In. unfold allAttributes.
    rewrite dedup_keys_In, andb_true_iff, !negb_true_iff, andb_false_iff.
    unfold is_undefined, keys, own_props. cbn [get_prop]. rewrite in_app_iff.
    split.
    + intros [[Hin _] [Hmeta Hdef]]. split; [exact Hin|]. split; [exact Hmeta|].
      destruct Hdef as [Hdef|Hdef]; [left|right]; intros Heq; by rewrite Heq in Hdef.
    + intros (Hin & Hmeta & Hdef). split; [split; [exact Hin|by intros []]|].
      split; [exact Hmeta|].
      destruct Hdef as [Hdef|Hdef]; [left|right];
        match goal with |- match ?v with _ => _ end = _ => by destruct v end.
  - intros d Hd. split; [|by apply attributeRows_values in Hd].
    apply (List.in_map attributeName) in Hd.
    rewrite attributeRows_names in Hd. apply List.filter_In in Hd as [Hd _].
    unfold allAttributes in Hd. apply dedup_keys_In in Hd as [Hd _].
    rewrite List.Forall_forall in Hkeys. by apply Hkeys.
Qed.

(** [set_prop] on a key that is not there yet, and that is neither an
    array index nor [__proto__], appends. *)
Lemma set_prop_fresh k x props :
  k <> "__proto__"%string -> array_index k = None ->
  ~ In k (map fst props) -> set_prop k x props = props ++ [(k, x)].
Proof.
  intros Hproto Hindex Hnot. unfold set_prop.
  destruct (String.eqb_spec k "__proto__"); [done|].
  destruct (existsb (String.eqb k) (map fst props)) eqn:Hin.
  { apply existsb_eqb_In in Hin. contradiction. }
  by rewrite Hindex.
Qed.

Lemma put_index_perm i k x props : put_index i k x props ≡ₚ (k, x) :: props.
Proof.
  induction props as [|[k' v] props IH]; cbn [put_index]; [done|].
  destruct (array_index k') as [j|]; [|done].
  destruct (j <? i); [|done].
  rewrite IH. apply Permutation_swap.
Qed.

(** In any case a key that is not there yet is added, somewhere. *)
Lemma set_prop_new k x props :
  k <> "__proto__"%string -> ~ In k (map fst props) -> set_prop k x props ≡ₚ props ++ [(k, x)].
Proof.
  intros Hproto Hnot. unfold set_prop.
  destruct (String.eqb_spec k "__proto__"); [done|].
  destruct (existsb (String.eqb k) (map fst props)) eqn:Hin.
  { apply existsb_eqb_In in Hin. contradiction. }
  destruct (array_index k) as [i|]; [|done].
  rewrite put_index_perm. apply Permutation_cons_append.
Qed.

(** The loop over an [Attributes] array of well-formed entries. *)
Lemma collectAttributes_entries (kvs : list (string * JsValue)) :
  forall values,
    List.NoDup (map fst values ++ map fst kvs) ->
    Forall (fun kv => truthy_string (fst kv) = true /\ fst kv <> "__proto__"%string) kvs ->
    exists props,
      collectAttributes (map Samples.attributeEntry kvs) values = Return props
      /\ props ≡ₚ values ++ kvs
      /\ (Forall (fun kv => array_index (fst kv) = None) kvs -> props = values ++ kvs).
Proof.
  induction kvs as [|[k v] kvs IH]; intros values Hnodup Hkeys; cbn [map collectAttributes].
  { exists values. by rewrite app_nil_r. }
  inversion Hkeys as [|? ? [Hk Hproto] Hrest]; subst. cbn in Hk, Hproto.
  unfold Samples.attributeEntry at 1. cbn. rewrite Hk.
  assert (Hfresh : ~ In k (map fst values)).
  { cbn in Hnodup. apply List.NoDup_remove_2 in Hnodup. rewrite in_app_iff in Hnodup. tauto. }
  pose proof (set_prop_new k v values Hproto Hfresh) as Hperm.
  destruct (IH (set_prop k v values)) as (props & Hrun & Hall & Hordered).
  { rewrite Hperm, map_app. cbn [map fst]. rewrite <- app_assoc. exact Hnodup. }
  { exact Hrest. }
  exists props. split; [exact Hrun|]. split.
  - rewrite Hall, Hperm, <- app_assoc. done.
  - intros Hplain. inversion Hplain as [|? ? Hindex Hplain']; subst. cbn in Hindex.
    rewrite (Hordered Hplain'), set_prop_fresh by done. by rewrite <- app_assoc.
Qed.

(** X20. The two shapes of [OldValue]/[NewValue] read the same: an
    [Attributes] array of [{key, value}] entries with distinct non-empty
    keys other than [__proto__] merges into a map that holds exactly these
    keys, each with its value; when no key is an array index the
    properties of the map stand in the order of the entries, and the map is
    the one the flat object with those properties merges into. *)
Theorem attributes_array_reads_as_flat_map (kvs : list (string * JsValue)) :
  List.NoDup (map fst kvs) ->
  Forall (fun kv => truthy_string (fst kv) = true /\ fst kv <> "__proto__"%string) kvs ->
  (exists props,
      mergeValues (JObj [("Attributes"%string, JArr (map Samples.attributeEntry kvs))])
      = Return (JObj props)
      /\ props ≡ₚ kvs
      /\ (Forall (fun kv => array_index (fst kv) = None) kvs -> props = kvs))
  /\ ((forall items, Js.assoc "Attributes" kvs <> JArr items) ->
      mergeValues (JObj kvs) = Return (JObj kvs)).
Proof.
  intros Hnodup Hkeys. split.
  - unfold mergeValues. cbn [truthy_value get_prop Js.assoc String.eqb Ascii.eqb Bool.eqb].
    destruct (collectAttributes_entries kvs [] Hnodup Hkeys) as (props & -> & Hperm & Hordered).
    by exists props.
  - intros Hflat. unfold mergeValues. cbn [truthy_value get_prop typeof].
    destruct (Js.assoc "Attributes" kvs) eqn:Ha; try reflexivity.
    by destruct (Hflat items).
Qed.

(** A key that is an array index moves in front of the other keys. *)
Lemma index_key_is_listed_first :
  mergeValues
    (JObj [("Attributes"%string,
            JArr [JObj [("key"%string, JStr "b"); ("value"%string, JNum 1)];
                  JObj [("key"%string, JStr "1"); ("value"%string, JNum 2)]])])
  = Return (JObj [("1"%string, JNum 2); ("b"%string, JNum 1)]).
Proof. reflexivity. Qed.

Lemma collectAttributes_null attrs :
  In JNull attrs \/ In JUndefined attrs ->
  forall values, exists e, collectAttributes attrs values = Throw e.
Proof.
  induction attrs as [|attr attrs IH]; intros Hin values; [destruct Hin as [[]|[]]|].
  cbn [collectAttributes].
  destruct attr; try (by eexists).
  all: cbn [Js.get mbind outcome_bind Js.bind].
  all: destruct (truthy_value _); apply IH; destruct Hin as [[?|?]|[?|?]]; try done; tauto.
Qed.

(** X21. One [null] or [undefined] entry in the [Attributes] array of
    [OldValue] or of [NewValue] makes [parseAttributeAuditDetail] return no
    row at all: the exception raised on that entry is swallowed together
    with every row of the envelope. *)
Theorem null_attribute_entry_drops_every_row auditDetail attributeMap attrs :
  get_prop (get_prop auditDetail "OldValue") "Attributes" = JArr attrs
  \/ (get_prop (get_prop auditDetail "NewValue") "Attributes" = JArr attrs) ->
  In JNull attrs \/ In JUndefined attrs ->
  parseAttributeAuditDetail auditDetail attributeMap = [].
Proof.
  intros Hshape Hnull.
  unfold parseAttributeAuditDetail, Js.get, mbind, outcome_bind, Js.bind.
  destruct auditDetail; try reflexivity.
  all: unfold mergeValues.
  all: destruct Hshape as [Hshape|Hshape].
  all: try (destruct (truthy_value (get_prop _ "OldValue")) eqn:Hold;
         [|by destruct (get_prop _ "OldValue")]).
  all: try (rewrite Hshape; destruct (collectAttributes_null attrs Hnull []) as [e ->];
            reflexivity).
  all: match goal with
       | |- context [match ?m with Return a => _ | Throw e => Throw e end] =>
           destruct m; [|reflexivity]
       end.
  all: destruct (truthy_value (get_prop _ "NewValue")) eqn:Hnew;
         [|by destruct (get_prop _ "NewValue")].
  all: rewrite Hshape; destruct (collectAttributes_null attrs Hnull []) as [e ->];
       reflexivity.
Qed.

End AttributeRows.

Lemma attribute_row_for_every_defined_key_witness :
  In "city"%string
     (List.map attributeName (Parsers.parseAttributeAuditDetail Samples.renamed ∅))
  /\ In "name"%string
       (List.map attributeName (Parsers.parseAttributeAuditDetail Samples.renamed ∅)).
Proof.
  assert (Hkeys : Forall (fun key => inherited key = false)
                    (map fst [("name"%string, JStr "A")]
                     ++ map fst [("name"%string, JStr "B"); ("city"%string, JStr "C")])).
  { repeat constructor. }
  split.
  - destruct (attribute_row_for_every_defined_key Samples.renamed ∅
                [("name"%string, JStr "A")]
                [("name"%string, JStr "B"); ("city"%string, JStr "C")]
                "city" ltac:(discriminate) ltac:(discriminate)
                eq_refl eq_refl eq_refl eq_refl Hkeys) as [Hrow _].
    apply Hrow. split; [right; right; left; reflexivity|].
    split; [reflexivity|right; discriminate].
  - destruct (attribute_row_for_every_defined_key Samples.renamed ∅
                [("name"%string, JStr "A")]
                [("name"%string, JStr "B"); ("city"%string, JStr "C")]
                "name" ltac:(discriminate) ltac:(discriminate)
                eq_refl eq_refl eq_refl eq_refl Hkeys) as [Hrow _].
    apply Hrow. split; [left; left; reflexivity|].
    split; [reflexivity|left; discriminate].
Defined.

Lemma attributes_array_reads_as_flat_map_witness :
  Parsers.mergeValues
    (JObj [("Attributes"%string,
            JArr [JObj [("key"%string, JStr "name"); ("value"%string, JStr "A")];
                  JObj [("key"%string, JStr "city"); ("value"%string, JStr "C")]])])
  = Return (JObj [("name"%string, JStr "A"); ("city"%string, JStr "C")]).
Proof.
  destruct (attributes_array_reads_as_flat_map
              [("name"%string, JStr "A"); ("city"%string, JStr "C")])
    as [(props & Hmerge & _ & Hordered) _].
  { repeat constructor; cbn; intuition discriminate. }
  { repeat constructor; discriminate. }
  rewrite Hordered in Hmerge by repeat constructor. exact Hmerge.
Defined.

Lemma null_attribute_entry_drops_every_row_witness :
  Parsers.parseAttributeAuditDetail Samples.brokenAttributes ∅ = [].
Proof.
  apply (null_attribute_entry_drops_every_row Samples.brokenAttributes ∅ [JNull]).
  - left. reflexivity.
  - left. left. reflexivity.
Defined.

(** ** Metadata changes *)

Section MetadataChanges.
Import MetadataParser.

Variable rt : Runtime.
Implicit Types (entry : AuditLogEntry).

(** X22. [parseMetadataAuditDetail] returns exactly one detail for every
    entry.  It carries the action of the entry and its change data (none
    when empty); [auditEnabled] is set exactly for the actions 102 to 104
    whose change data, in lower case and trimmed, reads [true] or [false],
    to that value; and no attribute is named for an action other than
    103. *)
Theorem metadata_change_yields_one_detail entry :
  exists d,
    parseMetadataAuditDetail rt entry = [d]
    /\ metadata_action d = entry_action entry
    /\ metadata_changeData d = (if truthy (changeData entry) then changeData entry else None)
    /\ (forall b,
          auditEnabled d = Some b
          <-> 102 <= entry_action entry <= 104
              /\ exists text,
                   changeData entry = Some text /\ truthy_string text = true
                   /\ trim (toLowerCase text) = if b then "true"%string else "false"%string)
    /\ (entry_action entry <> 103 ->
        metadata_attributeDisplayName d = None /\ attributeLogicalName d = None).
Proof.
  eexists. split; [reflexivity|]. cbn [metadata_action metadata_changeData auditEnabled
    metadata_attributeDisplayName attributeLogicalName].
  split; [reflexivity|]. split; [reflexivity|]. split.
  - intros b. unfold readAuditEnabled.
    destruct (Z.leb_spec 102 (entry_action entry));
      destruct (Z.leb_spec (entry_action entry) 104); cbn [andb];
      try (split; [discriminate|intros [? _]; lia]).
    destruct (changeData entry) as [text|]; cbn [truthy];
      [|split; [discriminate|by intros (_ & ? & [=] & _)]].
    change (default EmptyString (Some text)) with text.
    destruct (truthy_string text) eqn:Htext;
      [|split; [discriminate|intros (_ & ? & [= <-] & ? & _); congruence]].
    destruct (String.eqb_spec (trim (toLowerCase text)) "true") as [Ht|Ht]; cbv iota.
    { split.
      - intros [= Hb]. subst b. split; [lia|]. by exists text.
      - intros (_ & ? & [= <-] & _ & Heq). destruct b; [done|]. congruence. }
    destruct (String.eqb_spec (trim (toLowerCase text)) "false") as [Hf|Hf]; cbv iota.
    { split.
      - intros [= Hb]. subst b. split; [lia|]. by exists text.
      - intros (_ & ? & [= <-] & _ & Heq). destruct b; [congruence|done]. }
    split; [discriminate|]. intros (_ & ? & [= <-] & _ & Heq). destruct b; congruence.
  - intros Hother. unfold lookupAttribute.
    destruct (Z.eqb_spec (entry_action entry) 103); [done|]. done.
Qed.

(** The white space [trim] removes includes the no-break space. *)
Lemma no_break_space_is_trimmed :
  readAuditEnabled 102 (Some ("True" ++ String (ascii_of_nat 160) EmptyString)%string)
  = Some true.
Proof. reflexivity. Qed.

(** X23. Scenario C, for every column: for an entry of action 103 on a
    table, whose attribute mask is the decimal text of a column number,
    when the attribute list of the table holds an attribute with that
    column number, the detail is labelled [Audit Change at Attribute Level]
    and names the first such attribute by its display name and its logical
    name. *)
Theorem audited_column_is_resolved entry column attributes a :
  entry_action entry = 103 ->
  attributeMask entry = Some (pretty column) ->
  truthy_string (objectTypeCode entry) = true ->
  getEntityAttributes rt (objectTypeCode entry) = Return attributes ->
  List.find (fun x => match columnNumber x with
                      | Some n => n =? column
                      | None => false
                      end) attributes = Some a ->
  exists d,
    parseMetadataAuditDetail rt entry = [d]
    /\ metadata_actionLabel d = "Audit Change at Attribute Level"%string
    /\ metadata_attributeDisplayName d = Some (displayName a)
    /\ attributeLogicalName d = Some (logicalName a).
Proof.
  intros Haction Hmask Htable Hattributes Hfound.
  eexists. split; [reflexivity|].
  cbn [metadata_actionLabel metadata_attributeDisplayName attributeLogicalName].
  assert (Hlookup : lookupAttribute rt entry = Some a).
  { unfold lookupAttribute, getAttributeByColumnNumber.
    rewrite Haction, Hmask, Htable. cbn [Z.eqb Pos.eqb andb truthy].
    change (default EmptyString (Some (pretty column))) with (pretty column).
    rewrite parseInt10_pretty.
    assert (Hne : truthy_string (pretty column) = true).
    { pose proof (parseInt10_pretty column) as Hp.
      destruct (pretty column); [discriminate Hp|reflexivity]. }
    rewrite Hne, Hattributes. cbn [andb mbind outcome_bind Js.bind]. exact Hfound. }
  rewrite Hlookup, Haction. split; [reflexivity|]. split; reflexivity.
Qed.

(** X24. With the metadata parser of the source, the details of an entry
    whose action is one of 100 to 104 are computed from the entry (and, for
    action 103, the attribute list of its table): [getAuditDetails] does
    not call [RetrieveAuditDetails] nor send any query, returns the single
    metadata detail and stores it in the details cache under the audit
    id. *)
Theorem metadata_details_need_no_request api co auditId entityLogicalName entry w :
  Service.isMetadataEntry (Some entry) = true ->
  Service.getAuditDetails api (withMetadata rt co) auditId entityLogicalName (Some entry) w
  = (Return (map metadata (parseMetadataAuditDetail rt entry)),
     set_detailsCache auditId (map metadata (parseMetadataAuditDetail rt entry)) w)
  /\ length (parseMetadataAuditDetail rt entry) = 1%nat
  /\ (forall e, Service.isMetadataEntry (Some e) = true <-> 100 <= entry_action e <= 104).
Proof.
  intros Hmeta. split; [|split; [reflexivity|]].
  - unfold Service.getAuditDetails. rewrite Hmeta. reflexivity.
  - intros e. unfold Service.isMetadataEntry, Helpers.METADATA_ACTION_CODES.
    cbn [existsb]. rewrite !orb_true_iff, !Z.eqb_eq. lia.
Qed.

End MetadataChanges.

Lemma audited_column_is_resolved_witness :
  exists d,
    MetadataParser.parseMetadataAuditDetail Samples.accountColumns Samples.columnAuditChange
    = [d]
    /\ metadata_attributeDisplayName d = Some "Annual Revenue"%string
    /\ attributeLogicalName d = Some "revenue"%string.
Proof.
  destruct (audited_column_is_resolved Samples.accountColumns Samples.columnAuditChange
              7 [Samples.revenue] Samples.revenue eq_refl eq_refl eq_refl eq_refl eq_refl)
    as (d & Hparse & _ & Hdisplay & Hlogical).
  exists d. split; [exact Hparse|]. split; [exact Hdisplay|exact Hlogical].
Defined.

Lemma metadata_details_need_no_request_witness :
  trace (snd (Service.getAuditDetails Fixtures.down
                (MetadataParser.withMetadata Samples.accountColumns Fixtures.plain)
                "m1" "account" (Some Samples.columnAuditChange) emptyWorld))
  = [].
Proof.
  destruct (metadata_details_need_no_request Samples.accountColumns Fixtures.down
              Fixtures.plain "m1" "account" Samples.columnAuditChange emptyWorld eq_refl)
    as [Hrun _].
  rewrite Hrun. reflexivity.
Defined.

(** ** The hook between two renders *)

Section HookCycle.
Import Parsers Pagination Hooks.

Variables (api : DataverseAPI) (co : Collaborators).
Implicit Types (h : LogsHook) (w : World).

(** X25. Scenario D, for every filter: each filter setter other than the
    attribute selection resets the pagination hook to its initial state
    (page 1, page size 50, no cursor in flight, empty cursor cache), so
    that the next fetch asks for page 1 without cursor, and empties both
    the hook's details map and the service's details cache.  The attribute
    selection changes the filters only.  No setter sends a request, touches
    the rows shown or the principal name cache. *)
Theorem filter_change_resets_paging a h w :
  exists h' w',
    dispatch a h w = (Return h', w')
    /\ filters h' = Filters.filterReducer (filters h) a
    /\ entries h' = entries h
    /\ trace w' = trace w
    /\ principalNameCache w' = principalNameCache w
    /\ match a with
       | Filters.SET_ATTRIBUTES _ =>
           paging h' = paging h /\ detailsMap h' = detailsMap h
           /\ detailsCache w' = detailsCache w
       | _ =>
           paging h' = initialHook /\ detailsMap h' = ∅ /\ detailsCache w' = ∅
           /\ paginationWithCookie (paging h') = initialPaginationState
       end.
Proof.
  unfold dispatch, handleFilterChange, Service.clearAuditDetailsCache, modify,
    mbind, M_bind, mbindM, mret, M_ret, ret.
  destruct a; eexists _, _; (split; [reflexivity|]); cbn; repeat split; reflexivity.
Qed.

(** The awaited call changes neither cache, and the record history brings
    no details. *)
Lemma requestPage_frame f p w :
  exists out w',
    requestPage api co f p w = (out, w')
    /\ detailsCache w' = detailsCache w
    /\ principalNameCache w' = principalNameCache w
    /\ forall answer, out = Return answer -> snd answer = None \/ snd answer = Some ∅.
Proof.
  unfold requestPage.
  destruct (truthy (recordId f) && (length (tableLogicalNames f) =? 1)%nat).
  - unfold Service.getRecordChangeHistory, catch, mbind, M_bind, mbindM, lift,
      mret, M_ret, ret, call_fetchXmlQuery.
    destruct (buildHistoryFetchXml co _ _) as [q|e]; cbn.
    2: { eexists _, _. split; [reflexivity|]. repeat split; intros ? [=]. }
    destruct (fetchXmlQuery api (trace w) q) as [[resp|]|e]; cbn.
    + destruct (length (Service.rowsOf resp) =? 0)%nat; cbn;
        eexists _, _; (split; [reflexivity|]); cbn; repeat split;
        intros ? [= <-]; by right.
    + eexists _, _; (split; [reflexivity|]); cbn; repeat split; intros ? [= <-]; by right.
    + eexists _, _; (split; [reflexivity|]); cbn; repeat split; intros ? [= <-]; by right.
  - unfold mbind, M_bind, mbindM, mret, M_ret, ret.
    unfold Service.queryAuditLogs, catch, mbind, M_bind, mbindM, lift, mret, M_ret, ret,
      call_fetchXmlQuery.
    destruct (buildAuditFetchXml co _ _ _ _) as [q|e]; cbn.
    2: { eexists _, _. split; [reflexivity|]. repeat split. intros ? [= <-]. by left. }
    destruct (fetchXmlQuery api (trace w) q) as [[resp|]|e]; cbn.
    + destruct (length (Service.rowsOf resp) =? 0)%nat; cbn;
        eexists _, _; (split; [reflexivity|]); cbn; repeat split;
        intros ? [= <-]; by left.
    + eexists _, _; (split; [reflexivity|]); cbn; repeat split; intros ? [= <-]; by left.
    + eexists _, _; (split; [reflexivity|]); cbn; repeat split; intros ? [= <-]; by left.
Qed.

(** X26. A fetch cycle never throws and never changes the filters, the
    details map, the page number, the page size, or either service cache:
    in particular the record history adds no details to the map.  When the
    hook is not connected nothing happens at all; otherwise the loading
    flag is down at the end. *)
Theorem fetch_leaves_filters_and_details isConnected h w :
  exists h' w',
    fetchAuditLogs api co isConnected h w = (Return h', w')
    /\ filters h' = filters h
    /\ detailsMap h' = detailsMap h
    /\ pageNumber (pagination (paging h')) = pageNumber (pagination (paging h))
    /\ pageSize (pagination (paging h')) = pageSize (pagination (paging h))
    /\ detailsCache w' = detailsCache w
    /\ principalNameCache w' = principalNameCache w
    /\ (if isConnected then isLoading h' = false else h' = h /\ w' = w).
Proof.
  unfold fetchAuditLogs, catch, mbind, M_bind, mbindM, mret, M_ret, ret.
  destruct isConnected; cbn [negb]; [|by eexists _, _].
  destruct (requestPage_frame (filters h) (paginationWithCookie (paging h)) w)
    as (out & w' & -> & Hd & Hp & Hdetails).
  destruct out as [answer|e].
  - eexists _, _. split; [reflexivity|]. cbn. repeat split; try done.
    destruct (Hdetails answer eq_refl) as [->| ->]; [done|]. apply (left_id_L ∅ (∪)).
  - eexists _, _. split; [reflexivity|]. cbn. repeat split; done.
Qed.

(** [loadDetails] always returns; it leaves the rows alone, and either
    leaves the service state alone or ends with details for the row. *)
Lemma loadDetails_outcome entryId name h w :
  exists h' w',
    loadDetails api co entryId name h w = (Return h', w')
    /\ entries h' = entries h
    /\ (w' = w \/ is_Some (detailsMap h' !! entryId)).
Proof.
  unfold loadDetails.
  destruct (detailsMap h !! entryId) as [d|] eqn:Hmap.
  { exists h, w. split; [reflexivity|]. split; [reflexivity|by left]. }
  unfold Service.getCachedDetails, gets, mbind, M_bind, mbindM, mret, M_ret, ret.
  destruct (detailsCache w !! entryId) as [c|] eqn:Hcache.
  { eexists _, _. split; [reflexivity|]. split; [reflexivity|by left]. }
  destruct (negb _) eqn:Hname.
  { exists h, w. split; [reflexivity|]. split; [reflexivity|by left]. }
  unfold catch.
  match goal with
  | |- context [Service.getAuditDetails api co entryId ?n ?e w] =>
      destruct (getAuditDetails_returns api co entryId n e w) as (details & w' & ->)
  end.
  eexists _, _. split; [reflexivity|]. split; [reflexivity|]. right.
  cbn [detailsMap with_details]. rewrite lookup_insert_eq. by eexists.
Qed.

Lemma loadDetails_loaded entryId name h w :
  is_Some (detailsMap h !! entryId) -> loadDetails api co entryId name h w = (Return h, w).
Proof. intros [d Hd]. unfold loadDetails. by rewrite Hd. Qed.

(** X27. [loadDetails] never throws and is idempotent: once it has
    returned, the same call from the state it left changes nothing and
    sends no request. *)
Theorem loadDetails_is_idempotent entryId name h w :
  exists h1 w1,
    loadDetails api co entryId name h w = (Return h1, w1)
    /\ loadDetails api co entryId name h1 w1 = (Return h1, w1).
Proof.
  unfold loadDetails at 1.
  destruct (detailsMap h !! entryId) as [d|] eqn:Hmap.
  { exists h, w. split; [reflexivity|]. unfold loadDetails. by rewrite Hmap. }
  unfold Service.getCachedDetails, gets, mbind, M_bind, mbindM, mret, M_ret, ret.
  destruct (detailsCache w !! entryId) as [c|] eqn:Hcache.
  { eexists _, _. split; [reflexivity|]. unfold loadDetails. cbn [detailsMap with_details].
    by rewrite lookup_insert_eq. }
  destruct (negb _) eqn:Hname.
  { exists h, w. split; [reflexivity|]. unfold loadDetails.
    rewrite Hmap. unfold Service.getCachedDetails, gets, mbind, M_bind, mbindM.
    rewrite Hcache. by rewrite Hname. }
  unfold catch.
  match goal with
  | |- context [Service.getAuditDetails api co entryId ?n ?e w] =>
      destruct (getAuditDetails_returns api co entryId n e w) as (details & w' & ->)
  end.
  eexists _, _. split; [reflexivity|]. unfold loadDetails. cbn [detailsMap with_details].
  by rewrite lookup_insert_eq.
Qed.

(** X28. After a fetch of page [n] that did not fail, from a well-formed
    state: page [n + 1] can be navigated to exactly when the fetch brought
    a cursor or page [n + 1] had a cached cursor before; and when the fetch
    brought a cursor, that cursor is now cached for page [n + 1] and is the
    one the fetch of page [n + 1] will send after [setPage (n + 1)]. *)
Theorem fetched_cursor_opens_next_page h w h' w' :
  wellFormed (paging h) ->
  fetchAuditLogs api co true h w = (Return h', w') ->
  error h' = None ->
  let next := pageNumber (pagination (paging h)) + 1 in
  (canNavigateToPage (paging h') next = true
   <-> truthy (pagingCookieRef (paging h')) = true
       \/ is_Some (pagingCookieCacheRef (paging h) !! next))
  /\ (truthy (pagingCookieRef (paging h')) = true ->
      pagingCookieCacheRef (paging h') !! next = pagingCookieRef (paging h')
      /\ paginationWithCookie (paging (setPage next h'))
         = {| pageNumber := next;
              pageSize := pageSize (pagination (paging h));
              totalCount := totalCount (pagination (paging h'));
              pagingCookie := pagingCookieRef (paging h');
              nextLink := nextLink (pagination (paging h));
              hasMoreRecords := hasMoreRecords (pagination (paging h')) |}).
Proof.
  intros [Hpage Hcache].
  unfold fetchAuditLogs, catch, mbind, M_bind, mbindM, mret, M_ret, ret. cbn [negb].
  destruct (requestPage api co (filters h) (paginationWithCookie (paging h)) w)
    as [[answer|e] w1]; intros [= <- _] Herr;
    set (next := pageNumber (pagination (paging h)) + 1).
  - unfold canNavigateToPage, has. rewrite commitFetch_cache, commitFetch_ref.
    cbn [paging startFetch commitFetch pagination pageNumber].
    fold next.
    destruct (Z.eqb_spec next 1) as [Hone|Hone]; [unfold next in Hone; lia|].
    rewrite Z.eqb_refl. cbn [andb].
    destruct (Service.pagingCookie (fst answer)) as [c|] eqn:Hc; cbn [truthy default].
    + destruct (truthy_string c) eqn:Ht.
      * split; [split; [by left|done]|]. intros _.
        split; [by rewrite lookup_insert_eq|].
        unfold setPage, Pagination.setPage, paginationWithCookie.
        cbn [paging with_paging commitFetch pagination pageNumber startFetch].
        fold next.
        destruct (Z.eqb_spec next (pageNumber (pagination (paging h))));
          [unfold next in *; lia|].
        destruct (Z.eqb_spec next 1); [done|]. rewrite Z.eqb_refl.
        cbn. by rewrite Hc.
      * split; [|done].
        destruct (pagingCookieCacheRef (paging h) !! next) as [x|];
          (split; [intros H|intros [H|H]]); try done; try (by right).
    + split; [|done].
      destruct (pagingCookieCacheRef (paging h) !! next) as [x|];
        (split; [intros H|intros [H|H]]); try done; try (by right).
  - discriminate.
Qed.

End HookCycle.

Lemma fetched_cursor_opens_next_page_witness :
  exists h' w',
    Hooks.fetchAuditLogs Fixtures.scripted Fixtures.plain true Hooks.initialLogs emptyWorld
    = (Return h', w')
    /\ Pagination.canNavigateToPage (Hooks.paging h') 2 = true.
Proof.
  eassert (Hrun : Hooks.fetchAuditLogs Fixtures.scripted Fixtures.plain true
                    Hooks.initialLogs emptyWorld = (Return _, _)).
  { vm_compute. reflexivity. }
  destruct (fetched_cursor_opens_next_page Fixtures.scripted Fixtures.plain
              Hooks.initialLogs emptyWorld _ _ initialHook_wellFormed Hrun eq_refl)
    as [Hnext _].
  eexists _, _. split; [exact Hrun|]. apply Hnext. left. reflexivity.
Defined.

(** ** Expanding a row *)

Section RowExpansion.
Import Hooks Expansion.

Variables (api : DataverseAPI) (co : Parsers.Collaborators).
Implicit Types (h : LogsHook) (w : World).

Lemma flip_flip e : flip (flip e) = e.
Proof. destruct e. unfold flip. cbn. by rewrite negb_involutive. Qed.

Lemma toggleEntries_twice entryId es : toggleEntries entryId (toggleEntries entryId es) = es.
Proof.
  unfold toggleEntries. rewrite map_map. rewrite <- (map_id es) at 2.
  apply map_ext. intros e. destruct (String.eqb (id e) entryId) eqn:He; cbn.
  - change (id (flip e)) with (id e). rewrite He. apply flip_flip.
  - by rewrite He.
Qed.

Lemma toggleEntries_ids entryId es : map id (toggleEntries entryId es) = map id es.
Proof.
  unfold toggleEntries. rewrite map_map. apply map_ext.
  intros e. by destruct (String.eqb (id e) entryId).
Qed.

Lemma find_toggled entryId es :
  List.find (fun e => String.eqb (id e) entryId) (toggleEntries entryId es)
  = flip <$> List.find (fun e => String.eqb (id e) entryId) es.
Proof.
  induction es as [|e es IH]; [reflexivity|].
  cbn [toggleEntries map List.find]. destruct (String.eqb (id e) entryId) eqn:He.
  - change (id (flip e)) with (id e). by rewrite He.
  - rewrite He. exact IH.
Qed.

Lemma toggleEntries_lookup entryId es (i : nat) e :
  es !! i = Some e ->
  toggleEntries entryId es !! i = Some (if String.eqb (id e) entryId then flip e else e).
Proof.
  revert i. induction es as [|x es IH]; intros [|i]; cbn; try done.
  - by intros [= ->].
  - apply IH.
Qed.

(** X29. Two clicks on the same row never throw and bring the rows back to
    what they were; a click keeps every row in its place, flips the
    expansion flag of the rows with the id clicked and leaves every other
    row as it was; and at most one of the two clicks changes the state of
    the service: collapsing asks for nothing, and details loaded by the
    first click are not asked for again. *)
Theorem toggle_twice_restores_rows entryId h w :
  exists h1 w1 h2 w2,
    toggleExpanded api co entryId h w = (Return h1, w1)
    /\ toggleExpanded api co entryId h1 w1 = (Return h2, w2)
    /\ map id (entries h1) = map id (entries h)
    /\ (forall (i : nat) e,
          entries h !! i = Some e ->
          entries h1 !! i = Some (if String.eqb (id e) entryId then flip e else e))
    /\ entries h2 = entries h
    /\ (w1 = w \/ w2 = w1).
Proof.
  unfold toggleExpanded at 1.
  destruct (List.find (fun e => String.eqb (id e) entryId) (entries h)) as [e|] eqn:Hfind.
  - destruct (isExpanded e) eqn:Hexpanded; cbn [negb].
    + (* the row is collapsed by the first click, expanded by the second *)
      unfold mret, M_ret, ret.
      exists (with_entries h (toggleEntries entryId (entries h))), w.
      unfold toggleExpanded.
      cbn [entries with_entries]. rewrite find_toggled, Hfind.
      cbn [fmap option_fmap option_map flip isExpanded].
      rewrite Hexpanded. cbn [negb].
      unfold mbind, M_bind, mbindM, mret, M_ret, ret.
      destruct (loadDetails_outcome api co entryId None
                  (with_entries h (toggleEntries entryId (entries h))) w)
        as (h' & w' & -> & Hentries & _).
      eexists _, _. split; [reflexivity|]. split; [reflexivity|].
      split; [apply toggleEntries_ids|].
      split; [intros i e0; apply toggleEntries_lookup|]. split; [|by left].
      cbn [entries with_entries]. rewrite Hentries. cbn [entries with_entries].
      apply toggleEntries_twice.
    + (* expanded by the first click, collapsed by the second *)
      unfold mbind, M_bind, mbindM, mret, M_ret, ret.
      destruct (loadDetails_outcome api co entryId None h w) as (h' & w' & -> & Hentries & _).
      exists (with_entries h' (toggleEntries entryId (entries h'))), w'.
      unfold toggleExpanded. cbn [entries with_entries].
      rewrite find_toggled, Hentries, Hfind.
      cbn [fmap option_fmap option_map flip isExpanded]. rewrite Hexpanded. cbn [negb].
      eexists _, _. split; [reflexivity|]. split; [reflexivity|].
      split; [apply toggleEntries_ids|].
      split; [intros i e0; apply toggleEntries_lookup|]. split; [|by right].
      cbn [entries with_entries]. apply toggleEntries_twice.
  - (* no such row: both clicks ask for the details *)
    cbn [negb]. unfold mbind, M_bind, mbindM, mret, M_ret, ret.
    destruct (loadDetails_outcome api co entryId None h w) as (h' & w' & Hload & Hentries & Hstate).
    rewrite Hload.
    exists (with_entries h' (toggleEntries entryId (entries h'))), w'.
    unfold toggleExpanded. cbn [entries with_entries].
    rewrite find_toggled, Hentries, Hfind. cbn [fmap option_fmap option_map negb].
    unfold mbind, M_bind, mbindM, mret, M_ret, ret.
    destruct (loadDetails_outcome api co entryId None
                (with_entries h' (toggleEntries entryId (entries h))) w')
      as (h'' & w'' & Hload' & Hentries' & _).
    rewrite Hload'.
    eexists _, _. split; [reflexivity|]. split; [reflexivity|].
    split; [apply toggleEntries_ids|].
    split; [intros i e0; apply toggleEntries_lookup|]. split.
    + cbn [entries with_entries]. rewrite Hentries'. cbn [entries with_entries].
      apply toggleEntries_twice.
    + destruct Hstate as [->|Hloaded]; [by left|right].
      rewrite (loadDetails_loaded api co) in Hload' by exact Hloaded. by injection Hload' as _ <-.
Qed.

End RowExpansion.

(** ** Sorting *)

Section SortCycle.
Import Sorting.

(** X30. Clicks on one column header cycle through three states:
    descending, ascending, unsorted; so the fourth click leaves the state
    the first one left.  A click leaves the list unsorted exactly when it
    hits the column that was sorted ascending, and after a click the column
    and the direction are both set or both empty. *)
Theorem sort_click_cycles_in_three clicked s :
  setSort clicked (setSort clicked (setSort clicked (setSort clicked s))) = setSort clicked s
  /\ (unsorted (setSort clicked s) = true
      <-> same_column (column s) clicked = true /\ direction s = Some asc)
  /\ (column (setSort clicked s) = None <-> direction (setSort clicked s) = None).
Proof.
  destruct s as [[c|] [[|]|]]; destruct clicked; try destruct c; cbn;
    (split; [reflexivity|]); split; split; (done || (by intros []) || (by split)).
Qed.

End SortCycle.
